(** * LocalChatBot: a shallow embedding of the memory pipeline

    The development follows the three source modules:
    - [ollama_interface.py]: [get_embedding], [get_chat_response];
    - [memory_manager.py]: [save_conversation_turn], [load_raw_history],
      [retrieve_relevant_history];
    - [chat.py]: [format_retrieved_history_for_prompt].

    Python objects are values of the type [value]; an exception is a value
    of [exn] carrying its class, and [except C] matches through the method
    resolution order of that class.  Code that touches the file system, the
    network, the vector store or the console runs in a state-and-exception
    monad over the record [world]; what the outside answers (HTTP replies,
    I/O errors) is given by a record [env]. *)

From Stdlib Require Import ZArith String Ascii List Lia Floats.PrimFloat.
From stdpp Require Import base option list strings pretty.

Set Warnings "-register-all".
Set Default Proof Using "Type".

(** ** Python values *)

(** Text is a sequence of characters with code points below 256. *)
Inductive value : Type :=
| VNone
| VBool (b : bool)
| VInt (z : Z)
| VFloat (f : PrimFloat.float)
| VStr (s : string)
| VList (l : list value)
| VDict (d : list (string * value)).

(** [bool(v)], the test of [if v:] and [if not v:]. *)
Definition truthy (v : value) : bool :=
  match v with
  | VNone => false
  | VBool b => b
  | VInt z => negb (z =? 0)%Z
  | VFloat f => negb (PrimFloat.eqb f PrimFloat.zero)
  | VStr s => negb (String.eqb s "")
  | VList l => negb (Nat.eqb (length l) 0)
  | VDict d => negb (Nat.eqb (length d) 0)
  end.

(** Lookup of a key in a [dict] with string keys. *)
Fixpoint dict_lookup (k : string) (d : list (string * value)) : option value :=
  match d with
  | [] => None
  | (k', v) :: d' => if String.eqb k k' then Some v else dict_lookup k d'
  end.

(** ** Exceptions *)

Inductive exn_class : Type :=
| Exception
| OSError                  (* [IOError] is an alias of [OSError] *)
| FileNotFoundError
| PermissionError
| ValueError
| JSONDecodeError          (* json.JSONDecodeError *)
| UnicodeError
| UnicodeDecodeError
| RuntimeError
| RecursionError
| LookupError
| KeyError
| IndexError
| TypeError
| AttributeError
| NameError
| UnboundLocalError
| RequestException         (* requests.exceptions.RequestException *)
| ConnectionError
| HTTPError
| InvalidJSONError
| RequestsJSONDecodeError  (* requests.exceptions.JSONDecodeError *)
| ChromaError
| DuplicateIDError.

#[global] Instance exn_class_eq_dec : EqDecision exn_class.
Proof. solve_decision. Defined.

(** The method resolution order of each class (without [BaseException] and
    [object], which no handler of the program names). *)
Definition mro (c : exn_class) : list exn_class :=
  match c with
  | Exception => [Exception]
  | OSError => [OSError; Exception]
  | FileNotFoundError => [FileNotFoundError; OSError; Exception]
  | PermissionError => [PermissionError; OSError; Exception]
  | ValueError => [ValueError; Exception]
  | JSONDecodeError => [JSONDecodeError; ValueError; Exception]
  | UnicodeError => [UnicodeError; ValueError; Exception]
  | UnicodeDecodeError => [UnicodeDecodeError; UnicodeError; ValueError; Exception]
  | RuntimeError => [RuntimeError; Exception]
  | RecursionError => [RecursionError; RuntimeError; Exception]
  | LookupError => [LookupError; Exception]
  | KeyError => [KeyError; LookupError; Exception]
  | IndexError => [IndexError; LookupError; Exception]
  | TypeError => [TypeError; Exception]
  | AttributeError => [AttributeError; Exception]
  | NameError => [NameError; Exception]
  | UnboundLocalError => [UnboundLocalError; NameError; Exception]
  | RequestException => [RequestException; OSError; Exception]
  | ConnectionError => [ConnectionError; RequestException; OSError; Exception]
  | HTTPError => [HTTPError; RequestException; OSError; Exception]
  | InvalidJSONError => [InvalidJSONError; RequestException; OSError; Exception]
  | RequestsJSONDecodeError =>
      [RequestsJSONDecodeError; InvalidJSONError; RequestException; OSError;
       JSONDecodeError; ValueError; Exception]
  | ChromaError => [ChromaError; Exception]
  | DuplicateIDError => [DuplicateIDError; ChromaError; Exception]
  end.

Record exn : Type := mk_exn { exn_type : exn_class; exn_str : string }.

Definition subclass (c d : exn_class) : bool :=
  existsb (fun b => if exn_class_eq_dec b d then true else false) (mro c).

Definition isinstance (e : exn) (c : exn_class) : bool := subclass (exn_type e) c.

(** ** Results and the monad of effects *)

Inductive outcome (A : Type) : Type :=
| Ret (a : A)
| Raise (e : exn).
Arguments Ret {A} a.
Arguments Raise {A} e.

Definition obind {A B : Type} (o : outcome A) (k : A -> outcome B) : outcome B :=
  match o with
  | Ret a => k a
  | Raise e => Raise e
  end.

Notation "'let?' x := o 'in' k" := (obind o (fun x => k))
  (at level 10, x name, o at level 100, k at level 200).

(** ** Operations on values that the program uses *)

(** [v[k]] for a string key. *)
Definition py_getitem (v : value) (k : string) : outcome value :=
  match v with
  | VDict d =>
      match dict_lookup k d with
      | Some x => Ret x
      | None => Raise (mk_exn KeyError ("'" +:+ k +:+ "'"))
      end
  | VList _ => Raise (mk_exn TypeError "list indices must be integers or slices, not str")
  | VStr _ => Raise (mk_exn TypeError "string indices must be integers")
  | _ => Raise (mk_exn TypeError "object is not subscriptable")
  end.

(** [v.get(k, dflt)]. *)
Definition py_get (v : value) (k : string) (dflt : value) : outcome value :=
  match v with
  | VDict d => Ret (default dflt (dict_lookup k d))
  | _ => Raise (mk_exn AttributeError "object has no attribute 'get'")
  end.

(** [v[i]] for an integer index [i >= 0]. *)
Definition py_index (v : value) (i : nat) : outcome value :=
  match v with
  | VList l =>
      match l !! i with
      | Some x => Ret x
      | None => Raise (mk_exn IndexError "list index out of range")
      end
  | VStr s =>
      match String.get i s with
      | Some c => Ret (VStr (String c EmptyString))
      | None => Raise (mk_exn IndexError "string index out of range")
      end
  | VDict _ => Raise (mk_exn KeyError (pretty i))
  | _ => Raise (mk_exn TypeError "object is not subscriptable")
  end.

(** The items that [for x in v] runs through. *)
Definition py_iter (v : value) : outcome (list value) :=
  match v with
  | VList l => Ret l
  | VStr s => Ret ((fun c => VStr (String c EmptyString)) <$> list_ascii_of_string s)
  | VDict d => Ret ((fun kv => VStr (fst kv)) <$> d)
  | _ => Raise (mk_exn TypeError "object is not iterable")
  end.

(** Characters that [str.strip()] removes, among the code points below 256. *)
Definition is_space (c : ascii) : bool :=
  let n := nat_of_ascii c in
  ((9 <=? n) && (n <=? 13)) || ((28 <=? n) && (n <=? 32)) || (n =? 133) || (n =? 160).

Fixpoint lstrip (s : string) : string :=
  match s with
  | EmptyString => EmptyString
  | String c r => if is_space c then lstrip r else s
  end.

(** [rstrip s] drops the trailing run of white space. *)
Fixpoint rstrip (s : string) : string :=
  match s with
  | EmptyString => EmptyString
  | String c r =>
      match rstrip r with
      | EmptyString => if is_space c then EmptyString else String c EmptyString
      | r' => String c r'
      end
  end.

Definition strip (s : string) : string := rstrip (lstrip s).

(** [v.strip()]. *)
Definition py_strip (v : value) : outcome string :=
  match v with
  | VStr s => Ret (strip s)
  | _ => Raise (mk_exn AttributeError "object has no attribute 'strip'")
  end.

(** [str(z)] for an [int]. *)
Definition str_of_int (z : Z) : string := pretty z.

(** The line feed character, written [\n] in the source. *)
Definition nl : string := String "010" EmptyString.

(** The lines that iterating over a text file yields: each one keeps its
    line feed, and a last line without one is yielded as it is.  The text
    is what Python's text layer presents, after newline translation. *)
Fixpoint readlines_from (cur : string) (s : string) : list string :=
  match s with
  | EmptyString => if String.eqb cur "" then [] else [cur]
  | String c r =>
      if Ascii.eqb c "010"
      then (cur +:+ nl) :: readlines_from "" r
      else readlines_from (cur +:+ String c EmptyString) r
  end.

Definition readlines (s : string) : list string := readlines_from "" s.

(** Whether a text has a line feed, and whether it ends at a line boundary. *)
Fixpoint contains_nl (s : string) : bool :=
  match s with
  | EmptyString => false
  | String c r => Ascii.eqb c "010" || contains_nl r
  end.

Definition newline_terminated (s : string) : Prop :=
  s = "" \/ exists s', s = s' +:+ nl.

(** ** The outside world *)

(** An HTTP reply as [requests] presents it. *)
Record response : Type := mk_response { response_status_code : Z; response_text : string }.

(** What the outside answers during one operation.  [http_post url body] is
    the reply to [requests.post(url, json=body)], or the message of the
    [RequestException] that the call raises (no connection, time-out).
    The next three fields give the message of the [OSError] of a failing
    [open] or [f.write]; for [f.write], with the number of characters that
    reached the file before it.  The last one tells of a file whose bytes
    are not UTF-8: the number of lines that the iteration over the file
    yields before the decoder meets them, and the message of the
    [UnicodeDecodeError] it then raises. *)
Record env : Type := mk_env {
  http_post : string -> value -> string + response;
  open_append_error : option string;
  write_error : option (string * nat);
  open_read_error : option string;
  read_decode_error : option (nat * string);
}.

(** Calls that leave the process, in the order they are made. *)
Inductive event : Type :=
| EvPost (url : string) (body : value)
| EvExists (path : string)
| EvOpen (path : string) (mode : string)
| EvWrite (data : string)
| EvCount
| EvAdd (ids : list string) (embeddings : list value)
        (documents : list string) (metadatas : list value)
| EvQuery (query_embeddings : list value) (n_results : Z) (include : list string).

(** The operations of a ChromaDB collection that the program calls.  [C] is
    the state of the persistent collection; [coll_add] is the only one of
    the three that changes it. *)
Class Collection (C : Type) : Type := {
  coll_count : C -> outcome Z;
  coll_add : C -> list string -> list value -> list string -> list value ->
             outcome unit * C;
  coll_query : C -> list value -> Z -> list string -> outcome value;
}.

(** ** The monad of effects *)

Section Effects.

Context {C : Type} `{!Collection C}.

(** The state the program reads and changes: the module-level
    [collection] ([None] when the initialisation at import failed), the
    text of the history file ([None] when there is no such file), what
    was printed, and the calls made so far. *)
Record world : Type := mk_world {
  collection : option C;
  history_file : option string;
  stdout : list string;
  trace : list event;
}.

Definition M (A : Type) : Type := world -> outcome A * world.

Definition ret {A : Type} (a : A) : M A := fun w => (Ret a, w).

Definition bind {A B : Type} (m : M A) (k : A -> M B) : M B :=
  fun w =>
    match m w with
    | (Ret a, w') => k a w'
    | (Raise e, w') => (Raise e, w')
    end.

Definition lift {A : Type} (o : outcome A) : M A := fun w => (o, w).

Definition handler (A : Type) : Type := exn_class * (exn -> M A).

(** The first [except] clause whose class the exception is an instance
    of runs; with none, the exception goes on. *)
Definition handle {A : Type} (handlers : list (handler A)) (e : exn) : M A :=
  match find (fun h => isinstance e (fst h)) handlers with
  | Some h => snd h e
  | None => lift (Raise e)
  end.

Definition try_except {A : Type} (body : M A) (handlers : list (handler A)) : M A :=
  fun w =>
    match body w with
    | (Ret a, w') => (Ret a, w')
    | (Raise e, w') => handle handlers e w'
    end.

(** A [try] whose body first binds a local variable that the handlers
    read: the handlers see it unbound when the binding itself raised. *)
Definition try_except_local {L A : Type} (first : M L) (rest : L -> M A)
    (handlers : option L -> list (handler A)) : M A :=
  fun w =>
    match first w with
    | (Raise e, w1) => handle (handlers None) e w1
    | (Ret l, w1) =>
        match rest l w1 with
        | (Ret a, w2) => (Ret a, w2)
        | (Raise e, w2) => handle (handlers (Some l)) e w2
        end
    end.

Definition read_local {L : Type} (name : string) (l : option L) : M L :=
  match l with
  | Some x => ret x
  | None =>
      lift (Raise (mk_exn UnboundLocalError
                     ("cannot access local variable '" +:+ name +:+ "'")))
  end.

(** A [for] loop that carries the variables it updates. *)
Fixpoint for_each {A B : Type} (body : B -> A -> M B) (acc : B) (l : list A) : M B :=
  match l with
  | [] => ret acc
  | x :: l' => bind (body acc x) (fun acc' => for_each body acc' l')
  end.

(** Reading the module-level [collection]. *)
Definition global_collection : M (option C) := fun w => (Ret (collection w), w).

(** *** Console *)

Definition print (msg : string) : M unit :=
  fun w => (Ret tt, mk_world (collection w) (history_file w) (stdout w ++ [msg]) (trace w)).

Definition emit (ev : event) : M unit :=
  fun w => (Ret tt, mk_world (collection w) (history_file w) (stdout w) (trace w ++ [ev])).

(** *** Network: [requests.post(url, json=body)] *)

Definition requests_post (ev : env) (url : string) (body : value) : M response :=
  bind (emit (EvPost url body))
    (fun _ =>
       match http_post ev url body with
       | inl msg => lift (Raise (mk_exn ConnectionError msg))
       | inr r => ret r
       end).

(** [response.raise_for_status()]. *)
Definition raise_for_status (r : response) : outcome unit :=
  if ((400 <=? response_status_code r) && (response_status_code r <? 600))%Z
  then Raise (mk_exn HTTPError (str_of_int (response_status_code r) +:+ " Error"))
  else Ret tt.

(** *** The history file *)

Definition set_history_file (h : option string) (w : world) : world :=
  mk_world (collection w) h (stdout w) (trace w).

(** [os.path.exists(path)]. *)
Definition os_path_exists (path : string) : M bool :=
  bind (emit (EvExists path))
    (fun _ w => (Ret (bool_decide (is_Some (history_file w))), w)).

(** [open(path, "a")]: creates the file when there is none. *)
Definition open_append (ev : env) (path : string) : M unit :=
  bind (emit (EvOpen path "a"))
    (fun _ w =>
       match open_append_error ev with
       | Some msg => (Raise (mk_exn OSError msg), w)
       | None => (Ret tt, set_history_file (Some (default "" (history_file w))) w)
       end).

(** [f.write(data)] on the file opened for appending. *)
Definition file_write (ev : env) (data : string) : M unit :=
  bind (emit (EvWrite data))
    (fun _ w =>
       let old := default "" (history_file w) in
       match write_error ev with
       | Some (msg, n) =>
           (Raise (mk_exn OSError msg),
            set_history_file (Some (old +:+ substring 0 n data)) w)
       | None => (Ret tt, set_history_file (Some (old +:+ data)) w)
       end).

(** [open(path, "r")] followed by the iteration over the file: the lines
    that the iteration yields, and the exception that ends it when the
    bytes of the file are not UTF-8. *)
Definition open_read (ev : env) (path : string) : M (list string * option exn) :=
  bind (emit (EvOpen path "r"))
    (fun _ w =>
       match open_read_error ev, history_file w with
       | Some msg, _ => (Raise (mk_exn OSError msg), w)
       | None, None =>
           (Raise (mk_exn FileNotFoundError ("No such file or directory: " +:+ path)), w)
       | None, Some s =>
           match read_decode_error ev with
           | Some (n, msg) =>
               (Ret (take n (readlines s), Some (mk_exn UnicodeDecodeError msg)), w)
           | None => (Ret (readlines s, None), w)
           end
       end).

(** *** The collection: method calls on the module-level [collection] *)

Definition none_has_no (attribute : string) : exn :=
  mk_exn AttributeError ("'NoneType' object has no attribute '" +:+ attribute +:+ "'").

Definition collection_count : M Z :=
  fun w =>
    match collection w with
    | None => (Raise (none_has_no "count"), w)
    | Some c => bind (emit EvCount) (fun _ => lift (coll_count c)) w
    end.

Definition collection_add (ids : list string) (embeddings : list value)
    (documents : list string) (metadatas : list value) : M unit :=
  fun w =>
    match collection w with
    | None => (Raise (none_has_no "add"), w)
    | Some c =>
        bind (emit (EvAdd ids embeddings documents metadatas))
          (fun _ w' =>
             let (r, c') := coll_add c ids embeddings documents metadatas in
             (r, mk_world (Some c') (history_file w') (stdout w') (trace w')))
          w
    end.

Definition collection_query (query_embeddings : list value) (n_results : Z)
    (include : list string) : M value :=
  fun w =>
    match collection w with
    | None => (Raise (none_has_no "query"), w)
    | Some c =>
        bind (emit (EvQuery query_embeddings n_results include))
          (fun _ => lift (coll_query c query_embeddings n_results include)) w
    end.

End Effects.

Arguments world C : clear implicits.
Arguments M C A : clear implicits.

Notation "x <- m ;; k" := (bind m (fun x => k))
  (at level 20, m at level 99, k at level 200, only parsing).
Notation "m ;; k" := (bind m (fun _ => k))
  (at level 100, k at level 200, only parsing, right associativity).

(** ** ollama_interface.py *)

Definition OLLAMA_BASE_URL : string := "http://localhost:11434".
Definition GENERATION_MODEL_NAME : string := "gemma2:2b".
Definition EMBEDDING_MODEL_NAME : string := "mxbai-embed-large:335m-v1-fp16".

(** The two strings that [get_chat_response] returns in its handlers. *)
Definition transport_fallback : string := "Sorry, I encountered an error trying to respond.".
Definition malformed_fallback : string := "Sorry, I received an unreadable response.".

(** ** memory_manager.py and chat.py: data *)

(** A conversation turn, and the [dict] that the program builds for it. *)
Record Turn : Type := mk_turn { turn_id_of : string; user_text : string; bot_text : string }.

Definition turn_data_of (user_message bot_message turn_id : string) : value :=
  VDict [("id", VStr turn_id); ("user", VStr user_message); ("bot", VStr bot_message)].

Definition doc_of_turn (t : Turn) : value :=
  turn_data_of (user_text t) (bot_text t) (turn_id_of t).

(** [enumerate(l)]. *)
Definition enumerate {A : Type} (l : list A) : list (nat * A) := imap pair l.

Definition context_header : string :=
  "Relevant past conversation snippets (most relevant first):" +:+ nl +:+ "---" +:+ nl.

(** What the outside gives during one round of the loop of [main]: the
    clock and the random identifier read by [generate_turn_id], and the
    answers during each of the three calls that follow. *)
Record round_answers : Type := mk_round {
  clock : Z;
  uuid_hex : string;
  during_retrieve : env;
  during_generate : env;
  during_save : env;
}.

(** ** Reference models of the outside

    A JSON codec for the values without floats and a collection kept as a
    list, with which the program can be run on concrete inputs. *)

Module JsonRef.

Definition quote : ascii := "034".
Definition backslash : ascii := "092".

Definition hex_digit (n : nat) : ascii :=
  if n <? 10 then ascii_of_nat (48 + n) else ascii_of_nat (87 + n).

Definition hex_value (c : ascii) : option nat :=
  let n := nat_of_ascii c in
  if (48 <=? n) && (n <=? 57) then Some (n - 48)
  else if (97 <=? n) && (n <=? 102) then Some (n - 87)
  else if (65 <=? n) && (n <=? 70) then Some (n - 55)
  else None.

(** One character of a string as [json.dumps] writes it, with
    [ensure_ascii]. *)
Definition escape_char (c : ascii) : string :=
  let n := nat_of_ascii c in
  if Ascii.eqb c quote then String backslash (String quote EmptyString)
  else if Ascii.eqb c backslash then String backslash (String backslash EmptyString)
  else if n =? 10 then String backslash "n"
  else if n =? 13 then String backslash "r"
  else if n =? 9 then String backslash "t"
  else if n =? 8 then String backslash "b"
  else if n =? 12 then String backslash "f"
  else if (n <? 32) || (126 <? n)
       then String backslash
              (String "u" (String "0" (String "0"
                 (String (hex_digit (n / 16)) (String (hex_digit (n mod 16)) EmptyString)))))
  else String c EmptyString.

Fixpoint escape (s : string) : string :=
  match s with
  | EmptyString => EmptyString
  | String c r => escape_char c +:+ escape r
  end.

Definition dumps_str (s : string) : string :=
  String quote (escape s +:+ String quote EmptyString).

(** [json.dumps(v)] with the default separators.  The digits of a float
    are not modelled: one is written as [NaN]. *)
Fixpoint dumps (v : value) : string :=
  match v with
  | VNone => "null"
  | VBool true => "true"
  | VBool false => "false"
  | VInt z => str_of_int z
  | VFloat _ => "NaN"
  | VStr s => dumps_str s
  | VList l =>
      "[" +:+ (fix items (l : list value) : string :=
                 match l with
                 | [] => ""
                 | [x] => dumps x
                 | x :: l' => dumps x +:+ ", " +:+ items l'
                 end) l +:+ "]"
  | VDict d =>
      "{" +:+ (fix members (d : list (string * value)) : string :=
                 match d with
                 | [] => ""
                 | [(k, x)] => dumps_str k +:+ ": " +:+ dumps x
                 | (k, x) :: d' => dumps_str k +:+ ": " +:+ dumps x +:+ ", " +:+ members d'
                 end) d +:+ "}"
  end.

Definition is_ws (c : ascii) : bool :=
  let n := nat_of_ascii c in (n =? 32) || (n =? 9) || (n =? 10) || (n =? 13).

Fixpoint skip_ws (s : string) : string :=
  match s with
  | EmptyString => EmptyString
  | String c r => if is_ws c then skip_ws r else s
  end.

Definition unescape (c : ascii) : option ascii :=
  let n := nat_of_ascii c in
  if Ascii.eqb c quote then Some quote
  else if Ascii.eqb c backslash then Some backslash
  else if n =? 47 then Some c
  else if n =? 110 then Some (ascii_of_nat 10)
  else if n =? 114 then Some (ascii_of_nat 13)
  else if n =? 116 then Some (ascii_of_nat 9)
  else if n =? 98 then Some (ascii_of_nat 8)
  else if n =? 102 then Some (ascii_of_nat 12)
  else None.

Definition hex4 (a b c d : ascii) : option nat :=
  match hex_value a, hex_value b, hex_value c, hex_value d with
  | Some x, Some y, Some z, Some t => Some (((x * 16 + y) * 16 + z) * 16 + t)
  | _, _, _, _ => None
  end.

Definition cons_char (c : ascii) (r : option (string * string)) : option (string * string) :=
  match r with
  | Some (str, rest) => Some (String c str, rest)
  | None => None
  end.

(** The rest of a string literal, after its opening quote: the text and
    what follows the closing quote. *)
Fixpoint parse_string (s : string) : option (string * string) :=
  match s with
  | EmptyString => None
  | String c r =>
      if Ascii.eqb c quote then Some (EmptyString, r)
      else if Ascii.eqb c backslash then
        match r with
        | EmptyString => None
        | String e r' =>
            match unescape e with
            | Some c' => cons_char c' (parse_string r')
            | None =>
                if Ascii.eqb e "u" then
                  match r' with
                  | String h1 (String h2 (String h3 (String h4 r''))) =>
                      match hex4 h1 h2 h3 h4 with
                      | Some n =>
                          if n <? 256 then cons_char (ascii_of_nat n) (parse_string r'')
                          else None
                      | None => None
                      end
                  | _ => None
                  end
                else None
            end
        end
      else if nat_of_ascii c <? 32 then None
      else cons_char c (parse_string r)
  end.

(** What reading a value off a text gives: the value and the rest of the
    text; nothing, the text not being JSON there; or the exception that
    the conversion of a literal raises. *)
Inductive parsed (A : Type) : Type :=
| Parsed (a : A) (rest : string)
| Invalid
| Refused (e : exn).
Arguments Parsed {A} a rest.
Arguments Invalid {A}.
Arguments Refused {A} e.

Definition digit_value (c : ascii) : option Z :=
  let n := nat_of_ascii c in
  if (48 <=? n) && (n <=? 57) then Some (Z.of_nat (n - 48)) else None.

(** The digits of a literal: their value, their number and the rest. *)
Fixpoint parse_digits (acc : Z) (count : nat) (s : string) : Z * nat * string :=
  match s with
  | EmptyString => (acc, count, s)
  | String c r =>
      match digit_value c with
      | Some dgt => parse_digits (10 * acc + dgt) (S count) r
      | None => (acc, count, s)
      end
  end.

(** The number of digits up to which [int] converts a text
    ([sys.get_int_max_str_digits()]). *)
Definition max_str_digits : nat := 4300.

Definition digits_refused : exn :=
  mk_exn ValueError "Exceeds the limit (4300 digits) for integer string conversion".

(** An integer literal; a fraction or an exponent after it is refused. *)
Definition parse_int (s : string) : parsed Z :=
  let '(negative, s1) :=
    match s with
    | String "-" r => (true, r)
    | _ => (false, s)
    end in
  match s1 with
  | String c r =>
      match digit_value c with
      | Some dgt =>
          let '(n, count, rest) :=
            if (dgt =? 0)%Z then (0%Z, 1, r) else parse_digits dgt 1 r in
          match rest with
          | String "." _ | String "e" _ | String "E" _ => Invalid
          | _ =>
              if max_str_digits <? count then Refused digits_refused
              else Parsed (if negative then (- n)%Z else n) rest
          end
      | None => Invalid
      end
  | EmptyString => Invalid
  end.

(** Replaces the value of a key that is there, or adds the key at the end,
    as a [dict] does. *)
Fixpoint dict_set (k : string) (x : value) (d : list (string * value))
    : list (string * value) :=
  match d with
  | [] => [(k, x)]
  | (k', x') :: d' => if String.eqb k k' then (k, x) :: d' else (k', x') :: dict_set k x d'
  end.

Fixpoint parse_value (fuel : nat) (s : string) : parsed value :=
  match fuel with
  | O => Invalid
  | S fuel' =>
      match skip_ws s with
      | String "n" (String "u" (String "l" (String "l" r))) => Parsed VNone r
      | String "t" (String "r" (String "u" (String "e" r))) => Parsed (VBool true) r
      | String "f" (String "a" (String "l" (String "s" (String "e" r)))) =>
          Parsed (VBool false) r
      | String "[" r =>
          match skip_ws r with
          | String "]" r' => Parsed (VList []) r'
          | _ =>
              match parse_items fuel' r with
              | Parsed l r' => Parsed (VList l) r'
              | Invalid => Invalid
              | Refused e => Refused e
              end
          end
      | String "{" r =>
          match skip_ws r with
          | String "}" r' => Parsed (VDict []) r'
          | _ =>
              match parse_members fuel' [] r with
              | Parsed d r' => Parsed (VDict d) r'
              | Invalid => Invalid
              | Refused e => Refused e
              end
          end
      | String c r as s' =>
          if Ascii.eqb c quote then
            match parse_string r with
            | Some (str, r') => Parsed (VStr str) r'
            | None => Invalid
            end
          else
            match parse_int s' with
            | Parsed n r' => Parsed (VInt n) r'
            | Invalid => Invalid
            | Refused e => Refused e
            end
      | EmptyString => Invalid
      end
  end
with parse_items (fuel : nat) (s : string) : parsed (list value) :=
  match fuel with
  | O => Invalid
  | S fuel' =>
      match parse_value fuel' s with
      | Parsed x r =>
          match skip_ws r with
          | String "," r' =>
              match parse_items fuel' r' with
              | Parsed l r'' => Parsed (x :: l) r''
              | Invalid => Invalid
              | Refused e => Refused e
              end
          | String "]" r' => Parsed [x] r'
          | _ => Invalid
          end
      | Invalid => Invalid
      | Refused e => Refused e
      end
  end
with parse_members (fuel : nat) (acc : list (string * value)) (s : string)
    : parsed (list (string * value)) :=
  match fuel with
  | O => Invalid
  | S fuel' =>
      match skip_ws s with
      | String c r =>
          if Ascii.eqb c quote then
            match parse_string r with
            | Some (k, r1) =>
                match skip_ws r1 with
                | String ":" r2 =>
                    match parse_value fuel' r2 with
                    | Parsed x r3 =>
                        match skip_ws r3 with
                        | String "," r4 => parse_members fuel' (dict_set k x acc) r4
                        | String "}" r4 => Parsed (dict_set k x acc) r4
                        | _ => Invalid
                        end
                    | Invalid => Invalid
                    | Refused e => Refused e
                    end
                | _ => Invalid
                end
            | None => Invalid
            end
          else Invalid
      | EmptyString => Invalid
      end
  end.

(** [json.loads(s)] on the documents whose numbers are integers and whose
    characters are below 256. *)
Definition loads (s : string) : value + exn :=
  match parse_value (2 * String.length s + 2) s with
  | Parsed v rest =>
      match skip_ws rest with
      | EmptyString => inl v
      | _ => inr (mk_exn JSONDecodeError "Extra data")
      end
  | Invalid => inr (mk_exn JSONDecodeError "Expecting value")
  | Refused e => inr e
  end.

End JsonRef.

(** A collection kept as the list of its records, in the order they were
    added.  [add] refuses an id that is there; [query] answers with the
    first [n_results] records, the distances not being modelled. *)
Record index_record : Type := mk_record {
  record_id : string;
  record_embedding : value;
  record_document : string;
  record_metadata : value;
}.

Fixpoint make_records (ids : list string) (embeddings : list value)
    (documents : list string) (metadatas : list value) : list index_record :=
  match ids, embeddings, documents, metadatas with
  | i :: ids', e :: embeddings', d :: documents', m :: metadatas' =>
      mk_record i e d m :: make_records ids' embeddings' documents' metadatas'
  | _, _, _, _ => []
  end.

Definition has_id (c : list index_record) (i : string) : bool :=
  existsb (fun r => String.eqb (record_id r) i) c.

#[global] Instance list_collection : Collection (list index_record) := {|
  coll_count c := Ret (Z.of_nat (length c));
  coll_add c ids embeddings documents metadatas :=
    if existsb (has_id c) ids
    then (Raise (mk_exn DuplicateIDError "ID already exists"), c)
    else (Ret tt, c ++ make_records ids embeddings documents metadatas);
  coll_query c query_embeddings n_results include :=
    let found := take (Z.to_nat n_results) c in
    Ret (VDict [("ids", VList [VList (VStr <$> (record_id <$> found))]);
                ("documents", VList [VList (VStr <$> (record_document <$> found))]);
                ("metadatas", VList [VList (record_metadata <$> found)])]);
|}.

(** Sample inputs: replies of the inference service, answers of the
    outside, turns and worlds, on which the program is run. *)
Definition sample_path : string := "memory/history.jsonl".

Definition sample_repr (v : value) : string := "<object>".

Definition embedding_reply : response :=
  mk_response 200 (JsonRef.dumps (VDict [("embedding", VList [VInt 1; VInt 2; VInt 3])])).

Definition no_field_reply : response :=
  mk_response 200 (JsonRef.dumps (VDict [("done", VBool true)])).

Definition html_reply : response := mk_response 200 "<html>Bad Gateway</html>".

Definition env_up : env := mk_env (fun _ _ => inr embedding_reply) None None None None.
Definition env_down : env := mk_env (fun _ _ => inl "Connection refused") None None None None.
Definition env_html : env := mk_env (fun _ _ => inr html_reply) None None None None.
Definition env_no_field : env := mk_env (fun _ _ => inr no_field_reply) None None None None.

Definition turn_alex : Turn := mk_turn "turn_1" "My name is Alex." "Nice to meet you, Alex!".
Definition turn_python : Turn :=
  mk_turn "turn_2" "Tell me about Python." "Python is a programming language.".

Definition record_of_turn (t : Turn) : index_record :=
  mk_record (turn_id_of t) (VList [VInt 1; VInt 2; VInt 3]) (JsonRef.dumps (doc_of_turn t))
    (VDict [("source", VStr "conversation_history"); ("turn_id", VStr (turn_id_of t))]).

Definition corrupted_record : index_record :=
  mk_record "turn_0" (VList [VInt 1; VInt 2; VInt 3]) "{not json" VNone.

Definition world_uninitialized : world (list index_record) := mk_world None None [] [].

Definition world_fresh : world (list index_record) := mk_world (Some []) None [] [].

Definition world_two : world (list index_record) :=
  mk_world (Some [record_of_turn turn_alex; record_of_turn turn_python])
    (Some ((JsonRef.dumps (doc_of_turn turn_alex) +:+ nl)
           +:+ JsonRef.dumps (doc_of_turn turn_python) +:+ nl))
    [] [].

Definition world_corrupted : world (list index_record) :=
  mk_world (Some [corrupted_record; record_of_turn turn_alex])
    (Some (("{not json" +:+ nl) +:+ JsonRef.dumps (doc_of_turn turn_alex) +:+ nl))
    [] [].

(** A collection that answers as it is told, on which the failures of
    the collection are played. *)
Record scripted_collection : Type := mk_scripted {
  count_answer : outcome Z;
  add_answer : outcome unit;
  query_answer : outcome value;
}.

#[global] Instance scripted : Collection scripted_collection | 100 := {|
  coll_count c := count_answer c;
  coll_add c ids embeddings documents metadatas := (add_answer c, c);
  coll_query c query_embeddings n_results include := query_answer c;
|}.

Definition list_reply : response := mk_response 200 "[1, 2, 3]".

Definition padded_reply : response :=
  mk_response 200 (JsonRef.dumps (VDict [("response", VStr ("  Hello, Alex!  " +:+ nl))])).

Definition number_reply : response :=
  mk_response 200 (JsonRef.dumps (VDict [("response", VInt 42)])).

Definition error_reply : response := mk_response 500 "Internal Server Error".

Definition empty_embedding_reply : response :=
  mk_response 200 (JsonRef.dumps (VDict [("embedding", VList [])])).

Definition env_list : env := mk_env (fun _ _ => inr list_reply) None None None None.
Definition env_padded : env := mk_env (fun _ _ => inr padded_reply) None None None None.
Definition env_number : env := mk_env (fun _ _ => inr number_reply) None None None None.
Definition env_error : env := mk_env (fun _ _ => inr error_reply) None None None None.
Definition env_empty_embedding : env :=
  mk_env (fun _ _ => inr empty_embedding_reply) None None None None.
Definition env_no_read : env :=
  mk_env (fun _ _ => inr embedding_reply) None None (Some "Permission denied") None.

Definition world_scripted (c : scripted_collection) : world scripted_collection :=
  mk_world (Some c) None [] [].

Definition count_fails : scripted_collection :=
  mk_scripted (Raise (mk_exn ChromaError "database is locked")) (Ret tt) (Ret VNone).

Definition query_fails : scripted_collection :=
  mk_scripted (Ret 2%Z) (Ret tt) (Raise (mk_exn ChromaError "index not found")).

Definition query_gives_none : scripted_collection :=
  mk_scripted (Ret 2%Z) (Ret tt)
    (Ret (VDict [("documents",
                  VList [VList [VStr (JsonRef.dumps (doc_of_turn turn_alex)); VNone]])])).

Definition query_gives_ids : scripted_collection :=
  mk_scripted (Ret 2%Z) (Ret tt) (Ret (VDict [("ids", VList [VList []])])).

Definition sample_uuid : string := "3f2b8c1e9a4d4e6f8b7a6c5d4e3f2a1b".

Definition round_up : round_answers := mk_round 1700000000 sample_uuid env_up env_padded env_up.
Definition round_down : round_answers :=
  mk_round 1700000000 sample_uuid env_down env_down env_down.

(** A line that is an integer of 4301 digits, on which the decoder raises
    [ValueError]; worlds whose history file has such a line after a good
    one, and ends in the middle of a line; answers of a file system that
    is full, closed to writing, and of a file that is not UTF-8. *)
Definition long_integer : string := string_of_list_ascii (replicate 4301 "1"%char).

Definition world_long_line : world (list index_record) :=
  mk_world (Some [record_of_turn turn_alex])
    (Some ((JsonRef.dumps (doc_of_turn turn_alex) +:+ nl) +:+ long_integer +:+ nl))
    [] [].

Definition world_partial : world (list index_record) :=
  mk_world (Some []) (Some "{partial") [] [].

Definition env_disk_full : env :=
  mk_env (fun _ _ => inr embedding_reply) None (Some ("No space left on device", 20))
    None None.

Definition env_all_down : env :=
  mk_env (fun _ _ => inl "Connection refused") (Some "Permission denied") None None None.

Definition env_not_utf8 : env :=
  mk_env (fun _ _ => inr embedding_reply) None None None
    (Some (0, "'utf-8' codec can't decode byte 0xff in position 0: invalid start byte")).

Definition query_gives_long : scripted_collection :=
  mk_scripted (Ret 2%Z) (Ret tt)
    (Ret (VDict [("documents",
                  VList [VList [VStr (JsonRef.dumps (doc_of_turn turn_alex));
                                VStr long_integer]])])).

Section Program.

Context {C : Type} `{!Collection C}.

(** [json.loads] on a [str]: the decoded value, or the exception it
    raises, a [json.JSONDecodeError] on a text that is not JSON, and
    others on some texts that are (a [ValueError] on an integer of more
    digits than [int] converts, a [RecursionError] on a nesting too deep).
    [json.dumps] on a value. *)
Variable json_loads : string -> value + exn.
Variable json_dumps : value -> string.

(** The class of the exception that [Response.json()] raises on a body
    that is not JSON: [requests.exceptions.JSONDecodeError] since
    requests 2.27, [json.JSONDecodeError] before. *)
Variable json_error_class : exn_class.

(** [repr] of a value, used by [str] on a container or a float. *)
Variable py_repr : value -> string.

(** [os.path.join(MEMORY_DIR, "history.jsonl")], an absolute path that
    depends on where the script lies. *)
Variable HISTORY_FILE_PATH : string.

(** [json.loads(v)]. *)
Definition py_json_loads (v : value) : outcome value :=
  match v with
  | VStr s =>
      match json_loads s with
      | inl x => Ret x
      | inr e => Raise e
      end
  | _ => Raise (mk_exn TypeError "the JSON object must be str, bytes or bytearray")
  end.

(** [response.json()]: the [json.JSONDecodeError] of the decoder is raised
    again as an exception of the class of [requests]; what else the
    decoder raises goes through as it is. *)
Definition response_json (r : response) : outcome value :=
  match json_loads (response_text r) with
  | inl x => Ret x
  | inr e =>
      if isinstance e JSONDecodeError
      then Raise (mk_exn json_error_class (exn_str e))
      else Raise e
  end.

(** [str(v)], which an f-string applies to [{v}]. *)
Definition py_str (v : value) : string :=
  match v with
  | VStr s => s
  | VNone => "None"
  | VBool true => "True"
  | VBool false => "False"
  | VInt z => str_of_int z
  | _ => py_repr v
  end.

(** *** ollama_interface.py *)

Definition get_embedding (ev : env) (text model_name : string) : M C value :=
  try_except_local
    (requests_post ev (OLLAMA_BASE_URL +:+ "/api/embeddings")
       (VDict [("model", VStr model_name); ("prompt", VStr text)]))
    (fun response =>
       lift (raise_for_status response) ;;
       data <- lift (response_json response) ;;
       lift (py_getitem data "embedding"))
    (fun response =>
       [ (RequestException, fun e =>
            print ("Error getting embedding from Ollama: " +:+ exn_str e) ;;
            ret VNone);
         (KeyError, fun _ =>
            r <- read_local "response" response ;;
            print ("Error: 'embedding' key not found in Ollama response. Full response: "
                   +:+ response_text r) ;;
            ret VNone);
         (JSONDecodeError, fun _ =>
            r <- read_local "response" response ;;
            print ("Error decoding JSON response from Ollama (embeddings). Response text: "
                   +:+ response_text r) ;;
            ret VNone) ]).

Definition get_chat_response (ev : env) (prompt_text model_name : string) : M C string :=
  try_except_local
    (requests_post ev (OLLAMA_BASE_URL +:+ "/api/generate")
       (VDict [("model", VStr model_name); ("prompt", VStr prompt_text);
               ("stream", VBool false)]))
    (fun response =>
       lift (raise_for_status response) ;;
       response_data <- lift (response_json response) ;;
       completion <- lift (py_get response_data "response" (VStr "")) ;;
       lift (py_strip completion))
    (fun response =>
       [ (RequestException, fun e =>
            print ("Error getting chat response from Ollama: " +:+ exn_str e) ;;
            ret transport_fallback);
         (JSONDecodeError, fun _ =>
            r <- read_local "response" response ;;
            print ("Error decoding JSON response from Ollama (chat). Response text: "
                   +:+ response_text r) ;;
            ret malformed_fallback) ]).

(** *** memory_manager.py *)

Definition save_conversation_turn (ev : env)
    (user_message bot_message turn_id : string) : M C unit :=
  coll <- global_collection ;;
  if negb (bool_decide (is_Some coll)) then
    print "Error: ChromaDB collection not initialized. Cannot save turn."
  else
    let turn_data := turn_data_of user_message bot_message turn_id in
    try_except
      (open_append ev HISTORY_FILE_PATH ;;
       file_write ev (json_dumps turn_data +:+ nl))
      [ (OSError, fun e =>
           print ("Error saving to history file " +:+ HISTORY_FILE_PATH +:+ ": "
                  +:+ exn_str e)) ] ;;
    let text_to_embed := "User: " +:+ user_message +:+ nl +:+ "Bot: " +:+ bot_message in
    embedding <- get_embedding ev text_to_embed EMBEDDING_MODEL_NAME ;;
    if truthy embedding then
      try_except
        (collection_add [turn_id] [embedding] [json_dumps turn_data]
           [VDict [("source", VStr "conversation_history"); ("turn_id", VStr turn_id)]])
        [ (Exception, fun e =>
             print ("Error adding turn_id " +:+ turn_id +:+ " to ChromaDB: "
                    +:+ exn_str e)) ]
    else
      print ("Could not get embedding for turn_id " +:+ turn_id
             +:+ ". Not adding to vector store.").

(** The body of the loop of [load_raw_history] for one numbered line. *)
Definition load_line (history : list value) (numbered : nat * string) : M C (list value) :=
  try_except
    (turn <- lift (py_json_loads (VStr (snd numbered))) ;;
     ret (history ++ [turn]))
    [ (JSONDecodeError, fun jd_err =>
         print ("Skipping malformed line " +:+ str_of_int (Z.of_nat (fst numbered) + 1)
                +:+ " in " +:+ HISTORY_FILE_PATH +:+ ": " +:+ exn_str jd_err) ;;
         ret history) ].

Definition load_raw_history (ev : env) : M C (list value) :=
  found <- os_path_exists HISTORY_FILE_PATH ;;
  if negb found then ret []
  else
    try_except
      (read <- open_read ev HISTORY_FILE_PATH ;;
       history <- for_each load_line [] (enumerate (fst read)) ;;
       match snd read with
       | Some e => lift (Raise e)
       | None => ret history
       end)
      [ (OSError, fun e =>
           print ("Error loading from history file " +:+ HISTORY_FILE_PATH +:+ ": "
                  +:+ exn_str e) ;;
           ret []) ].

(** The body of the loop of [retrieve_relevant_history] for one document. *)
Definition decode_doc (retrieved_docs : list value) (doc_json_str : value)
    : M C (list value) :=
  try_except
    (doc <- lift (py_json_loads doc_json_str) ;;
     ret (retrieved_docs ++ [doc]))
    [ (JSONDecodeError, fun e =>
         print ("Error decoding stored document from ChromaDB: " +:+ exn_str e
                +:+ ". Document: " +:+ py_str doc_json_str) ;;
         ret retrieved_docs) ].

Definition retrieve_relevant_history (ev : env) (query_text : string) (n_results : Z)
    : M C (list value) :=
  coll <- global_collection ;;
  if negb (bool_decide (is_Some coll)) then
    print "Error: ChromaDB collection not initialized. Cannot retrieve history." ;;
    ret []
  else
    counted <- try_except
                 (n <- collection_count ;; ret (Some n))
                 [ (Exception, fun e =>
                      print ("Error getting count from ChromaDB collection: "
                             +:+ exn_str e) ;;
                      ret None) ] ;;
    match counted with
    | None => ret []
    | Some current_collection_count =>
        if (current_collection_count =? 0)%Z then ret []
        else
          let actual_n_results := Z.min n_results current_collection_count in
          if (actual_n_results <=? 0)%Z then ret []
          else
            query_embedding <- get_embedding ev query_text EMBEDDING_MODEL_NAME ;;
            if negb (truthy query_embedding) then
              print "Could not get embedding for query. Cannot retrieve history." ;;
              ret []
            else
              try_except
                (results <- collection_query [query_embedding] actual_n_results
                              ["documents"; "metadatas"; "distances"] ;;
                 documents <- lift (py_get results "documents" (VList [VList []])) ;;
                 retrieved_docs_json <- lift (py_index documents 0) ;;
                 items <- lift (py_iter retrieved_docs_json) ;;
                 for_each decode_doc [] items)
                [ (Exception, fun e =>
                     print ("Error querying ChromaDB: " +:+ exn_str e) ;;
                     ret []) ]
    end.

(** *** chat.py *)

(** The body of the loop of [format_retrieved_history_for_prompt]. *)
Definition format_doc (history_str : string) (doc : value) : outcome string :=
  let? user := py_get doc "user" (VStr "N/A") in
  let? bot := py_get doc "bot" (VStr "N/A") in
  Ret (history_str +:+ "User: " +:+ py_str user +:+ nl +:+ "Bot: " +:+ py_str bot
       +:+ nl +:+ "---" +:+ nl).

Fixpoint format_docs (history_str : string) (docs : list value) : outcome string :=
  match docs with
  | [] => Ret history_str
  | doc :: docs' => let? history_str' := format_doc history_str doc in
                    format_docs history_str' docs'
  end.

Definition format_retrieved_history_for_prompt (retrieved_docs : list value)
    : outcome string :=
  if negb (truthy (VList retrieved_docs)) then Ret ""
  else format_docs context_header retrieved_docs.

(** [s.lower()], on the code points below 256: the capital letters of
    ASCII and those of Latin-1 (192 to 222 but the multiplication sign). *)
Definition lower_char (c : ascii) : ascii :=
  let n := nat_of_ascii c in
  if ((65 <=? n) && (n <=? 90)) || ((192 <=? n) && (n <=? 222) && negb (n =? 215))
  then ascii_of_nat (n + 32)
  else c.

Fixpoint py_lower (s : string) : string :=
  match s with
  | EmptyString => EmptyString
  | String c r => String (lower_char c) (py_lower r)
  end.

(** [generate_turn_id()], from what [int(time.time())] and
    [uuid.uuid4().hex] give when it is called. *)
Definition generate_turn_id (now : Z) (uuid_hex : string) : string :=
  "turn_" +:+ str_of_int now +:+ "_" +:+ substring 0 8 uuid_hex.

Definition system_prompt : string :=
  "You are a helpful and friendly conversational AI. " +:+
  "Your goal is to assist the user based on the current conversation and any relevant past snippets provided. " +:+
  "If past snippets are given, use them to remember details like names, preferences, or previous topics. " +:+
  "If no relevant past snippets are provided, or if they don't seem relevant to the current question, " +:+
  "answer based on the current question alone.".

(** The prompt that [main] builds for one input. *)
Definition final_prompt_for_llm (formatted_context user_input : string) : string :=
  (system_prompt +:+ nl +:+ nl)
  +:+ (if truthy (VStr formatted_context) then formatted_context +:+ nl else "")
  +:+ ("Current conversation:" +:+ nl +:+ "User: " +:+ user_input +:+ nl +:+ "Bot:").

(** The reply that [main] shows when [get_chat_response] returns an empty
    text. *)
Definition no_response_reply : string :=
  "I'm sorry, I had trouble generating a response. Could you try rephrasing?".

(** The body of the loop of [main] for an input that is neither empty
    nor a request to leave. *)
Definition chat_round (a : round_answers) (user_input : string) : M C unit :=
  let current_turn_id := generate_turn_id (clock a) (uuid_hex a) in
  relevant_history_docs <- retrieve_relevant_history (during_retrieve a) user_input 3 ;;
  formatted_context <- lift (format_retrieved_history_for_prompt relevant_history_docs) ;;
  bot_response <- get_chat_response (during_generate a)
                    (final_prompt_for_llm formatted_context user_input)
                    GENERATION_MODEL_NAME ;;
  let bot_response :=
    if negb (truthy (VStr bot_response)) then no_response_reply else bot_response in
  print ("Bot: " +:+ bot_response) ;;
  save_conversation_turn (during_save a) user_input bot_response current_turn_id.

(** How a session ends: the loop is left by [break] and [main] returns;
    [input] finds the end of the input and its [EOFError] leaves [main];
    or an exception of a round leaves [main]. *)
Inductive session_end : Type :=
| Ended
| EndOfInput
| Escaped (e : exn).

(** The test [user_input.lower() in ['quit', 'exit']]. *)
Definition asks_to_leave (user_input : string) : bool :=
  existsb (String.eqb (py_lower user_input)) ["quit"; "exit"].

(** The loop of [main], on the lines that [input] returns one after the
    other, each with what the outside gives during the round it starts.
    The prompt that [input] writes is recorded as an entry of the
    standard output. *)
Fixpoint main_loop (script : list (string * round_answers)) (w : world C)
    : session_end * world C :=
  let w1 := snd (print "You: " w) in
  match script with
  | [] => (EndOfInput, w1)
  | (line, a) :: script' =>
      let user_input := strip line in
      if negb (truthy (VStr user_input)) then main_loop script' w1
      else if asks_to_leave user_input then
        (Ended, snd (print "Bot: Goodbye! Your conversation has been saved." w1))
      else
        match chat_round a user_input w1 with
        | (Ret _, w2) => main_loop script' w2
        | (Raise e, w2) => (Escaped e, w2)
        end
  end.

Definition main (script : list (string * round_answers)) (w : world C)
    : session_end * world C :=
  let w0 := snd ((print "Starting LocalChatBot..." ;;
                  print "This bot remembers conversations across sessions." ;;
                  print "Type 'quit' or 'exit' to end the conversation.") w) in
  match main_loop script w0 with
  | (Ended, w1) => (Ended, snd (print "Chat session ended." w1))
  | (end_, w1) => (end_, w1)
  end.

(** ** What the properties speak of *)

(** The two POST calls of [ollama_interface.py], as events. *)
Definition embeddings_post (text model_name : string) : event :=
  EvPost (OLLAMA_BASE_URL +:+ "/api/embeddings")
    (VDict [("model", VStr model_name); ("prompt", VStr text)]).

Definition generate_post (prompt_text model_name : string) : event :=
  EvPost (OLLAMA_BASE_URL +:+ "/api/generate")
    (VDict [("model", VStr model_name); ("prompt", VStr prompt_text);
            ("stream", VBool false)]).

(** A reply with an error status, on which [raise_for_status] raises. *)
Definition http_error (r : response) : Prop :=
  (400 <= response_status_code r < 600)%Z.

(** The events that are calls of the inference service. *)
Definition is_post (e : event) : bool :=
  match e with EvPost _ _ => true | _ => false end.

(** The three lines of a turn in the context block, and the blocks of a
    list of turns one after the other. *)
Definition turn_lines (t : Turn) : string :=
  "User: " +:+ user_text t +:+ nl +:+ "Bot: " +:+ bot_text t +:+ nl +:+ "---" +:+ nl.

Fixpoint turn_blocks (turns : list Turn) : string :=
  match turns with
  | [] => ""
  | t :: turns' => turn_lines t +:+ turn_blocks turns'
  end.

(** What a line of the file decodes to, and the report printed for a
    numbered line that does not decode. *)
Definition parse_line (line : string) : option value :=
  match json_loads line with
  | inl turn => Some turn
  | inr _ => None
  end.

Definition skip_report (numbered : nat * string) : option string :=
  match json_loads (snd numbered) with
  | inl _ => None
  | inr e =>
      Some ("Skipping malformed line " +:+ str_of_int (Z.of_nat (fst numbered) + 1)
            +:+ " in " +:+ HISTORY_FILE_PATH +:+ ": " +:+ exn_str e)
  end.

(** The line written for a turn; the calls, the file and the reports of
    the first step of [save_conversation_turn], by what the file system
    answers. *)
Definition log_line (user_message bot_message turn_id : string) : string :=
  json_dumps (turn_data_of user_message bot_message turn_id) +:+ nl.

Definition log_events (ev : env) (data : string) : list event :=
  EvOpen HISTORY_FILE_PATH "a"
    :: match open_append_error ev with
       | Some _ => []
       | None => [EvWrite data]
       end.

Definition log_after (ev : env) (old : option string) (data : string) : option string :=
  match open_append_error ev, write_error ev with
  | Some _, _ => old
  | None, Some (_, n) => Some (default "" old +:+ substring 0 n data)
  | None, None => Some (default "" old +:+ data)
  end.

Definition log_reports (ev : env) : list string :=
  match open_append_error ev, write_error ev with
  | Some msg, _ | None, Some (msg, _) =>
      ["Error saving to history file " +:+ HISTORY_FILE_PATH +:+ ": " +:+ msg]
  | None, None => []
  end.

(** The text that is embedded for a turn, and the call that adds the turn
    to the collection. *)
Definition embed_text (user_message bot_message : string) : string :=
  "User: " +:+ user_message +:+ nl +:+ "Bot: " +:+ bot_message.

Definition add_event (user_message bot_message turn_id : string) (embedding : value)
    : event :=
  EvAdd [turn_id] [embedding]
    [json_dumps (turn_data_of user_message bot_message turn_id)]
    [VDict [("source", VStr "conversation_history"); ("turn_id", VStr turn_id)]].

(** What [save_conversation_turn] does after the embedding call, by the
    result of that call: the call on the collection, and what the function
    returns. *)
Definition index_events (user_message bot_message turn_id : string) (r : outcome value)
    : list event :=
  match r with
  | Ret embedding =>
      if truthy embedding
      then [add_event user_message bot_message turn_id embedding] else []
  | Raise _ => []
  end.

Definition save_result (r : outcome value) : outcome unit :=
  match r with
  | Ret _ => Ret tt
  | Raise e => Raise e
  end.

(** A sequence of saves, each with what the outside answers during it;
    a save that raises ends its round, and the next one finds the world
    as it was left. *)
Fixpoint replay (saves : list (env * Turn)) (w : world C) : world C :=
  match saves with
  | [] => w
  | (ev, t) :: saves' =>
      replay saves'
        (snd (save_conversation_turn ev (user_text t) (bot_text t) (turn_id_of t) w))
  end.

(** The turns for which [json.dumps] writes one line that [json.loads]
    reads back. *)
Definition codec_ok (t : Turn) : Prop :=
  contains_nl (json_dumps (doc_of_turn t)) = false /\
  json_loads (json_dumps (doc_of_turn t) +:+ nl) = inl (doc_of_turn t).

(** A save whose append to the history file succeeds, and the text that
    such saves add to the file. *)
Definition appended (save : env * Turn) : Prop :=
  open_append_error (fst save) = None /\ write_error (fst save) = None /\
  codec_ok (snd save).

Fixpoint log_text (turns : list Turn) : string :=
  match turns with
  | [] => ""
  | t :: turns' => (json_dumps (doc_of_turn t) +:+ nl) +:+ log_text turns'
  end.

(** The [include] argument of the query. *)
Definition query_include : list string := ["documents"; "metadatas"; "distances"].

(** The report printed for a stored document that does not decode. *)
Definition decode_report (doc : string) : option string :=
  match json_loads doc with
  | inl _ => None
  | inr e =>
      Some ("Error decoding stored document from ChromaDB: " +:+ exn_str e
            +:+ ". Document: " +:+ doc)
  end.

(** The texts that [json.loads] settles: it decodes them, or rejects them
    with a [json.JSONDecodeError]. *)
Definition settled (text : string) : Prop :=
  match json_loads text with
  | inl _ => True
  | inr e => isinstance e JSONDecodeError = true
  end.

(** Whether a value is a [dict], and whether it is a [str]. *)
Definition is_dict (v : value) : bool :=
  match v with VDict _ => true | _ => false end.

Definition is_str (v : value) : bool :=
  match v with VStr _ => true | _ => false end.

(** A text that does not begin with white space. *)
Definition starts_clean (s : string) : Prop :=
  match s with
  | EmptyString => True
  | String c _ => is_space c = false
  end.

(** The metadata stored with a turn, and the report printed when
    [collection.add] raises. *)
Definition turn_metadata (turn_id : string) : value :=
  VDict [("source", VStr "conversation_history"); ("turn_id", VStr turn_id)].

Definition add_reports (turn_id : string) (r : outcome unit) : list string :=
  match r with
  | Ret _ => []
  | Raise e => ["Error adding turn_id " +:+ turn_id +:+ " to ChromaDB: " +:+ exn_str e]
  end.

(** The last step of [retrieve_relevant_history]: the [try] block that
    queries the collection and decodes the documents of the answer. *)
Definition query_and_decode (query_embedding : value) (actual_n_results : Z)
    : M C (list value) :=
  try_except
    (results <- collection_query [query_embedding] actual_n_results
                  ["documents"; "metadatas"; "distances"] ;;
     documents <- lift (py_get results "documents" (VList [VList []])) ;;
     retrieved_docs_json <- lift (py_index documents 0) ;;
     items <- lift (py_iter retrieved_docs_json) ;;
     for_each decode_doc [] items)
    [ (Exception, fun e =>
         print ("Error querying ChromaDB: " +:+ exn_str e) ;;
         ret []) ].

(** What the context block shows for a key of a retrieved document: the
    value of the key as [str] gives it, [N/A] when the document has no
    such key; the three lines of a document, and the blocks of a list of
    documents one after the other. *)
Definition shown_field (k : string) (doc : value) : string :=
  match doc with
  | VDict d =>
      match dict_lookup k d with
      | Some v => py_str v
      | None => "N/A"
      end
  | _ => "N/A"
  end.

Definition doc_lines (doc : value) : string :=
  "User: " +:+ shown_field "user" doc +:+ nl +:+ "Bot: " +:+ shown_field "bot" doc +:+ nl
  +:+ "---" +:+ nl.

Fixpoint doc_blocks (docs : list value) : string :=
  match docs with
  | [] => ""
  | doc :: docs' => doc_lines doc +:+ doc_blocks docs'
  end.

(** The lines that [main] prints before it reads the first input. *)
Definition banner : list string :=
  ["Starting LocalChatBot...";
   "This bot remembers conversations across sessions.";
   "Type 'quit' or 'exit' to end the conversation."].

(** A line typed that is empty once stripped; one that asks to leave. *)
Definition blank (entry : string * round_answers) : Prop := strip (fst entry) = "".

Definition leaves (entry : string * round_answers) : Prop :=
  asks_to_leave (strip (fst entry)) = true.

(** The text that a round shows and saves for what [get_chat_response]
    returned. *)
Definition shown_reply (bot_response : string) : string :=
  if negb (truthy (VStr bot_response)) then no_response_reply else bot_response.

(** The call that asks for a completion for an input when no context was
    retrieved. *)
Definition bare_post (user_input : string) : event :=
  generate_post (final_prompt_for_llm "" user_input) GENERATION_MODEL_NAME.

(** The inference service cannot be reached: every request fails with
    the given message. *)
Definition unreachable (ev : env) (msg : string) : Prop :=
  forall url body, http_post ev url body = inl msg.

(** Whether a text has the underscore that separates the parts of a turn
    id. *)
Fixpoint contains_sep (s : string) : bool :=
  match s with
  | EmptyString => false
  | String c r => Ascii.eqb c "_" || contains_sep r
  end.




(** The embedding call fails: it raises, or it returns the failure value
    [None] or another falsy value. *)
Definition embedding_failed (r : outcome value) : Prop :=
  match r with
  | Ret embedding => truthy embedding = false
  | Raise _ => True
  end.

(** ** Properties *)

Lemma string_app_nil_r (s : string) : s +:+ "" = s.
Proof.
  induction s as [ | c s IH ]; [ done | ].
  change (String c (s +:+ "") = String c s). by rewrite IH.
Qed.

Lemma string_app_assoc (s1 s2 s3 : string) : (s1 +:+ s2) +:+ s3 = s1 +:+ s2 +:+ s3.
Proof.
  induction s1 as [ | c s1 IH ]; [ done | ].
  change (String c ((s1 +:+ s2) +:+ s3) = String c (s1 +:+ s2 +:+ s3)). by rewrite IH.
Qed.

Section Lines.

#[local] Arguments String.append !_ _ / : simpl nomatch.

Lemma readlines_from_line (t cur : string) :
  contains_nl t = false -> readlines_from cur (t +:+ nl) = [cur +:+ t +:+ nl].
Proof.
  revert cur. induction t as [ | c t IH ]; intros cur Hnl; cbn in *.
  - reflexivity.
  - apply orb_false_elim in Hnl as [Hc Ht]. rewrite Hc.
    rewrite (IH _ Ht). by rewrite string_app_assoc.
Qed.

Lemma readlines_from_terminated (s cur u : string) :
  readlines_from cur ((s +:+ nl) +:+ u) =
    readlines_from cur (s +:+ nl) ++ readlines_from "" u.
Proof.
  revert cur. induction s as [ | c s IH ]; intros cur; cbn.
  - reflexivity.
  - destruct (Ascii.eqb c "010"); cbn; by rewrite IH.
Qed.

Lemma readlines_app_line (s t : string) :
  newline_terminated s -> contains_nl t = false ->
  readlines (s +:+ t +:+ nl) = readlines s ++ [t +:+ nl].
Proof.
  intros [-> | [s' ->]] Hnl; unfold readlines.
  - cbn. by rewrite readlines_from_line.
  - by rewrite readlines_from_terminated, (readlines_from_line t "" Hnl).
Qed.

Lemma newline_terminated_app_line (s t : string) :
  newline_terminated (s +:+ t +:+ nl).
Proof. right. exists (s +:+ t). by rewrite string_app_assoc. Qed.

End Lines.

Lemma omap_snd_imap {A B : Type} (g : A -> option B) (f : nat -> A -> nat * A)
    (l : list A) :
  (forall i x, snd (f i x) = x) ->
  omap (g ∘ snd) (imap f l) = omap g l.
Proof.
  revert f. induction l as [ | x l IH ]; intros f Hf; cbn; [ done | ].
  rewrite Hf. rewrite (IH (f ∘ S)) by (intros; apply Hf). done.
Qed.

Lemma isinstance_Exception (e : exn) : isinstance e Exception = true.
Proof. by destruct e as [[] msg]. Qed.

(** What [get_embedding] does to the world: it makes one POST and may
    print; the collection and the history file are not touched, and the
    result does not depend on the world. *)
Lemma get_embedding_effect ev text model_name :
  exists r msgs,
    (forall w : world C,
       get_embedding ev text model_name w =
         (r, mk_world (collection w) (history_file w) (stdout w ++ msgs)
               (trace w ++ [embeddings_post text model_name]))) /\
    (forall v, r = Ret v -> truthy v = true -> msgs = []).
Proof.
  unfold get_embedding, try_except_local, requests_post, embeddings_post.
  unfold bind, emit, lift, ret; cbn.
  assert (Hfail : forall msg : string, exists (r : outcome value) msgs,
            (forall w : world C,
               (Ret VNone : outcome value,
                mk_world (collection w) (history_file w) (stdout w ++ [msg])
                  (trace w ++ [EvPost (OLLAMA_BASE_URL +:+ "/api/embeddings")
                     (VDict [("model", VStr model_name); ("prompt", VStr text)])])) =
               (r, mk_world (collection w) (history_file w) (stdout w ++ msgs)
                  (trace w ++ [EvPost (OLLAMA_BASE_URL +:+ "/api/embeddings")
                     (VDict [("model", VStr model_name); ("prompt", VStr text)])]))) /\
            (forall v, r = Ret v -> truthy v = true -> msgs = [])).
  { intros msg. exists (Ret VNone), [msg]. split; [ done | ].
    intros v [= <-]. cbn. done. }
  assert (Hraise : forall e : exn, exists (r : outcome value) msgs,
            (forall w : world C,
               (Raise e : outcome value,
                mk_world (collection w) (history_file w) (stdout w)
                  (trace w ++ [EvPost (OLLAMA_BASE_URL +:+ "/api/embeddings")
                     (VDict [("model", VStr model_name); ("prompt", VStr text)])])) =
               (r, mk_world (collection w) (history_file w) (stdout w ++ msgs)
                  (trace w ++ [EvPost (OLLAMA_BASE_URL +:+ "/api/embeddings")
                     (VDict [("model", VStr model_name); ("prompt", VStr text)])]))) /\
            (forall v, r = Ret v -> truthy v = true -> msgs = [])).
  { intros e. exists (Raise e), []. split; [ | done ].
    intros w. by rewrite app_nil_r. }
  destruct (http_post ev _ _) as [msg | r]; cbn; [ apply Hfail | ].
  unfold raise_for_status, response_json.
  destruct (_ && _)%bool; cbn; [ apply Hfail | ].
  destruct (json_loads (response_text r)) as [data | e0]; cbn.
  - destruct (py_getitem data "embedding") as [v | e] eqn:Hget; cbn.
    + exists (Ret v), []. split; [ | done ]. intros w. by rewrite app_nil_r.
    + unfold handle; cbn.
      repeat (match goal with
              | |- context [isinstance ?x ?c] => destruct (isinstance x c); cbn
              end);
        first [ apply Hfail | apply Hraise ].
  - destruct (isinstance e0 JSONDecodeError); cbn; unfold handle; cbn;
      repeat (match goal with
              | |- context [isinstance ?x ?c] => destruct (isinstance x c); cbn
              end);
      first [ apply Hfail | apply Hraise ].
Qed.

Lemma raise_for_status_error r :
  http_error r ->
  raise_for_status r = Raise (mk_exn HTTPError (str_of_int (response_status_code r) +:+ " Error")).
Proof.
  unfold http_error, raise_for_status. intros [H1 H2].
  apply Z.leb_le in H1. apply Z.ltb_lt in H2. by rewrite H1, H2.
Qed.

Lemma raise_for_status_ok r : ~ http_error r -> raise_for_status r = Ret tt.
Proof.
  unfold http_error, raise_for_status. intros Hn.
  destruct (400 <=? _)%Z eqn:H1; [ | done ].
  destruct (_ <? 600)%Z eqn:H2; [ | done ].
  apply Z.leb_le in H1. apply Z.ltb_lt in H2. lia.
Qed.

(** The failures that the handlers of [get_embedding] cover: it returns
    the failure value [None] when the POST raises a transport error, when
    the reply has an HTTP error status, when the decoder rejects its body
    with a [json.JSONDecodeError], and when the body decodes to an object
    without the ["embedding"] field; on an object with the field it
    returns the value of the field. *)
Lemma get_embedding_handled_failures ev text model_name (w : world C) :
  subclass json_error_class JSONDecodeError = true ->
  let url := OLLAMA_BASE_URL +:+ "/api/embeddings" in
  let body := VDict [("model", VStr model_name); ("prompt", VStr text)] in
  let result := fst (get_embedding ev text model_name w) in
  (forall msg, http_post ev url body = inl msg -> result = Ret VNone) /\
  (forall r, http_post ev url body = inr r ->
     (http_error r -> result = Ret VNone) /\
     (~ http_error r ->
        (forall e, json_loads (response_text r) = inr e ->
           isinstance e JSONDecodeError = true -> result = Ret VNone) /\
        (forall d, json_loads (response_text r) = inl (VDict d) ->
           dict_lookup "embedding" d = None -> result = Ret VNone) /\
        (forall d v, json_loads (response_text r) = inl (VDict d) ->
           dict_lookup "embedding" d = Some v -> result = Ret v))).
Proof.
  intros Hjson url body result. subst url body result.
  unfold get_embedding, try_except_local, requests_post.
  unfold bind, emit, lift, ret; cbn.
  split.
  - intros msg ->. reflexivity.
  - intros r ->. cbn. split; [ | intros Hok; repeat split ].
    + intros Herr. by rewrite (raise_for_status_error r Herr).
    + intros e Hbad Hclass. rewrite (raise_for_status_ok r Hok); cbn.
      unfold response_json. rewrite Hbad, Hclass; cbn.
      unfold handle, isinstance; cbn.
      destruct (subclass json_error_class RequestException); cbn; [ done | ].
      destruct (subclass json_error_class KeyError); cbn; [ done | ].
      by rewrite Hjson.
    + intros d Hd Hnone. rewrite (raise_for_status_ok r Hok); cbn.
      unfold response_json. rewrite Hd; cbn. by rewrite Hnone.
    + intros d v Hd Hsome. rewrite (raise_for_status_ok r Hok); cbn.
      unfold response_json. rewrite Hd; cbn. by rewrite Hsome.
Qed.

Lemma get_chat_response_transport ev prompt_text model_name (w : world C) msg :
  http_post ev (OLLAMA_BASE_URL +:+ "/api/generate")
    (VDict [("model", VStr model_name); ("prompt", VStr prompt_text);
            ("stream", VBool false)]) = inl msg ->
  fst (get_chat_response ev prompt_text model_name w) = Ret transport_fallback.
Proof.
  intros Hpost.
  unfold get_chat_response, try_except_local, requests_post.
  unfold bind, emit, lift, ret; cbn. by rewrite Hpost.
Qed.

Lemma get_chat_response_http_error ev prompt_text model_name (w : world C) r :
  http_post ev (OLLAMA_BASE_URL +:+ "/api/generate")
    (VDict [("model", VStr model_name); ("prompt", VStr prompt_text);
            ("stream", VBool false)]) = inr r ->
  http_error r ->
  fst (get_chat_response ev prompt_text model_name w) = Ret transport_fallback.
Proof.
  intros Hpost Herr.
  unfold get_chat_response, try_except_local, requests_post.
  unfold bind, emit, lift, ret; cbn. rewrite Hpost; cbn.
  by rewrite (raise_for_status_error r Herr).
Qed.

(** A body that is not JSON: which of the two handlers runs depends on
    the class of the exception that [response.json()] raises, since the
    clause for [RequestException] comes first. *)
Lemma get_chat_response_malformed ev prompt_text model_name (w : world C) r e :
  subclass json_error_class JSONDecodeError = true ->
  http_post ev (OLLAMA_BASE_URL +:+ "/api/generate")
    (VDict [("model", VStr model_name); ("prompt", VStr prompt_text);
            ("stream", VBool false)]) = inr r ->
  ~ http_error r ->
  json_loads (response_text r) = inr e ->
  isinstance e JSONDecodeError = true ->
  fst (get_chat_response ev prompt_text model_name w) =
    Ret (if subclass json_error_class RequestException
         then transport_fallback else malformed_fallback).
Proof.
  intros Hjson Hpost Hok Hbad Hclass.
  unfold get_chat_response, try_except_local, requests_post.
  unfold bind, emit, lift, ret; cbn. rewrite Hpost; cbn.
  rewrite (raise_for_status_ok r Hok); cbn.
  unfold response_json. rewrite Hbad, Hclass; cbn.
  unfold handle, isinstance; cbn.
  destruct (subclass json_error_class RequestException); cbn; [ done | ].
  by rewrite Hjson.
Qed.

Lemma get_chat_response_success ev prompt_text model_name (w : world C) r d completion :
  http_post ev (OLLAMA_BASE_URL +:+ "/api/generate")
    (VDict [("model", VStr model_name); ("prompt", VStr prompt_text);
            ("stream", VBool false)]) = inr r ->
  ~ http_error r ->
  json_loads (response_text r) = inl (VDict d) ->
  dict_lookup "response" d = Some (VStr completion) ->
  get_chat_response ev prompt_text model_name w =
    (Ret (strip completion),
     mk_world (collection w) (history_file w) (stdout w)
       (trace w ++ [generate_post prompt_text model_name])).
Proof.
  intros Hpost Hok Hd Hsome.
  unfold get_chat_response, try_except_local, requests_post.
  unfold bind, emit, lift, ret; cbn. rewrite Hpost; cbn.
  rewrite (raise_for_status_ok r Hok); cbn.
  unfold response_json. rewrite Hd; cbn. by rewrite Hsome.
Qed.


(** C10: when there is no history file, [load_raw_history] returns the
    empty list; the only call it makes is [os.path.exists], so the file
    is not opened, and no exception is raised. *)
Theorem load_raw_history_no_file ev (w : world C) :
  history_file w = None ->
  load_raw_history ev w =
    (Ret [],
     mk_world (collection w) None (stdout w)
       (trace w ++ [EvExists HISTORY_FILE_PATH])).
Proof.
  intros Hnone.
  unfold load_raw_history, os_path_exists, bind, emit, ret; cbn.
  by rewrite Hnone.
Qed.

(** C2: [retrieve_relevant_history] returns the empty list when the
    collection is not initialised and when its count is 0; with count 0
    the only call made is [collection.count()], so the embedding client
    is called zero times. *)
Theorem retrieve_relevant_history_empty ev query_text n_results (w : world C) :
  (collection w = None ->
     retrieve_relevant_history ev query_text n_results w =
       (Ret [],
        mk_world None (history_file w)
          (stdout w ++ ["Error: ChromaDB collection not initialized. Cannot retrieve history."])
          (trace w))) /\
  (forall c, collection w = Some c -> coll_count c = Ret 0%Z ->
     exists w',
       retrieve_relevant_history ev query_text n_results w = (Ret [], w') /\
       trace w' = trace w ++ [EvCount] /\
       filter is_post (trace w') = filter is_post (trace w) /\
       stdout w' = stdout w /\ collection w' = Some c /\
       history_file w' = history_file w).
Proof.
  split.
  - intros Hnone.
    unfold retrieve_relevant_history, global_collection, bind, print, ret; cbn.
    rewrite Hnone; cbn. by rewrite Hnone.
  - intros c Hsome Hcount. eexists. split.
    + unfold retrieve_relevant_history, global_collection, try_except,
        collection_count, bind, emit, lift, print, ret; cbn.
      rewrite Hsome; cbn. rewrite Hsome; cbn. rewrite Hcount; cbn. reflexivity.
    + cbn. repeat split. by rewrite filter_app, app_nil_r.
Qed.

Lemma format_docs_turns turns history_str :
  format_docs history_str (doc_of_turn <$> turns) =
    Ret (history_str +:+ turn_blocks turns).
Proof.
  revert history_str. induction turns as [ | t turns IH ]; intros history_str; cbn.
  - by rewrite string_app_nil_r.
  - rewrite IH. unfold turn_lines. by rewrite !string_app_assoc.
Qed.

(** C4: [format_retrieved_history_for_prompt] returns the empty string
    for the empty list; for a non-empty list of turns it returns the
    header (a title line and a separator line) followed, for each turn in
    the given order, by the line [User: <user_text>], the line
    [Bot: <bot_text>] and a separator line, so also after the last turn;
    for one turn that is one User/Bot pair and the trailing separator. *)
Theorem format_context_structure :
  format_retrieved_history_for_prompt [] = Ret "" /\
  (forall t turns,
     format_retrieved_history_for_prompt (doc_of_turn <$> t :: turns) =
       Ret (context_header +:+ turn_blocks (t :: turns))) /\
  (forall t,
     format_retrieved_history_for_prompt [doc_of_turn t] =
       Ret ("Relevant past conversation snippets (most relevant first):" +:+ nl
            +:+ "---" +:+ nl
            +:+ "User: " +:+ user_text t +:+ nl
            +:+ "Bot: " +:+ bot_text t +:+ nl
            +:+ "---" +:+ nl)).
Proof.
  split; [ reflexivity | split ].
  - intros t turns.
    unfold format_retrieved_history_for_prompt.
    change (negb (truthy (VList (doc_of_turn <$> t :: turns)))) with false; cbn iota.
    apply format_docs_turns.
  - intros t. unfold format_retrieved_history_for_prompt.
    change (negb (truthy (VList [doc_of_turn t]))) with false; cbn iota.
    rewrite (format_docs_turns [t]). cbn [turn_blocks]. unfold turn_lines, context_header.
    by rewrite string_app_nil_r, !string_app_assoc.
Qed.

Lemma for_each_app {A B : Type} (body : B -> A -> M C B) (l1 l2 : list A) (acc : B)
    (w : world C) :
  for_each body acc (l1 ++ l2) w =
    bind (for_each body acc l1) (fun acc' => for_each body acc' l2) w.
Proof.
  revert acc w. induction l1 as [ | x l1 IH ]; intros acc w; cbn.
  - unfold bind, ret. reflexivity.
  - unfold bind. destruct (body acc x w) as [[acc' | e] w1]; [ | done ].
    rewrite IH. reflexivity.
Qed.

Lemma Forall_snd_imap {A : Type} (P : A -> Prop) (f : nat -> A -> nat * A)
    (l : list A) :
  (forall i x, snd (f i x) = x) ->
  Forall P l -> Forall (fun numbered => P (snd numbered)) (imap f l).
Proof.
  intros Hf Hall. revert f Hf.
  induction Hall as [ | x l Hx _ IH ]; intros f Hf; cbn; constructor.
  - by rewrite Hf.
  - apply IH. intros; apply Hf.
Qed.

Lemma for_each_load_line numbered history (w : world C) :
  Forall (fun numbered => settled (snd numbered)) numbered ->
  for_each load_line history numbered w =
    (Ret (history ++ omap (parse_line ∘ snd) numbered),
     mk_world (collection w) (history_file w)
       (stdout w ++ omap skip_report numbered) (trace w)).
Proof.
  intros Hall. revert history w.
  induction Hall as [ | [i line] numbered Hline _ IH ]; intros history w.
  { destruct w. cbn. by rewrite !app_nil_r. }
  cbn [for_each]. unfold bind at 1.
  unfold load_line at 1, try_except, bind, lift, ret, py_json_loads; cbn.
  unfold parse_line, skip_report; cbn.
  unfold settled in Hline. cbn in Hline.
  destruct (json_loads line) as [turn | e]; cbn.
  - rewrite IH; cbn. by rewrite <- app_assoc.
  - unfold handle; cbn. rewrite Hline; cbn. rewrite IH; cbn. by rewrite <- app_assoc.
Qed.

(** A line on which the decoder raises another exception than
    [json.JSONDecodeError]: the handler of the loop does not catch it. *)
Lemma load_line_fault history i line (w : world C) e :
  json_loads line = inr e -> isinstance e JSONDecodeError = false ->
  load_line history (i, line) w = (Raise e, w).
Proof.
  intros Hline Hclass.
  unfold load_line, try_except, bind, lift, ret, py_json_loads; cbn.
  rewrite Hline; cbn. unfold handle; cbn. by rewrite Hclass.
Qed.

(** What [load_raw_history] does once the file is open: the loop over
    the lines read, then the exception of the decoder of the file, if any,
    under the handler of [OSError]. *)
Lemma load_raw_history_reads ev (w : world C) s :
  history_file w = Some s -> open_read_error ev = None ->
  load_raw_history ev w =
    try_except
      (history <- for_each load_line []
                    (enumerate
                       match read_decode_error ev with
                       | Some (n, _) => take n (readlines s)
                       | None => readlines s
                       end) ;;
       match read_decode_error ev with
       | Some (_, msg) => lift (Raise (mk_exn UnicodeDecodeError msg))
       | None => ret history
       end)
      [ (OSError, fun e =>
           print ("Error loading from history file " +:+ HISTORY_FILE_PATH +:+ ": "
                  +:+ exn_str e) ;;
           ret []) ]
      (mk_world (collection w) (Some s) (stdout w)
         (trace w ++ [EvExists HISTORY_FILE_PATH; EvOpen HISTORY_FILE_PATH "r"])).
Proof.
  intros Hfile Hopen.
  unfold load_raw_history, os_path_exists.
  unfold bind at 1, bind at 1, emit. cbn [history_file]. rewrite Hfile.
  change (negb (bool_decide (is_Some (Some s)))) with false. cbn iota.
  unfold try_except, open_read.
  unfold bind at 1, bind at 1, emit. cbn [history_file collection stdout trace].
  rewrite Hopen, <- app_assoc. cbn [app].
  destruct (read_decode_error ev) as [[n msg] | ]; cbn [fst snd]; reflexivity.
Qed.

Lemma load_raw_history_file ev (w : world C) s :
  history_file w = Some s -> open_read_error ev = None -> read_decode_error ev = None ->
  Forall settled (readlines s) ->
  load_raw_history ev w =
    (Ret (omap parse_line (readlines s)),
     mk_world (collection w) (Some s)
       (stdout w ++ omap skip_report (enumerate (readlines s)))
       (trace w ++ [EvExists HISTORY_FILE_PATH; EvOpen HISTORY_FILE_PATH "r"])).
Proof.
  intros Hfile Hopen Hdecode Hall.
  unfold load_raw_history, os_path_exists, try_except, open_read.
  unfold bind, emit, ret; cbn. rewrite Hfile; cbn. rewrite Hopen, Hdecode; cbn.
  rewrite for_each_load_line by (by apply Forall_snd_imap).
  cbn. unfold enumerate. rewrite (omap_snd_imap parse_line pair) by done.
  by rewrite <- app_assoc.
Qed.

Lemma append_turn_effect ev data (w : world C) :
  try_except
    (open_append ev HISTORY_FILE_PATH ;; file_write ev data)
    [ (OSError, fun e =>
         print ("Error saving to history file " +:+ HISTORY_FILE_PATH +:+ ": "
                +:+ exn_str e)) ] w =
    (Ret tt,
     mk_world (collection w) (log_after ev (history_file w) data)
       (stdout w ++ log_reports ev) (trace w ++ log_events ev data)).
Proof.
  unfold try_except, open_append, file_write, bind, emit, print, handle.
  unfold log_after, log_reports, log_events; cbn.
  destruct (open_append_error ev) as [msg | ]; cbn; [ done | ].
  destruct (write_error ev) as [[msg n] | ]; cbn.
  - by rewrite <- app_assoc.
  - by rewrite app_nil_r, <- app_assoc.
Qed.

Lemma save_conversation_turn_initialized ev user_message bot_message turn_id
    (w : world C) c :
  collection w = Some c ->
  let r := fst (get_embedding ev (embed_text user_message bot_message)
                  EMBEDDING_MODEL_NAME w) in
  exists w',
    save_conversation_turn ev user_message bot_message turn_id w = (save_result r, w') /\
    trace w' =
      trace w ++ log_events ev (log_line user_message bot_message turn_id)
        ++ [embeddings_post (embed_text user_message bot_message) EMBEDDING_MODEL_NAME]
        ++ index_events user_message bot_message turn_id r /\
    history_file w' =
      log_after ev (history_file w) (log_line user_message bot_message turn_id) /\
    (exists more, stdout w' = stdout w ++ log_reports ev ++ more) /\
    is_Some (collection w') /\
    (forall embedding, r = Ret embedding -> truthy embedding = false ->
       collection w' = Some c /\
       exists more,
         stdout w' =
           stdout w ++ log_reports ev ++ more
             ++ ["Could not get embedding for turn_id " +:+ turn_id
                 +:+ ". Not adding to vector store."]).
Proof.
  intros Hsome r. subst r.
  destruct (get_embedding_effect ev (embed_text user_message bot_message)
              EMBEDDING_MODEL_NAME) as (r & msgs & Heff & _).
  rewrite (Heff w). cbn [fst].
  unfold save_conversation_turn.
  unfold bind at 1, global_collection. rewrite Hsome.
  change (negb (bool_decide (is_Some (Some c)))) with false. cbn iota.
  unfold bind at 1. rewrite append_turn_effect.
  unfold bind at 1. fold (embed_text user_message bot_message). rewrite Heff.
  fold (log_line user_message bot_message turn_id).
  destruct r as [embedding | e]; cbn [save_result index_events].
  - destruct (truthy embedding) eqn:Htruthy.
    + unfold try_except, collection_add, bind, emit, handle, print; cbn.
      rewrite Hsome.
      destruct (coll_add c _ _ _ _) as [[[] | e] c'] eqn:Hadd; cbn.
      * eexists. split; [ reflexivity | cbn ].
        rewrite <- !app_assoc. repeat split; eauto; simplify_eq; congruence.
      * rewrite isinstance_Exception; cbn.
        eexists. split; [ reflexivity | cbn ].
        rewrite <- !app_assoc. repeat split; eauto; simplify_eq; congruence.
    + unfold print; cbn.
      eexists. split; [ reflexivity | cbn ].
      rewrite <- !app_assoc. repeat split; eauto.
  - eexists. split; [ reflexivity | cbn ].
    rewrite <- !app_assoc. repeat split; eauto; discriminate.
Qed.

Lemma replay_history saves (w : world C) :
  is_Some (collection w) -> Forall appended saves ->
  default "" (history_file (replay saves w)) =
    default "" (history_file w) +:+ log_text (snd <$> saves).
Proof.
  revert w. induction saves as [ | [ev t] saves IH ]; intros w Hsome Hall.
  - cbn. by rewrite string_app_nil_r.
  - apply Forall_cons in Hall as [(Hopen & Hwrite & _) Hall]. cbn in Hopen, Hwrite.
    cbn [replay fmap list_fmap log_text snd].
    destruct Hsome as [c Hsome].
    destruct (save_conversation_turn_initialized ev (user_text t) (bot_text t)
                (turn_id_of t) w c Hsome) as (w' & -> & _ & Hfile & _ & Hsome' & _).
    cbn [snd]. rewrite IH by done. rewrite Hfile. unfold log_after, log_line.
    rewrite Hopen, Hwrite. cbn. by rewrite string_app_assoc.
Qed.

Lemma readlines_log_text old turns :
  newline_terminated old -> Forall codec_ok turns ->
  omap parse_line (readlines (old +:+ log_text turns)) =
    omap parse_line (readlines old) ++ (doc_of_turn <$> turns).
Proof.
  revert old. induction turns as [ | t turns IH ]; intros old Hold Hall; cbn.
  - by rewrite string_app_nil_r, app_nil_r.
  - apply Forall_cons in Hall as [[Hnl Hround] Hall].
    rewrite <- string_app_assoc.
    rewrite IH by (done || apply newline_terminated_app_line).
    rewrite readlines_app_line by done.
    rewrite omap_app; cbn. unfold parse_line at 2. rewrite Hround.
    by rewrite <- app_assoc.
Qed.

Lemma settled_log_text old turns :
  newline_terminated old -> Forall codec_ok turns ->
  Forall settled (readlines old) ->
  Forall settled (readlines (old +:+ log_text turns)).
Proof.
  revert old. induction turns as [ | t turns IH ]; intros old Hold Hall Hlines; cbn.
  - by rewrite string_app_nil_r.
  - apply Forall_cons in Hall as [[Hnl Hround] Hall].
    rewrite <- string_app_assoc.
    apply IH; [ apply newline_terminated_app_line | done | ].
    rewrite readlines_app_line by done.
    apply Forall_app. split; [ done | ].
    constructor; [ | constructor ]. unfold settled. by rewrite Hround.
Qed.

Lemma load_raw_history_result ev (w : world C) :
  open_read_error ev = None -> read_decode_error ev = None ->
  Forall settled (readlines (default "" (history_file w))) ->
  fst (load_raw_history ev w) =
    Ret (omap parse_line (readlines (default "" (history_file w)))).
Proof.
  intros Hopen Hdecode Hall. destruct (history_file w) as [s | ] eqn:Hfile.
  - by rewrite (load_raw_history_file ev w s).
  - unfold load_raw_history, os_path_exists, bind, emit, ret; cbn. by rewrite Hfile.
Qed.

(** C7, as amended: [load_raw_history] on a history file that is read as
    UTF-8 text and each of whose lines [json.loads] decodes or rejects
    with a [json.JSONDecodeError] returns what the lines that decode
    decode to, in the order of the file, and prints one report for each
    line rejected, without stopping at it.  The order of the file is the
    order of the saves: after any sequence of saves made with the
    collection initialised and whose appends succeed, on a file that ended
    at a line boundary, whatever the embedding calls and [collection.add]
    did during them, it returns what the file held before followed by the
    saved turns in the order they were saved. *)
Theorem load_raw_history_file_order :
  (forall ev (w : world C) s,
     history_file w = Some s ->
     open_read_error ev = None -> read_decode_error ev = None ->
     Forall settled (readlines s) ->
     load_raw_history ev w =
       (Ret (omap parse_line (readlines s)),
        mk_world (collection w) (Some s)
          (stdout w ++ omap skip_report (enumerate (readlines s)))
          (trace w ++ [EvExists HISTORY_FILE_PATH; EvOpen HISTORY_FILE_PATH "r"]))) /\
  (forall saves ev (w : world C),
     is_Some (collection w) ->
     newline_terminated (default "" (history_file w)) ->
     Forall settled (readlines (default "" (history_file w))) ->
     Forall appended saves ->
     open_read_error ev = None -> read_decode_error ev = None ->
     fst (load_raw_history ev (replay saves w)) =
       Ret (omap parse_line (readlines (default "" (history_file w)))
            ++ (doc_of_turn <$> (snd <$> saves)))).
Proof.
  split; [ apply load_raw_history_file | ].
  intros saves ev w Hsome Hold Hlines Hall Hopen Hdecode.
  assert (Hcodec : Forall codec_ok (snd <$> saves)).
  { apply Forall_fmap. eapply Forall_impl; [ exact Hall | ].
    by intros [ev' t] (_ & _ & Hok). }
  rewrite load_raw_history_result; try done.
  - rewrite replay_history by done. by rewrite readlines_log_text.
  - rewrite replay_history by done. by apply settled_log_text.
Qed.

Lemma save_conversation_turn_skips_index ev user_message bot_message turn_id
    (w : world C) c :
  collection w = Some c ->
  embedding_failed (fst (get_embedding ev (embed_text user_message bot_message)
                           EMBEDDING_MODEL_NAME w)) ->
  collection (snd (save_conversation_turn ev user_message bot_message turn_id w)) = Some c /\
  index_events user_message bot_message turn_id
    (fst (get_embedding ev (embed_text user_message bot_message)
            EMBEDDING_MODEL_NAME w)) = [].
Proof.
  intros Hsome.
  destruct (get_embedding_effect ev (embed_text user_message bot_message)
              EMBEDDING_MODEL_NAME) as (r & msgs & Heff & _).
  rewrite (Heff w). cbn [fst]. intros Hfailed.
  unfold save_conversation_turn.
  unfold bind at 1, global_collection. rewrite Hsome.
  change (negb (bool_decide (is_Some (Some c)))) with false. cbn iota.
  unfold bind at 1. rewrite append_turn_effect.
  unfold bind at 1. fold (embed_text user_message bot_message). rewrite Heff.
  destruct r as [embedding | e]; cbn in Hfailed; cbn [index_events].
  - rewrite Hfailed. unfold print; cbn. done.
  - cbn. done.
Qed.

(** C1, as amended.  For a call made while the collection is
    initialised: the append to the history file is attempted first, then
    the embedding is requested, then, with an embedding, [collection.add]
    is called; a failing [open] or [write] is reported and what follows is
    done all the same; when the embedding call fails, by raising or by
    returning a falsy value, [collection.add] is not called and the
    collection is left as it was, which is reported when the call
    returned; and when moreover the append succeeded on a file that ended
    at a line boundary, a later [load_raw_history] that opens the file and
    reads it as UTF-8 text, the lines that were there being ones that
    [json.loads] decodes or rejects with a [json.JSONDecodeError], returns
    the turn after what those lines give.  A call made while the
    collection is not initialised prints one report and does nothing
    else: neither the file nor the collection is touched. *)
Theorem save_turn_log_then_index ev user_message bot_message turn_id (w : world C) :
  (forall c,
     collection w = Some c ->
     let r := fst (get_embedding ev (embed_text user_message bot_message)
                     EMBEDDING_MODEL_NAME w) in
     exists w',
       save_conversation_turn ev user_message bot_message turn_id w
         = (save_result r, w') /\
       trace w' =
         trace w ++ log_events ev (log_line user_message bot_message turn_id)
           ++ [embeddings_post (embed_text user_message bot_message) EMBEDDING_MODEL_NAME]
           ++ index_events user_message bot_message turn_id r /\
       history_file w' =
         log_after ev (history_file w) (log_line user_message bot_message turn_id) /\
       (exists more, stdout w' = stdout w ++ log_reports ev ++ more) /\
       (embedding_failed r ->
          collection w' = Some c /\
          index_events user_message bot_message turn_id r = [] /\
          (forall embedding, r = Ret embedding ->
             exists more,
               stdout w' =
                 stdout w ++ log_reports ev ++ more
                   ++ ["Could not get embedding for turn_id " +:+ turn_id
                       +:+ ". Not adding to vector store."]) /\
          (open_append_error ev = None -> write_error ev = None ->
           newline_terminated (default "" (history_file w)) ->
           codec_ok (mk_turn turn_id user_message bot_message) ->
           forall ev',
             open_read_error ev' = None -> read_decode_error ev' = None ->
             Forall settled (readlines (default "" (history_file w))) ->
             fst (load_raw_history ev' w') =
               Ret (omap parse_line (readlines (default "" (history_file w)))
                    ++ [turn_data_of user_message bot_message turn_id])))) /\
  (collection w = None ->
     save_conversation_turn ev user_message bot_message turn_id w =
       (Ret tt,
        mk_world None (history_file w)
          (stdout w ++ ["Error: ChromaDB collection not initialized. Cannot save turn."])
          (trace w))).
Proof.
  split.
  2: { intros Hnone.
       unfold save_conversation_turn, global_collection, bind, print; cbn.
       rewrite Hnone; cbn. by rewrite Hnone. }
  intros c Hsome r.
  destruct (save_conversation_turn_initialized ev user_message bot_message turn_id
              w c Hsome)
    as (w' & Hrun & Htrace & Hfile & Hout & _ & Hreport).
  exists w'. do 4 (split; [ done | ]).
  intros Hfailed.
  destruct (save_conversation_turn_skips_index ev user_message bot_message turn_id
              w c Hsome Hfailed) as [Hcoll Hskip].
  fold r in Hrun. rewrite Hrun in Hcoll. cbn [snd] in Hcoll.
  do 2 (split; [ done | ]).
  split.
  { intros embedding Hr. apply (Hreport embedding Hr).
    unfold embedding_failed in Hfailed. by rewrite Hr in Hfailed. }
  intros Hopen Hwrite Hold Hcodec ev' Hread Hdecode Hlines.
  pose proof (settled_log_text _ [mk_turn turn_id user_message bot_message] Hold
                ltac:(by constructor) Hlines) as Hsettled.
  pose proof (readlines_log_text _ [mk_turn turn_id user_message bot_message] Hold
                ltac:(by constructor)) as Hread_back.
  cbn [log_text] in Hsettled, Hread_back. rewrite string_app_nil_r in Hsettled, Hread_back.
  assert (Hnew : default "" (history_file w') =
                   default "" (history_file w)
                   +:+ json_dumps (doc_of_turn (mk_turn turn_id user_message bot_message))
                   +:+ nl).
  { rewrite Hfile. unfold log_after, log_line. by rewrite Hopen, Hwrite. }
  rewrite load_raw_history_result; try done; rewrite Hnew; [ | done ].
  by rewrite Hread_back.
Qed.

Lemma settled_decoded docs :
  Forall (fun doc => is_Some (parse_line doc)) docs -> Forall settled docs.
Proof.
  intros Hall. eapply Forall_impl; [ exact Hall | ].
  intros doc [turn Hturn]. unfold parse_line in Hturn.
  unfold settled. by destruct (json_loads doc).
Qed.

Lemma for_each_decode_doc docs retrieved_docs (w : world C) :
  Forall settled docs ->
  for_each decode_doc retrieved_docs (VStr <$> docs) w =
    (Ret (retrieved_docs ++ omap parse_line docs),
     mk_world (collection w) (history_file w)
       (stdout w ++ omap decode_report docs) (trace w)).
Proof.
  intros Hall. revert retrieved_docs w.
  induction Hall as [ | doc docs Hdoc _ IH ]; intros retrieved_docs w.
  - destruct w. cbn. by rewrite !app_nil_r.
  - cbn [fmap list_fmap for_each]. unfold bind at 1.
    unfold decode_doc at 1, try_except, bind, lift, ret, py_json_loads; cbn.
    unfold parse_line, decode_report; cbn.
    unfold settled in Hdoc.
    destruct (json_loads doc) as [turn | e]; cbn.
    + fold (VStr <$> docs). rewrite IH; cbn. by rewrite <- app_assoc.
    + unfold handle; cbn. rewrite Hdoc; cbn. fold (VStr <$> docs). rewrite IH; cbn.
      by rewrite <- app_assoc.
Qed.

(** A document that is not a string ends the loop with an exception,
    whatever the documents before it gave. *)
Lemma for_each_decode_doc_aborts items retrieved_docs (w : world C) :
  Exists (fun item => is_str item = false) items ->
  exists e msgs,
    for_each decode_doc retrieved_docs items w =
      (Raise e, mk_world (collection w) (history_file w) (stdout w ++ msgs) (trace w)).
Proof.
  intros Hsome. revert retrieved_docs w.
  induction Hsome as [ item items Hitem | item items _ IH ]; intros retrieved_docs w;
    cbn [for_each]; unfold bind at 1, decode_doc at 1, try_except, bind, lift, ret.
  - assert (Hraise : py_json_loads item =
              Raise (mk_exn TypeError "the JSON object must be str, bytes or bytearray")).
    { by destruct item. }
    rewrite Hraise. cbn. unfold handle; cbn.
    eexists _, []. destruct w; cbn. by rewrite app_nil_r.
  - destruct (py_json_loads item) as [doc | e]; cbn.
    + apply IH.
    + unfold handle; cbn. destruct (isinstance e JSONDecodeError); cbn.
      * match goal with
        | |- context [for_each decode_doc retrieved_docs items ?w1] =>
            destruct (IH retrieved_docs w1) as (e' & msgs & ->)
        end.
        cbn. eexists e', (_ :: msgs). by rewrite <- app_assoc.
      * exists e, []. destruct w; cbn. by rewrite app_nil_r.
Qed.

Lemma retrieve_relevant_history_query ev query_text n_results (w : world C)
    c m embedding d docs others :
  collection w = Some c ->
  coll_count c = Ret m ->
  (0 < m)%Z -> (0 < n_results)%Z ->
  fst (get_embedding ev query_text EMBEDDING_MODEL_NAME w) = Ret embedding ->
  truthy embedding = true ->
  coll_query c [embedding] (Z.min n_results m) query_include = Ret (VDict d) ->
  dict_lookup "documents" d = Some (VList (VList (VStr <$> docs) :: others)) ->
  Forall settled docs ->
  retrieve_relevant_history ev query_text n_results w =
    (Ret (omap parse_line docs),
     mk_world (Some c) (history_file w)
       (stdout w ++ omap decode_report docs)
       (trace w ++ [EvCount; embeddings_post query_text EMBEDDING_MODEL_NAME;
                    EvQuery [embedding] (Z.min n_results m) query_include])).
Proof.
  intros Hsome Hcount Hm Hn Hemb Htruthy Hquery Hdocs Hsettled.
  destruct (get_embedding_effect ev query_text EMBEDDING_MODEL_NAME)
    as (r & msgs & Heff & Hquiet).
  rewrite Heff in Hemb. cbn in Hemb. subst r.
  rewrite (Hquiet embedding eq_refl Htruthy) in Heff.
  unfold retrieve_relevant_history.
  unfold bind at 1, global_collection. rewrite Hsome.
  change (negb (bool_decide (is_Some (Some c)))) with false. cbn iota.
  unfold bind at 1, try_except at 1, bind at 1, collection_count, bind at 1, emit, lift.
  rewrite Hsome. cbn. rewrite Hcount. cbn.
  replace (m =? 0)%Z with false by (symmetry; apply Z.eqb_neq; lia).
  replace (Z.min n_results m <=? 0)%Z with false by (symmetry; apply Z.leb_gt; lia).
  unfold bind at 1. rewrite Heff. rewrite Htruthy. cbn [negb].
  unfold try_except, bind at 1, collection_query, bind at 1, emit, lift. cbn.
  fold query_include. rewrite Hquery. cbn. rewrite Hdocs. cbn.
  fold (VStr <$> docs). rewrite for_each_decode_doc by done. cbn.
  by rewrite !app_nil_r, <- !app_assoc.
Qed.

Lemma for_each_decode_doc_frame items retrieved_docs (w : world C) :
  exists r msgs,
    for_each decode_doc retrieved_docs items w =
      (r, mk_world (collection w) (history_file w) (stdout w ++ msgs) (trace w)).
Proof.
  revert retrieved_docs w.
  induction items as [ | item items IH ]; intros retrieved_docs w.
  - exists (Ret retrieved_docs), []. destruct w; cbn. by rewrite app_nil_r.
  - cbn [for_each]. unfold bind at 1, decode_doc at 1, try_except, bind, lift, ret.
    destruct (py_json_loads item) as [doc | e]; cbn.
    + destruct (IH (retrieved_docs ++ [doc]) w) as (r & msgs & ->). by exists r, msgs.
    + unfold handle; cbn. destruct (isinstance e JSONDecodeError); cbn.
      * match goal with
        | |- context [for_each decode_doc retrieved_docs items ?w1] =>
            destruct (IH retrieved_docs w1) as (r & msgs & ->)
        end.
        cbn. eexists r, (_ :: msgs). by rewrite <- app_assoc.
      * exists (Raise e), []. destruct w; cbn. by rewrite app_nil_r.
Qed.

(** With the collection holding records and the query embedding obtained,
    the index is queried once, for [min(n_results, count)] results, and
    the function returns a list whatever the index answers. *)
Lemma retrieve_relevant_history_query_trace ev query_text n_results (w : world C)
    c m embedding :
  collection w = Some c ->
  coll_count c = Ret m ->
  (0 < m)%Z -> (0 < n_results)%Z ->
  fst (get_embedding ev query_text EMBEDDING_MODEL_NAME w) = Ret embedding ->
  truthy embedding = true ->
  exists turns w',
    retrieve_relevant_history ev query_text n_results w = (Ret turns, w') /\
    trace w' =
      trace w ++ [EvCount; embeddings_post query_text EMBEDDING_MODEL_NAME;
                  EvQuery [embedding] (Z.min n_results m) query_include].
Proof.
  intros Hsome Hcount Hm Hn Hemb Htruthy.
  destruct (get_embedding_effect ev query_text EMBEDDING_MODEL_NAME)
    as (r & msgs & Heff & _).
  rewrite Heff in Hemb. cbn in Hemb. subst r.
  unfold retrieve_relevant_history.
  unfold bind at 1, global_collection. rewrite Hsome.
  change (negb (bool_decide (is_Some (Some c)))) with false. cbn iota.
  unfold bind at 1, try_except at 1, bind at 1, collection_count, bind at 1, emit, lift.
  rewrite Hsome. cbn. rewrite Hcount. cbn.
  replace (m =? 0)%Z with false by (symmetry; apply Z.eqb_neq; lia).
  replace (Z.min n_results m <=? 0)%Z with false by (symmetry; apply Z.leb_gt; lia).
  unfold bind at 1. rewrite Heff. rewrite Htruthy. cbn [negb].
  unfold try_except, bind at 1, collection_query, bind at 1, emit, lift. cbn.
  fold query_include.
  assert (Hcaught : forall (e : exn) (w1 : world C),
            handle [(Exception, fun e0 : exn =>
                       print ("Error querying ChromaDB: " +:+ exn_str e0) ;;
                       ret (@nil value))]
              e w1 =
            (Ret [], mk_world (collection w1) (history_file w1)
                       (stdout w1 ++ ["Error querying ChromaDB: " +:+ exn_str e])
                       (trace w1))).
  { intros e w1. unfold handle; cbn. by rewrite isinstance_Exception. }
  destruct (coll_query c [embedding] (Z.min n_results m) query_include)
    as [results | e]; cbn;
    [ | rewrite Hcaught; cbn; eexists _, _; split;
        [ reflexivity | by rewrite <- !app_assoc ] ].
  destruct (py_get results "documents" (VList [VList []])) as [documents | e]; cbn;
    [ | rewrite Hcaught; cbn; eexists _, _; split;
        [ reflexivity | by rewrite <- !app_assoc ] ].
  destruct (py_index documents 0) as [retrieved_docs_json | e]; cbn;
    [ | rewrite Hcaught; cbn; eexists _, _; split;
        [ reflexivity | by rewrite <- !app_assoc ] ].
  destruct (py_iter retrieved_docs_json) as [items | e]; cbn;
    [ | rewrite Hcaught; cbn; eexists _, _; split;
        [ reflexivity | by rewrite <- !app_assoc ] ].
  match goal with
  | |- context [for_each decode_doc [] items ?w1] =>
      destruct (for_each_decode_doc_frame items [] w1) as (r & msgs' & ->)
  end.
  destruct r as [turns | e]; cbn;
    [ | rewrite Hcaught; cbn ];
    eexists _, _; (split; [ reflexivity | by rewrite <- !app_assoc ]).
Qed.

Lemma length_omap_all {A B : Type} (f : A -> option B) (l : list A) :
  Forall (fun x => is_Some (f x)) l -> length (omap f l) = length l.
Proof.
  induction 1 as [ | x l [y Hy] _ IH ]; cbn; [ done | ].
  rewrite Hy; cbn. by rewrite IH.
Qed.

(** C3: on an index that holds [m] records, [0 < m < n_results], with the
    query embedding obtained, the index is queried for [m] results, the
    requested number cut down to the count, and the function returns
    without an error; when the index answers with its [m] documents and
    they decode, [m] turns are returned. *)
Theorem retrieve_relevant_history_clamps ev query_text n_results (w : world C)
    c m embedding :
  collection w = Some c ->
  coll_count c = Ret m ->
  (0 < m < n_results)%Z ->
  fst (get_embedding ev query_text EMBEDDING_MODEL_NAME w) = Ret embedding ->
  truthy embedding = true ->
  exists turns w',
    retrieve_relevant_history ev query_text n_results w = (Ret turns, w') /\
    trace w' =
      trace w ++ [EvCount; embeddings_post query_text EMBEDDING_MODEL_NAME;
                  EvQuery [embedding] m query_include] /\
    (forall d docs others,
       coll_query c [embedding] m query_include = Ret (VDict d) ->
       dict_lookup "documents" d = Some (VList (VList (VStr <$> docs) :: others)) ->
       Z.of_nat (length docs) = m ->
       Forall (fun doc => is_Some (parse_line doc)) docs ->
       turns = omap parse_line docs /\ Z.of_nat (length turns) = m).
Proof.
  intros Hsome Hcount [Hm Hn] Hemb Htruthy.
  assert (Hmin : Z.min n_results m = m) by lia.
  destruct (retrieve_relevant_history_query_trace ev query_text n_results w c m
              embedding) as (turns & w' & Hrun & Htrace); try done; try lia.
  rewrite Hmin in Htrace.
  exists turns, w'. do 2 (split; [ done | ]).
  intros d docs others Hquery Hdocs Hlen Hall.
  rewrite <- Hmin in Hquery.
  rewrite (retrieve_relevant_history_query ev query_text n_results w c m embedding
             d docs others) in Hrun by (done || lia || by apply settled_decoded).
  injection Hrun as <- _. split; [ done | ].
  by rewrite length_omap_all.
Qed.

(** The documents that the handler of the loop covers: with an answer
    whose documents are strings that [json.loads] decodes or rejects with
    a [json.JSONDecodeError], each one rejected is skipped and reported,
    and those that decode are returned, in the order of the answer. *)
Lemma retrieve_relevant_history_skips_rejected ev query_text n_results
    (w : world C) c m embedding d docs others :
  collection w = Some c ->
  coll_count c = Ret m ->
  (0 < m)%Z -> (0 < n_results)%Z ->
  fst (get_embedding ev query_text EMBEDDING_MODEL_NAME w) = Ret embedding ->
  truthy embedding = true ->
  coll_query c [embedding] (Z.min n_results m) query_include = Ret (VDict d) ->
  dict_lookup "documents" d = Some (VList (VList (VStr <$> docs) :: others)) ->
  Forall settled docs ->
  exists w',
    retrieve_relevant_history ev query_text n_results w =
      (Ret (omap parse_line docs), w') /\
    stdout w' = stdout w ++ omap decode_report docs /\
    (forall doc turn,
       doc ∈ docs -> json_loads doc = inl turn -> turn ∈ omap parse_line docs) /\
    (forall doc e,
       doc ∈ docs -> json_loads doc = inr e ->
       ("Error decoding stored document from ChromaDB: " +:+ exn_str e
        +:+ ". Document: " +:+ doc) ∈ stdout w').
Proof.
  intros Hsome Hcount Hm Hn Hemb Htruthy Hquery Hdocs Hsettled.
  rewrite (retrieve_relevant_history_query ev query_text n_results w c m embedding
             d docs others) by done.
  eexists. split; [ reflexivity | ]. cbn. split; [ done | split ].
  - intros doc turn Hin Hload. apply list_elem_of_omap.
    exists doc. split; [ done | ]. unfold parse_line. by rewrite Hload.
  - intros doc e Hin Hload. apply elem_of_app. right.
    apply list_elem_of_omap. exists doc. split; [ done | ].
    unfold decode_report. by rewrite Hload.
Qed.

(** *** ollama_interface.py: what the handlers do not cover *)

(** X1: a reply with a good status whose body decodes to a value that is
    not an object (a list, a string, a number, [null]) makes
    [get_embedding] raise [TypeError]: none of its three handlers catches
    it, and nothing is printed. *)
Theorem get_embedding_non_object_reply_raises ev text model_name (w : world C) r v :
  http_post ev (OLLAMA_BASE_URL +:+ "/api/embeddings")
    (VDict [("model", VStr model_name); ("prompt", VStr text)]) = inr r ->
  ~ http_error r ->
  json_loads (response_text r) = inl v ->
  is_dict v = false ->
  exists e,
    get_embedding ev text model_name w =
      (Raise e,
       mk_world (collection w) (history_file w) (stdout w)
         (trace w ++ [embeddings_post text model_name])) /\
    exn_type e = TypeError.
Proof.
  intros Hpost Hok Hv Hdict.
  unfold get_embedding, try_except_local, requests_post, embeddings_post.
  unfold bind, emit, lift, ret; cbn. rewrite Hpost; cbn.
  rewrite (raise_for_status_ok r Hok); cbn.
  unfold response_json. rewrite Hv; cbn.
  destruct v; try discriminate Hdict; cbn; eexists; (split; [ reflexivity | done ]).
Qed.

(** X2: whatever the service answers, [get_embedding] makes exactly one
    call, the POST of the model name and the text to [/api/embeddings];
    it leaves the collection and the history file as they are, and its
    result does not depend on the state it is called in. *)
Theorem get_embedding_one_post ev text model_name (w : world C) :
  let w' := snd (get_embedding ev text model_name w) in
  trace w' = trace w ++ [embeddings_post text model_name] /\
  collection w' = collection w /\
  history_file w' = history_file w /\
  forall w0 : world C,
    fst (get_embedding ev text model_name w0) = fst (get_embedding ev text model_name w).
Proof.
  destruct (get_embedding_effect ev text model_name) as (r & msgs & Heff & _).
  cbv zeta. rewrite (Heff w). cbn. repeat split. intros w0. by rewrite (Heff w0).
Qed.

Lemma lstrip_starts_clean (s : string) : starts_clean (lstrip s).
Proof.
  induction s as [ | c s IH ]; cbn; [ done | ].
  destruct (is_space c) eqn:Hc; [ done | by cbn ].
Qed.

Lemma lstrip_clean (s : string) : starts_clean s -> lstrip s = s.
Proof. destruct s as [ | c s ]; cbn; [ done | ]. by intros ->. Qed.

Lemma rstrip_starts_clean (s : string) : starts_clean s -> starts_clean (rstrip s).
Proof.
  destruct s as [ | c s ]; cbn; [ done | ]. intros Hc.
  destruct (rstrip s); [ by rewrite Hc | done ].
Qed.

Lemma rstrip_idempotent (s : string) : rstrip (rstrip s) = rstrip s.
Proof.
  induction s as [ | c s IH ]; cbn; [ done | ].
  destruct (rstrip s) as [ | d s' ] eqn:Hs.
  - destruct (is_space c) eqn:Hc; cbn; [ done | by rewrite Hc ].
  - cbn in IH |- *. by rewrite IH.
Qed.

(** What [get_chat_response] does to the world: one POST, and at most one
    line printed; its result does not depend on the world. *)
Lemma get_chat_response_effect ev prompt_text model_name :
  exists r msgs,
    forall w : world C,
      get_chat_response ev prompt_text model_name w =
        (r, mk_world (collection w) (history_file w) (stdout w ++ msgs)
              (trace w ++ [generate_post prompt_text model_name])).
Proof.
  unfold get_chat_response, try_except_local, requests_post, generate_post.
  unfold bind, emit, lift, ret; cbn.
  assert (Hquiet : forall r0 : outcome string, exists (r : outcome string) msgs,
            forall w : world C,
              (r0, mk_world (collection w) (history_file w) (stdout w)
                     (trace w ++ [EvPost (OLLAMA_BASE_URL +:+ "/api/generate")
                        (VDict [("model", VStr model_name); ("prompt", VStr prompt_text);
                                ("stream", VBool false)])])) =
              (r, mk_world (collection w) (history_file w) (stdout w ++ msgs)
                    (trace w ++ [EvPost (OLLAMA_BASE_URL +:+ "/api/generate")
                       (VDict [("model", VStr model_name); ("prompt", VStr prompt_text);
                               ("stream", VBool false)])]))).
  { intros r0. exists r0, []. intros w. by rewrite app_nil_r. }
  destruct (http_post ev _ _) as [msg | r]; cbn; [ by eexists _, [_] | ].
  unfold raise_for_status, response_json.
  destruct (_ && _)%bool; cbn; [ by eexists _, [_] | ].
  destruct (json_loads (response_text r)) as [data | e0]; cbn.
  - destruct (py_get data "response" (VStr "")) as [completion | e]; cbn.
    + destruct (py_strip completion) as [s | e]; cbn; [ apply Hquiet | ].
      unfold handle; cbn.
      destruct (isinstance e RequestException); cbn; [ by eexists _, [_] | ].
      destruct (isinstance e JSONDecodeError); cbn; [ by eexists _, [_] | ].
      apply Hquiet.
    + unfold handle; cbn.
      destruct (isinstance e RequestException); cbn; [ by eexists _, [_] | ].
      destruct (isinstance e JSONDecodeError); cbn; [ by eexists _, [_] | ].
      apply Hquiet.
  - destruct (isinstance e0 JSONDecodeError); cbn; unfold handle; cbn;
      repeat (match goal with
              | |- context [isinstance ?x ?c] => destruct (isinstance x c); cbn
              end);
      first [ apply Hquiet | by eexists _, [_] ].
Qed.

(** X3: the completion that [get_chat_response] returns on success is
    trimmed at both ends: it is [strip] of the ["response"] field, it does
    not begin and does not end with white space, and trimming it again
    changes nothing. *)
Theorem get_chat_response_result_trimmed ev prompt_text model_name (w : world C)
    r d completion :
  http_post ev (OLLAMA_BASE_URL +:+ "/api/generate")
    (VDict [("model", VStr model_name); ("prompt", VStr prompt_text);
            ("stream", VBool false)]) = inr r ->
  ~ http_error r ->
  json_loads (response_text r) = inl (VDict d) ->
  dict_lookup "response" d = Some (VStr completion) ->
  exists reply,
    fst (get_chat_response ev prompt_text model_name w) = Ret reply /\
    reply = strip completion /\
    lstrip reply = reply /\ rstrip reply = reply /\ strip reply = reply.
Proof.
  intros Hpost Hok Hd Hsome. exists (strip completion).
  rewrite (get_chat_response_success ev prompt_text model_name w r d completion)
    by done.
  assert (Hl : lstrip (strip completion) = strip completion).
  { apply lstrip_clean. unfold strip. apply rstrip_starts_clean, lstrip_starts_clean. }
  assert (Hr : rstrip (strip completion) = strip completion).
  { unfold strip. apply rstrip_idempotent. }
  repeat split; try done.
  unfold strip at 1. by rewrite Hl, Hr.
Qed.

(** X4: a reply with a good status that is not an object, or whose
    ["response"] field is not a string, makes [get_chat_response] raise
    [AttributeError]: neither handler catches it, and no fallback string is
    returned. *)
Theorem get_chat_response_non_string_raises ev prompt_text model_name (w : world C) r v :
  http_post ev (OLLAMA_BASE_URL +:+ "/api/generate")
    (VDict [("model", VStr model_name); ("prompt", VStr prompt_text);
            ("stream", VBool false)]) = inr r ->
  ~ http_error r ->
  json_loads (response_text r) = inl v ->
  (is_dict v = false \/
   exists d x, v = VDict d /\ dict_lookup "response" d = Some x /\ is_str x = false) ->
  exists e,
    get_chat_response ev prompt_text model_name w =
      (Raise e,
       mk_world (collection w) (history_file w) (stdout w)
         (trace w ++ [generate_post prompt_text model_name])) /\
    exn_type e = AttributeError.
Proof.
  intros Hpost Hok Hv Hshape.
  unfold get_chat_response, try_except_local, requests_post, generate_post.
  unfold bind, emit, lift, ret; cbn. rewrite Hpost; cbn.
  rewrite (raise_for_status_ok r Hok); cbn.
  unfold response_json. rewrite Hv; cbn.
  destruct Hshape as [Hdict | (d & x & -> & Hx & Hstr)].
  - destruct v; try discriminate Hdict; cbn; eexists; (split; [ reflexivity | done ]).
  - cbn. rewrite Hx; cbn.
    destruct x; try discriminate Hstr; cbn; eexists; (split; [ reflexivity | done ]).
Qed.

(** X5: when the service cannot be reached, and when it answers with an
    HTTP error status, [get_chat_response] prints one report that carries
    the message of the error and returns the transport fallback string;
    the body of the reply is not looked at. *)
Theorem get_chat_response_unreachable_or_error_status ev prompt_text model_name
    (w : world C) :
  let url := OLLAMA_BASE_URL +:+ "/api/generate" in
  let body := VDict [("model", VStr model_name); ("prompt", VStr prompt_text);
                     ("stream", VBool false)] in
  (forall msg, http_post ev url body = inl msg ->
     get_chat_response ev prompt_text model_name w =
       (Ret transport_fallback,
        mk_world (collection w) (history_file w)
          (stdout w ++ ["Error getting chat response from Ollama: " +:+ msg])
          (trace w ++ [generate_post prompt_text model_name]))) /\
  (forall r, http_post ev url body = inr r -> http_error r ->
     exists report,
       get_chat_response ev prompt_text model_name w =
         (Ret transport_fallback,
          mk_world (collection w) (history_file w)
            (stdout w ++ ["Error getting chat response from Ollama: " +:+ report])
            (trace w ++ [generate_post prompt_text model_name]))).
Proof.
  cbv zeta. split.
  - intros msg Hpost.
    unfold get_chat_response, try_except_local, requests_post.
    unfold bind, emit, lift, ret; cbn. by rewrite Hpost.
  - intros r Hpost Herr.
    unfold get_chat_response, try_except_local, requests_post.
    unfold bind, emit, lift, ret; cbn. rewrite Hpost; cbn.
    rewrite (raise_for_status_error r Herr). by eexists.
Qed.

(** X6: whatever the service answers, [get_chat_response] makes exactly
    one call, the POST to [/api/generate] of the model name and the prompt
    as it was given, with streaming off; it leaves the collection and the
    history file as they are. *)
Theorem get_chat_response_one_post ev prompt_text model_name (w : world C) :
  let w' := snd (get_chat_response ev prompt_text model_name w) in
  trace w' =
    trace w ++ [EvPost (OLLAMA_BASE_URL +:+ "/api/generate")
                  (VDict [("model", VStr model_name); ("prompt", VStr prompt_text);
                          ("stream", VBool false)])] /\
  collection w' = collection w /\
  history_file w' = history_file w.
Proof.
  destruct (get_chat_response_effect ev prompt_text model_name) as (r & msgs & Heff).
  cbv zeta. rewrite (Heff w). by cbn.
Qed.

(** *** memory_manager.py: save_conversation_turn on its other paths *)

Lemma get_embedding_returns_field ev text model_name (w : world C) r d v :
  http_post ev (OLLAMA_BASE_URL +:+ "/api/embeddings")
    (VDict [("model", VStr model_name); ("prompt", VStr text)]) = inr r ->
  ~ http_error r ->
  json_loads (response_text r) = inl (VDict d) ->
  dict_lookup "embedding" d = Some v ->
  fst (get_embedding ev text model_name w) = Ret v.
Proof.
  intros Hpost Hok Hd Hsome.
  unfold get_embedding, try_except_local, requests_post.
  unfold bind, emit, lift, ret; cbn. rewrite Hpost; cbn.
  rewrite (raise_for_status_ok r Hok); cbn.
  unfold response_json. rewrite Hd; cbn. by rewrite Hsome.
Qed.

(** A call with an embedding: the world it leaves, by what
    [collection.add] answers. *)
Lemma save_conversation_turn_indexing ev user_message bot_message turn_id
    (w : world C) c embedding :
  collection w = Some c ->
  fst (get_embedding ev (embed_text user_message bot_message) EMBEDDING_MODEL_NAME w)
    = Ret embedding ->
  truthy embedding = true ->
  let added := coll_add c [turn_id] [embedding]
                 [json_dumps (turn_data_of user_message bot_message turn_id)]
                 [turn_metadata turn_id] in
  save_conversation_turn ev user_message bot_message turn_id w =
    (Ret tt,
     mk_world (Some (snd added))
       (log_after ev (history_file w) (log_line user_message bot_message turn_id))
       (stdout w ++ log_reports ev ++ add_reports turn_id (fst added))
       (trace w ++ log_events ev (log_line user_message bot_message turn_id)
          ++ [embeddings_post (embed_text user_message bot_message) EMBEDDING_MODEL_NAME;
              add_event user_message bot_message turn_id embedding])).
Proof.
  intros Hsome Hemb Htruthy added. subst added.
  destruct (get_embedding_effect ev (embed_text user_message bot_message)
              EMBEDDING_MODEL_NAME) as (r & msgs & Heff & Hquiet).
  rewrite (Heff w) in Hemb. cbn in Hemb. subst r.
  rewrite (Hquiet embedding eq_refl Htruthy) in Heff.
  unfold save_conversation_turn.
  unfold bind at 1, global_collection. rewrite Hsome.
  change (negb (bool_decide (is_Some (Some c)))) with false. cbn iota.
  unfold bind at 1. rewrite append_turn_effect.
  unfold bind at 1. fold (embed_text user_message bot_message). rewrite Heff.
  fold (log_line user_message bot_message turn_id). rewrite Htruthy.
  unfold try_except, collection_add, bind, emit, handle, print; cbn.
  rewrite Hsome. fold (turn_metadata turn_id).
  destruct (coll_add c _ _ _ _) as [[[] | e] c']; cbn.
  - by rewrite !app_nil_r, <- !app_assoc.
  - rewrite isinstance_Exception; cbn. by rewrite !app_nil_r, <- !app_assoc.
Qed.

(** X7: called while the collection is not initialised,
    [save_conversation_turn] prints one line and returns: it makes no call
    at all, so the history file is neither opened nor created and no
    embedding is requested. *)
Theorem save_conversation_turn_uninitialized ev user_message bot_message turn_id
    (w : world C) :
  collection w = None ->
  save_conversation_turn ev user_message bot_message turn_id w =
    (Ret tt,
     mk_world None (history_file w)
       (stdout w ++ ["Error: ChromaDB collection not initialized. Cannot save turn."])
       (trace w)).
Proof.
  intros Hnone.
  unfold save_conversation_turn, global_collection, bind, print; cbn.
  rewrite Hnone; cbn. by rewrite Hnone.
Qed.

(** X8: when [collection.add] raises (a duplicate id, a vector of the
    wrong size), [save_conversation_turn] catches the exception, prints a
    report that carries the turn id and the message, and returns normally;
    the line it wrote to the history file stays. *)
Theorem save_conversation_turn_add_failure ev user_message bot_message turn_id
    (w : world C) c embedding e c' :
  collection w = Some c ->
  fst (get_embedding ev (embed_text user_message bot_message) EMBEDDING_MODEL_NAME w)
    = Ret embedding ->
  truthy embedding = true ->
  coll_add c [turn_id] [embedding]
    [json_dumps (turn_data_of user_message bot_message turn_id)]
    [turn_metadata turn_id] = (Raise e, c') ->
  exists w',
    save_conversation_turn ev user_message bot_message turn_id w = (Ret tt, w') /\
    last (stdout w') =
      Some ("Error adding turn_id " +:+ turn_id +:+ " to ChromaDB: " +:+ exn_str e) /\
    history_file w' =
      log_after ev (history_file w) (log_line user_message bot_message turn_id) /\
    collection w' = Some c'.
Proof.
  intros Hsome Hemb Htruthy Hadd.
  rewrite (save_conversation_turn_indexing ev user_message bot_message turn_id w c
             embedding) by done.
  rewrite Hadd. cbn. eexists. split; [ reflexivity | cbn ].
  split; [ | done ]. by rewrite !app_assoc, last_snoc.
Qed.

(** X9: an ["embedding"] field that is there but falsy (the empty list,
    [null], [0]) is handled as a failed embedding call: the turn is
    written to the history file, [collection.add] is not called, and the
    last line printed says that the turn is not added to the vector
    store. *)
Theorem save_conversation_turn_falsy_embedding ev user_message bot_message turn_id
    (w : world C) c r d v :
  collection w = Some c ->
  http_post ev (OLLAMA_BASE_URL +:+ "/api/embeddings")
    (VDict [("model", VStr EMBEDDING_MODEL_NAME);
            ("prompt", VStr (embed_text user_message bot_message))]) = inr r ->
  ~ http_error r ->
  json_loads (response_text r) = inl (VDict d) ->
  dict_lookup "embedding" d = Some v ->
  truthy v = false ->
  exists w',
    save_conversation_turn ev user_message bot_message turn_id w = (Ret tt, w') /\
    collection w' = Some c /\
    trace w' =
      trace w ++ log_events ev (log_line user_message bot_message turn_id)
        ++ [embeddings_post (embed_text user_message bot_message) EMBEDDING_MODEL_NAME] /\
    history_file w' =
      log_after ev (history_file w) (log_line user_message bot_message turn_id) /\
    last (stdout w') =
      Some ("Could not get embedding for turn_id " +:+ turn_id
            +:+ ". Not adding to vector store.").
Proof.
  intros Hsome Hpost Hok Hd Hv Hfalsy.
  pose proof (get_embedding_returns_field ev (embed_text user_message bot_message)
                EMBEDDING_MODEL_NAME w r d v Hpost Hok Hd Hv) as Hemb.
  destruct (save_conversation_turn_initialized ev user_message bot_message turn_id
              w c Hsome) as (w' & Hrun & Htrace & Hfile & _ & _ & Hskip).
  rewrite Hemb in Hrun, Htrace. cbn [save_result index_events] in Hrun, Htrace.
  rewrite Hfalsy in Htrace.
  destruct (Hskip v Hemb Hfalsy) as (Hcoll & more & Hout).
  exists w'. do 2 (split; [ done | ]).
  split; [ by rewrite Htrace, app_nil_r | ]. split; [ done | ].
  by rewrite Hout, !app_assoc, last_snoc.
Qed.


(** *** memory_manager.py: load_raw_history on its other paths *)

Lemma length_parse_skip (f : nat -> string -> nat * string) (l : list string) :
  (forall i x, snd (f i x) = x) ->
  length (omap parse_line l) + length (omap skip_report (imap f l)) = length l.
Proof.
  revert f. induction l as [ | x l IH ]; intros f Hf; cbn; [ done | ].
  unfold parse_line at 1, skip_report at 1. rewrite Hf.
  specialize (IH (f ∘ S) (fun i y => Hf (S i) y)).
  destruct (json_loads x); cbn; lia.
Qed.

Lemma load_raw_history_unreadable ev (w : world C) s msg :
  history_file w = Some s -> open_read_error ev = Some msg ->
  load_raw_history ev w =
    (Ret [],
     mk_world (collection w) (Some s)
       (stdout w ++ ["Error loading from history file " +:+ HISTORY_FILE_PATH +:+ ": "
                     +:+ msg])
       (trace w ++ [EvExists HISTORY_FILE_PATH; EvOpen HISTORY_FILE_PATH "r"])).
Proof.
  intros Hfile Hopen.
  unfold load_raw_history, os_path_exists, try_except, open_read.
  unfold bind, emit, ret; cbn. rewrite Hfile; cbn. rewrite Hopen; cbn.
  unfold handle, print; cbn. by rewrite <- app_assoc.
Qed.

Lemma for_each_load_line_frame numbered history (w : world C) :
  exists r msgs,
    for_each load_line history numbered w =
      (r, mk_world (collection w) (history_file w) (stdout w ++ msgs) (trace w)) /\
    (forall e, r = Raise e ->
       exists line, line ∈ numbered /\ json_loads (snd line) = inr e /\
                    isinstance e JSONDecodeError = false).
Proof.
  revert history w.
  induction numbered as [ | [i line] numbered IH ]; intros history w.
  - exists (Ret history), []. split; [ | done ]. destruct w; cbn. by rewrite app_nil_r.
  - cbn [for_each]. unfold bind at 1.
    unfold load_line at 1, try_except, bind, lift, ret, py_json_loads; cbn.
    destruct (json_loads line) as [turn | e] eqn:Hline; cbn.
    + destruct (IH (history ++ [turn]) w) as (r & msgs & -> & Hraise).
      exists r, msgs. split; [ done | ].
      intros e He. destruct (Hraise e He) as (l & Hin & Hl).
      exists l. split; [ by apply list_elem_of_further | done ].
    + unfold handle; cbn.
      destruct (isinstance e JSONDecodeError) eqn:Hclass; cbn.
      * match goal with
        | |- context [for_each load_line history numbered ?w1] =>
            destruct (IH history w1) as (r & msgs & -> & Hraise)
        end.
        cbn. eexists r, (_ :: msgs). split; [ by rewrite <- app_assoc | ].
        intros e' He. destruct (Hraise e' He) as (l & Hin & Hl).
        exists l. split; [ by apply list_elem_of_further | done ].
      * exists (Raise e), []. split; [ destruct w; cbn; by rewrite app_nil_r | ].
        intros e' [= <-]. exists (i, line). split; [ apply list_elem_of_here | done ].
Qed.

(** X11: [load_raw_history] changes nothing, and the [OSError] of a
    failing [open] never leaves it.  Whatever the file holds and whatever
    the file system answers, the history file and the collection are as
    they were; and an exception leaves the function in two cases only:
    [json.loads] raised it on a line of the file and it is not a
    [json.JSONDecodeError], or the bytes of the file are not UTF-8 and it
    is the [UnicodeDecodeError] of reading them. *)
Theorem load_raw_history_escapes ev (w : world C) :
  exists r w',
    load_raw_history ev w = (r, w') /\
    history_file w' = history_file w /\
    collection w' = collection w /\
    (forall e, r = Raise e ->
       (exists s line,
          history_file w = Some s /\ line ∈ readlines s /\
          json_loads line = inr e /\ isinstance e JSONDecodeError = false) \/
       (exists n msg,
          read_decode_error ev = Some (n, msg) /\ e = mk_exn UnicodeDecodeError msg)).
Proof.
  destruct (history_file w) as [s | ] eqn:Hfile.
  2: { unfold load_raw_history, os_path_exists, bind, emit, ret; cbn.
       rewrite Hfile; cbn. eexists _, _. split; [ reflexivity | done ]. }
  destruct (open_read_error ev) as [msg | ] eqn:Hopen.
  { rewrite (load_raw_history_unreadable ev w s msg) by done.
    eexists _, _. split; [ reflexivity | done ]. }
  rewrite (load_raw_history_reads ev w s) by done.
  assert (Hlines : forall lines : list string, lines ⊆ readlines s ->
            forall line : nat * string, line ∈ enumerate lines -> snd line ∈ readlines s).
  { intros lines Hsub line Hin. unfold enumerate in Hin.
    apply elem_of_lookup_imap_1 in Hin as (k & x & -> & Hx).
    apply Hsub. by eapply list_elem_of_lookup_2. }
  unfold try_except, bind at 1.
  match goal with
  | |- context [for_each load_line [] ?numbered ?w1] =>
      destruct (for_each_load_line_frame numbered [] w1) as (r & msgs & -> & Hraise)
  end.
  destruct r as [history | e].
  - destruct (read_decode_error ev) as [[n msg] | ] eqn:Hdecode.
    + unfold lift, handle; cbn.
      eexists _, _. split; [ reflexivity | cbn ].
      do 2 (split; [ done | ]). intros e [= <-]. right. by exists n, msg.
    + unfold ret. eexists _, _. split; [ reflexivity | done ].
  - unfold handle; cbn. destruct (isinstance e OSError); cbn.
    + unfold bind, print, ret; cbn. eexists _, _. split; [ reflexivity | done ].
    + eexists _, _. split; [ reflexivity | cbn ].
      do 2 (split; [ done | ]). intros e' [= <-]. left.
      destruct (Hraise e eq_refl) as (line & Hin & Hload & Hclass).
      exists s, (snd line). repeat split; try done.
      eapply Hlines; [ | exact Hin ].
      destruct (read_decode_error ev) as [[n msg] | ]; [ apply subseteq_take | done ].
Qed.

(** X12: when the history file is there but cannot be opened for reading,
    [load_raw_history] prints a report with the path and the message of
    the error and returns the empty list, as if nothing had been saved. *)
Theorem load_raw_history_open_error ev (w : world C) s msg :
  history_file w = Some s -> open_read_error ev = Some msg ->
  load_raw_history ev w =
    (Ret [],
     mk_world (collection w) (Some s)
       (stdout w ++ ["Error loading from history file " +:+ HISTORY_FILE_PATH +:+ ": "
                     +:+ msg])
       (trace w ++ [EvExists HISTORY_FILE_PATH; EvOpen HISTORY_FILE_PATH "r"])).
Proof. apply load_raw_history_unreadable. Qed.

(** X13: on a history file that is read as UTF-8 text and each of whose
    lines [json.loads] decodes or rejects with a [json.JSONDecodeError],
    every line is accounted for: the number of turns returned plus the
    number of reports printed is the number of lines of the file, so no
    line is dropped without a report. *)
Theorem load_raw_history_accounts_for_lines ev (w : world C) s :
  history_file w = Some s ->
  open_read_error ev = None -> read_decode_error ev = None ->
  Forall settled (readlines s) ->
  exists turns reports w',
    load_raw_history ev w = (Ret turns, w') /\
    stdout w' = stdout w ++ reports /\
    length turns + length reports = length (readlines s) /\
    length turns <= length (readlines s).
Proof.
  intros Hfile Hopen Hdecode Hall.
  rewrite (load_raw_history_file ev w s) by done.
  eexists _, _, _. split; [ reflexivity | cbn ]. split; [ reflexivity | ].
  pose proof (length_parse_skip pair (readlines s) (fun _ _ => eq_refl)) as Hlen.
  unfold enumerate. lia.
Qed.

(** X30: a line on which [json.loads] raises another exception than
    [json.JSONDecodeError] (a [ValueError] on an integer of more digits
    than [int] converts, a [RecursionError]) is not skipped: the handler
    of the loop does not catch it, nor does the handler of [OSError], so
    the exception leaves [load_raw_history], the turns of the lines
    before it are lost with it, and the lines after it are not read. *)
Theorem load_raw_history_decoder_fault_aborts ev (w : world C) s before line after e :
  history_file w = Some s ->
  open_read_error ev = None -> read_decode_error ev = None ->
  readlines s = before ++ line :: after ->
  Forall settled before ->
  json_loads line = inr e ->
  isinstance e JSONDecodeError = false ->
  isinstance e OSError = false ->
  load_raw_history ev w =
    (Raise e,
     mk_world (collection w) (Some s)
       (stdout w ++ omap skip_report (enumerate before))
       (trace w ++ [EvExists HISTORY_FILE_PATH; EvOpen HISTORY_FILE_PATH "r"])).
Proof.
  intros Hfile Hopen Hdecode Hlines Hbefore Hline Hclass Hos.
  rewrite (load_raw_history_reads ev w s) by done.
  rewrite Hdecode, Hlines. unfold enumerate. rewrite imap_app. cbn [imap].
  unfold try_except, bind at 1. rewrite for_each_app. unfold bind at 1.
  rewrite for_each_load_line by (by apply Forall_snd_imap).
  cbn [for_each]. unfold bind at 1. rewrite (load_line_fault _ _ _ _ e) by done.
  unfold handle; cbn. by rewrite Hos.
Qed.

(** *** memory_manager.py: retrieve_relevant_history on its other paths *)


(** X15: when [collection.count()] raises, [retrieve_relevant_history]
    prints a report with the message of the exception and returns the
    empty list; no embedding is requested. *)
Theorem retrieve_relevant_history_count_error ev query_text n_results (w : world C)
    c e :
  collection w = Some c ->
  coll_count c = Raise e ->
  retrieve_relevant_history ev query_text n_results w =
    (Ret [],
     mk_world (Some c) (history_file w)
       (stdout w ++ ["Error getting count from ChromaDB collection: " +:+ exn_str e])
       (trace w ++ [EvCount])).
Proof.
  intros Hsome Hcount.
  unfold retrieve_relevant_history.
  unfold bind at 1, global_collection. rewrite Hsome.
  change (negb (bool_decide (is_Some (Some c)))) with false. cbn iota.
  unfold bind at 1, try_except at 1, bind at 1, collection_count, bind at 1, emit, lift.
  rewrite Hsome. cbn. rewrite Hcount. cbn.
  unfold handle; cbn. by rewrite isinstance_Exception.
Qed.

(** X16: when the embedding of the query is not obtained (the call
    returns [None], or a falsy value), [retrieve_relevant_history] says so
    and returns the empty list without querying the collection. *)
Theorem retrieve_relevant_history_embedding_failure ev query_text n_results
    (w : world C) c m embedding :
  collection w = Some c ->
  coll_count c = Ret m ->
  (0 < m)%Z -> (0 < n_results)%Z ->
  fst (get_embedding ev query_text EMBEDDING_MODEL_NAME w) = Ret embedding ->
  truthy embedding = false ->
  exists w',
    retrieve_relevant_history ev query_text n_results w = (Ret [], w') /\
    trace w' = trace w ++ [EvCount; embeddings_post query_text EMBEDDING_MODEL_NAME] /\
    last (stdout w') = Some "Could not get embedding for query. Cannot retrieve history." /\
    collection w' = Some c.
Proof.
  intros Hsome Hcount Hm Hn Hemb Hfalsy.
  destruct (get_embedding_effect ev query_text EMBEDDING_MODEL_NAME)
    as (r & msgs & Heff & _).
  rewrite Heff in Hemb. cbn in Hemb. subst r.
  unfold retrieve_relevant_history.
  unfold bind at 1, global_collection. rewrite Hsome.
  change (negb (bool_decide (is_Some (Some c)))) with false. cbn iota.
  unfold bind at 1, try_except at 1, bind at 1, collection_count, bind at 1, emit, lift.
  rewrite Hsome. cbn. rewrite Hcount. cbn.
  replace (m =? 0)%Z with false by (symmetry; apply Z.eqb_neq; lia).
  replace (Z.min n_results m <=? 0)%Z with false by (symmetry; apply Z.leb_gt; lia).
  unfold bind at 1. rewrite Heff. rewrite Hfalsy. cbn.
  eexists. split; [ reflexivity | cbn ].
  split; [ by rewrite <- app_assoc | ]. split; [ by rewrite last_snoc | done ].
Qed.

(** With records in the collection, a positive request and the query
    embedding obtained, the function comes to its last step after the
    count and the embedding call, nothing printed. *)
Lemma retrieve_relevant_history_reaches_query ev query_text n_results (w : world C)
    c m embedding :
  collection w = Some c ->
  coll_count c = Ret m ->
  (0 < m)%Z -> (0 < n_results)%Z ->
  fst (get_embedding ev query_text EMBEDDING_MODEL_NAME w) = Ret embedding ->
  truthy embedding = true ->
  retrieve_relevant_history ev query_text n_results w =
    query_and_decode embedding (Z.min n_results m)
      (mk_world (Some c) (history_file w) (stdout w)
         (trace w ++ [EvCount; embeddings_post query_text EMBEDDING_MODEL_NAME])).
Proof.
  intros Hsome Hcount Hm Hn Hemb Htruthy.
  destruct (get_embedding_effect ev query_text EMBEDDING_MODEL_NAME)
    as (r & msgs & Heff & Hquiet).
  rewrite Heff in Hemb. cbn in Hemb. subst r.
  rewrite (Hquiet embedding eq_refl Htruthy) in Heff.
  unfold retrieve_relevant_history.
  unfold bind at 1, global_collection. rewrite Hsome.
  change (negb (bool_decide (is_Some (Some c)))) with false. cbn iota.
  unfold bind at 1, try_except at 1, bind at 1, collection_count, bind at 1, emit, lift.
  rewrite Hsome. cbn. rewrite Hcount. cbn.
  replace (m =? 0)%Z with false by (symmetry; apply Z.eqb_neq; lia).
  replace (Z.min n_results m <=? 0)%Z with false by (symmetry; apply Z.leb_gt; lia).
  unfold bind at 1. rewrite Heff. rewrite Htruthy. cbn [negb].
  cbn [collection history_file stdout trace].
  rewrite app_nil_r, <- app_assoc. reflexivity.
Qed.

(** X17: when [collection.query] raises, [retrieve_relevant_history]
    prints [Error querying ChromaDB] with the message and returns the
    empty list: the exception does not reach the caller. *)
Theorem retrieve_relevant_history_query_error ev query_text n_results (w : world C)
    c m embedding e :
  collection w = Some c ->
  coll_count c = Ret m ->
  (0 < m)%Z -> (0 < n_results)%Z ->
  fst (get_embedding ev query_text EMBEDDING_MODEL_NAME w) = Ret embedding ->
  truthy embedding = true ->
  coll_query c [embedding] (Z.min n_results m) query_include = Raise e ->
  retrieve_relevant_history ev query_text n_results w =
    (Ret [],
     mk_world (Some c) (history_file w)
       (stdout w ++ ["Error querying ChromaDB: " +:+ exn_str e])
       (trace w ++ [EvCount; embeddings_post query_text EMBEDDING_MODEL_NAME;
                    EvQuery [embedding] (Z.min n_results m) query_include])).
Proof.
  intros Hsome Hcount Hm Hn Hemb Htruthy Hquery.
  rewrite (retrieve_relevant_history_reaches_query ev query_text n_results w c m
             embedding) by done.
  unfold query_and_decode, try_except, bind at 1, collection_query, bind at 1, emit, lift.
  cbn. fold query_include. rewrite Hquery. cbn.
  unfold handle; cbn. rewrite isinstance_Exception; cbn.
  by rewrite <- app_assoc.
Qed.

(** X18: a document of the answer that is not a string (a record stored
    without a document comes back as [None]) is not skipped: [json.loads]
    raises [TypeError], the handler of the whole query catches it, and the
    documents decoded before it are lost with it, the function returning
    the empty list. *)
Theorem retrieve_relevant_history_non_string_document_aborts ev query_text n_results
    (w : world C) c m embedding d docs x rest others :
  collection w = Some c ->
  coll_count c = Ret m ->
  (0 < m)%Z -> (0 < n_results)%Z ->
  fst (get_embedding ev query_text EMBEDDING_MODEL_NAME w) = Ret embedding ->
  truthy embedding = true ->
  coll_query c [embedding] (Z.min n_results m) query_include = Ret (VDict d) ->
  dict_lookup "documents" d
    = Some (VList (VList ((VStr <$> docs) ++ x :: rest) :: others)) ->
  is_str x = false ->
  exists w' report,
    retrieve_relevant_history ev query_text n_results w = (Ret [], w') /\
    last (stdout w') = Some ("Error querying ChromaDB: " +:+ report) /\
    trace w' =
      trace w ++ [EvCount; embeddings_post query_text EMBEDDING_MODEL_NAME;
                  EvQuery [embedding] (Z.min n_results m) query_include].
Proof.
  intros Hsome Hcount Hm Hn Hemb Htruthy Hquery Hdocs Hx.
  rewrite (retrieve_relevant_history_reaches_query ev query_text n_results w c m
             embedding) by done.
  unfold query_and_decode, try_except, bind at 1, collection_query, bind at 1, emit, lift.
  cbn. fold query_include. rewrite Hquery. cbn. rewrite Hdocs. cbn.
  match goal with
  | |- context [for_each decode_doc [] ?items ?w1] =>
      destruct (for_each_decode_doc_aborts items [] w1) as (e & msgs & ->);
        [ apply Exists_app; right; by apply Exists_cons_hd | ]
  end.
  cbn. unfold handle; cbn. rewrite isinstance_Exception; cbn.
  eexists _, _. split; [ reflexivity | cbn ]. split; [ by rewrite last_snoc | ].
  by rewrite <- app_assoc.
Qed.

(** X19: an answer of the collection without the ["documents"] key gives
    the empty list, without a report: the default [[[]]] of the lookup
    stands for no document. *)
Theorem retrieve_relevant_history_answer_without_documents ev query_text n_results
    (w : world C) c m embedding d :
  collection w = Some c ->
  coll_count c = Ret m ->
  (0 < m)%Z -> (0 < n_results)%Z ->
  fst (get_embedding ev query_text EMBEDDING_MODEL_NAME w) = Ret embedding ->
  truthy embedding = true ->
  coll_query c [embedding] (Z.min n_results m) query_include = Ret (VDict d) ->
  dict_lookup "documents" d = None ->
  retrieve_relevant_history ev query_text n_results w =
    (Ret [],
     mk_world (Some c) (history_file w) (stdout w)
       (trace w ++ [EvCount; embeddings_post query_text EMBEDDING_MODEL_NAME;
                    EvQuery [embedding] (Z.min n_results m) query_include])).
Proof.
  intros Hsome Hcount Hm Hn Hemb Htruthy Hquery Hdocs.
  rewrite (retrieve_relevant_history_reaches_query ev query_text n_results w c m
             embedding) by done.
  unfold query_and_decode, try_except, bind at 1, collection_query, bind at 1, emit, lift.
  cbn. fold query_include. rewrite Hquery. cbn. rewrite Hdocs. cbn.
  by rewrite <- app_assoc.
Qed.

Lemma retrieve_relevant_history_count_error_eq ev query_text n_results (w : world C)
    c e :
  collection w = Some c ->
  coll_count c = Raise e ->
  retrieve_relevant_history ev query_text n_results w =
    (Ret [],
     mk_world (Some c) (history_file w)
       (stdout w ++ ["Error getting count from ChromaDB collection: " +:+ exn_str e])
       (trace w ++ [EvCount])).
Proof.
  intros Hsome Hcount.
  unfold retrieve_relevant_history.
  unfold bind at 1, global_collection. rewrite Hsome.
  change (negb (bool_decide (is_Some (Some c)))) with false. cbn iota.
  unfold bind at 1, try_except at 1, bind at 1, collection_count, bind at 1, emit, lift.
  rewrite Hsome. cbn. rewrite Hcount. cbn.
  unfold handle; cbn. by rewrite isinstance_Exception.
Qed.

Lemma retrieve_relevant_history_small ev query_text n_results (w : world C) c m :
  collection w = Some c ->
  coll_count c = Ret m ->
  (m = 0 \/ Z.min n_results m <= 0)%Z ->
  retrieve_relevant_history ev query_text n_results w =
    (Ret [],
     mk_world (Some c) (history_file w) (stdout w) (trace w ++ [EvCount])).
Proof.
  intros Hsome Hcount Hsmall.
  unfold retrieve_relevant_history.
  unfold bind at 1, global_collection. rewrite Hsome.
  change (negb (bool_decide (is_Some (Some c)))) with false. cbn iota.
  unfold bind at 1, try_except at 1, bind at 1, collection_count, bind at 1, emit, lift.
  rewrite Hsome. cbn. rewrite Hcount. cbn.
  destruct (m =? 0)%Z eqn:Hz; [ done | ].
  apply Z.eqb_neq in Hz.
  by replace (Z.min n_results m <=? 0)%Z with true by (symmetry; apply Z.leb_le; lia).
Qed.

Lemma retrieve_relevant_history_falsy ev query_text n_results (w : world C)
    c m embedding :
  collection w = Some c ->
  coll_count c = Ret m ->
  (m <> 0)%Z -> (0 < Z.min n_results m)%Z ->
  fst (get_embedding ev query_text EMBEDDING_MODEL_NAME w) = Ret embedding ->
  truthy embedding = false ->
  exists w',
    retrieve_relevant_history ev query_text n_results w = (Ret [], w') /\
    trace w' = trace w ++ [EvCount; embeddings_post query_text EMBEDDING_MODEL_NAME] /\
    (exists msgs, stdout w' = stdout w ++ msgs) /\
    collection w' = Some c /\
    history_file w' = history_file w.
Proof.
  intros Hsome Hcount Hm Hn Hemb Hfalsy.
  destruct (get_embedding_effect ev query_text EMBEDDING_MODEL_NAME)
    as (r & msgs & Heff & _).
  rewrite Heff in Hemb. cbn in Hemb. subst r.
  unfold retrieve_relevant_history.
  unfold bind at 1, global_collection. rewrite Hsome.
  change (negb (bool_decide (is_Some (Some c)))) with false. cbn iota.
  unfold bind at 1, try_except at 1, bind at 1, collection_count, bind at 1, emit, lift.
  rewrite Hsome. cbn. rewrite Hcount. cbn.
  replace (m =? 0)%Z with false by (symmetry; apply Z.eqb_neq; lia).
  replace (Z.min n_results m <=? 0)%Z with false by (symmetry; apply Z.leb_gt; lia).
  unfold bind at 1. rewrite Heff. rewrite Hfalsy. cbn.
  eexists. split; [ reflexivity | cbn ].
  split; [ by rewrite <- app_assoc | ]. split; [ | done ].
  eexists. by rewrite <- app_assoc.
Qed.

Lemma query_and_decode_effect embedding k (w : world C) c :
  collection w = Some c ->
  exists turns w',
    query_and_decode embedding k w = (Ret turns, w') /\
    collection w' = collection w /\
    history_file w' = history_file w /\
    (exists msgs, stdout w' = stdout w ++ msgs) /\
    trace w' = trace w ++ [EvQuery [embedding] k query_include].
Proof.
  intros Hsome.
  unfold query_and_decode, try_except, bind at 1, collection_query, bind at 1, emit, lift.
  rewrite Hsome. cbn. fold query_include.
  assert (Hcaught : forall (e : exn) (w1 : world C),
            handle [(Exception, fun e0 : exn =>
                       print ("Error querying ChromaDB: " +:+ exn_str e0) ;;
                       ret (@nil value))]
              e w1 =
            (Ret [], mk_world (collection w1) (history_file w1)
                       (stdout w1 ++ ["Error querying ChromaDB: " +:+ exn_str e])
                       (trace w1))).
  { intros e w1. unfold handle; cbn. by rewrite isinstance_Exception. }
  destruct (coll_query c [embedding] k query_include) as [results | e]; cbn;
    [ | rewrite Hcaught; cbn; eexists _, _; split; [ reflexivity | cbn; eauto 6 ] ].
  destruct (py_get results "documents" (VList [VList []])) as [documents | e]; cbn;
    [ | rewrite Hcaught; cbn; eexists _, _; split; [ reflexivity | cbn; eauto 6 ] ].
  destruct (py_index documents 0) as [retrieved_docs_json | e]; cbn;
    [ | rewrite Hcaught; cbn; eexists _, _; split; [ reflexivity | cbn; eauto 6 ] ].
  destruct (py_iter retrieved_docs_json) as [items | e]; cbn;
    [ | rewrite Hcaught; cbn; eexists _, _; split; [ reflexivity | cbn; eauto 6 ] ].
  match goal with
  | |- context [for_each decode_doc [] items ?w1] =>
      destruct (for_each_decode_doc_frame items [] w1) as (r & msgs' & ->)
  end.
  destruct r as [turns | e]; cbn;
    [ | rewrite Hcaught; cbn ];
    eexists _, _; (split; [ reflexivity | cbn ]).
  - eauto 6.
  - repeat split; try done. eexists. by rewrite <- app_assoc.
Qed.

(** What [retrieve_relevant_history] does to the world, whatever the
    collection and the service answer. *)
Lemma retrieve_relevant_history_effect ev query_text n_results (w : world C) :
  exists r w',
    retrieve_relevant_history ev query_text n_results w = (r, w') /\
    collection w' = collection w /\
    history_file w' = history_file w /\
    (exists msgs, stdout w' = stdout w ++ msgs) /\
    (exists evs embedding k,
       trace w' = trace w ++ evs /\
       evs `prefix_of` [EvCount; embeddings_post query_text EMBEDDING_MODEL_NAME;
                        EvQuery [embedding] k query_include]) /\
    (forall e, r = Raise e ->
       fst (get_embedding ev query_text EMBEDDING_MODEL_NAME w) = Raise e).
Proof.
  destruct (collection w) as [c | ] eqn:Hsome.
  2: { unfold retrieve_relevant_history, global_collection, bind, print, ret; cbn.
       rewrite Hsome; cbn. eexists _, _. split; [ reflexivity | cbn ].
       repeat split; try done; [ by eexists | ].
       exists [], VNone, 0%Z. split; [ by rewrite app_nil_r | by eexists ]. }
  destruct (coll_count c) as [m | e] eqn:Hcount.
  2: { rewrite (retrieve_relevant_history_count_error_eq ev query_text n_results w c e)
         by done.
       eexists _, _. split; [ reflexivity | cbn ].
       repeat split; try done; [ by eexists | ].
       exists [EvCount], VNone, 0%Z. split; [ done | by eexists ]. }
  destruct (decide (m = 0 \/ Z.min n_results m <= 0)%Z) as [Hsmall | Hbig].
  { rewrite (retrieve_relevant_history_small ev query_text n_results w c m) by done.
    eexists _, _. split; [ reflexivity | cbn ].
    repeat split; try done; [ exists []; by rewrite app_nil_r | ].
    exists [EvCount], VNone, 0%Z. split; [ done | by eexists ]. }
  assert (Hm : (m <> 0)%Z) by lia. assert (Hmin : (0 < Z.min n_results m)%Z) by lia.
  destruct (get_embedding_effect ev query_text EMBEDDING_MODEL_NAME)
    as (r & msgs & Heff & Hquiet).
  destruct r as [embedding | e].
  - destruct (truthy embedding) eqn:Htruthy.
    + rewrite (retrieve_relevant_history_reaches_query ev query_text n_results w c m
                 embedding) by (done || lia || by rewrite Heff).
      match goal with
      | |- context [query_and_decode embedding ?k ?w1] =>
          destruct (query_and_decode_effect embedding k w1 c eq_refl)
            as (turns & w' & -> & Hcoll & Hfile & [msgs' Hout] & Htrace)
      end.
      cbn in Hcoll, Hfile, Hout, Htrace.
      exists (Ret turns), w'. split; [ done | ].
      split; [ done | ]. split; [ done | ]. split; [ by eexists | ].
      split; [ | done ].
      eexists _, embedding, (Z.min n_results m). split.
      * rewrite Htrace, <- app_assoc. reflexivity.
      * by exists [].
    + destruct (retrieve_relevant_history_falsy ev query_text n_results w c m embedding)
        as (w' & -> & Htrace & Hout & Hcoll & Hfile); try done; try lia;
        [ by rewrite Heff | ].
      exists (Ret []), w'. split; [ done | ].
      split; [ done | ]. split; [ done | ]. split; [ done | ].
      split; [ | done ].
      exists [EvCount; embeddings_post query_text EMBEDDING_MODEL_NAME], VNone, 0%Z.
      split; [ done | by eexists ].
  - unfold retrieve_relevant_history.
    unfold bind at 1, global_collection. rewrite Hsome.
    change (negb (bool_decide (is_Some (Some c)))) with false. cbn iota.
    unfold bind at 1, try_except at 1, bind at 1, collection_count, bind at 1, emit, lift.
    rewrite Hsome. cbn. rewrite Hcount. cbn.
    replace (m =? 0)%Z with false by (symmetry; apply Z.eqb_neq; lia).
    replace (Z.min n_results m <=? 0)%Z with false by (symmetry; apply Z.leb_gt; lia).
    unfold bind at 1. rewrite Heff.
    eexists _, _. split; [ reflexivity | cbn ].
    repeat split; try done.
    + by eexists.
    + exists [EvCount; embeddings_post query_text EMBEDDING_MODEL_NAME], VNone, 0%Z.
      split; [ by rewrite <- app_assoc | by eexists ].
    + intros e' [= <-]. by rewrite Heff.
Qed.

(** X20: [retrieve_relevant_history] only reads: whatever the collection
    and the service answer, it leaves the collection and the history file
    as they were; it asks for the count at most once, then requests at
    most one embedding, then makes at most one query, in this order; and
    the only exception that can leave it is one that [get_embedding]
    raised. *)
Theorem retrieve_relevant_history_read_only ev query_text n_results (w : world C) :
  exists r w',
    retrieve_relevant_history ev query_text n_results w = (r, w') /\
    collection w' = collection w /\
    history_file w' = history_file w /\
    (exists evs embedding k,
       trace w' = trace w ++ evs /\
       evs `prefix_of` [EvCount; embeddings_post query_text EMBEDDING_MODEL_NAME;
                        EvQuery [embedding] k query_include]) /\
    (forall e, r = Raise e ->
       fst (get_embedding ev query_text EMBEDDING_MODEL_NAME w) = Raise e).
Proof.
  destruct (retrieve_relevant_history_effect ev query_text n_results w)
    as (r & w' & Hrun & Hcoll & Hfile & _ & Htrace & Hraise).
  by exists r, w'.
Qed.

Lemma format_doc_dict history_str d :
  format_doc history_str (VDict d) = Ret (history_str +:+ doc_lines (VDict d)).
Proof.
  unfold format_doc, doc_lines, shown_field; cbn.
  destruct (dict_lookup "user" d), (dict_lookup "bot" d); cbn;
    by rewrite ?string_app_assoc.
Qed.

Lemma format_docs_dicts docs history_str :
  Forall (fun doc => is_dict doc = true) docs ->
  format_docs history_str docs = Ret (history_str +:+ doc_blocks docs).
Proof.
  intros Hdicts. revert history_str.
  induction Hdicts as [ | doc docs Hdoc _ IH ]; intros history_str.
  - cbn. by rewrite string_app_nil_r.
  - destruct doc as [ | | | | | | d ]; try done.
    cbn [format_docs doc_blocks]. rewrite format_doc_dict. cbn [obind].
    rewrite IH. by rewrite string_app_assoc.
Qed.

Lemma format_docs_not_dict docs history_str :
  Exists (fun doc => is_dict doc = false) docs ->
  exists e, format_docs history_str docs = Raise e /\ exn_type e = AttributeError.
Proof.
  intros Hsome. revert history_str.
  induction Hsome as [ doc docs Hdoc | doc docs _ IH ]; intros history_str.
  - destruct doc; try done; cbn; by eexists.
  - destruct doc as [ | | | | | | d ]; try (cbn; by eexists).
    cbn [format_docs]. rewrite format_doc_dict. cbn [obind]. apply IH.
Qed.

(** X21: [format_retrieved_history_for_prompt] never raises on documents
    that are JSON objects, whatever keys they have: for a non-empty list
    it returns the header followed by one block per document in the given
    order, in which a missing ["user"] or ["bot"] key is shown as [N/A]
    and a value that is not a string as [str] gives it; the text returned
    is not empty, and a document with neither key gives the block
    [User: N/A], [Bot: N/A] and the separator. *)
Theorem format_retrieved_history_for_prompt_objects docs :
  docs <> [] ->
  Forall (fun doc => is_dict doc = true) docs ->
  format_retrieved_history_for_prompt docs = Ret (context_header +:+ doc_blocks docs) /\
  truthy (VStr (context_header +:+ doc_blocks docs)) = true /\
  (forall d, dict_lookup "user" d = None -> dict_lookup "bot" d = None ->
     doc_lines (VDict d) =
       "User: N/A" +:+ nl +:+ "Bot: N/A" +:+ nl +:+ "---" +:+ nl).
Proof.
  intros Hne Hdicts. split; [ | split ].
  - unfold format_retrieved_history_for_prompt.
    destruct docs as [ | doc docs ]; [ done | ].
    change (negb (truthy (VList (doc :: docs)))) with false; cbn iota.
    by apply format_docs_dicts.
  - reflexivity.
  - intros d Huser Hbot. unfold doc_lines, shown_field. by rewrite Huser, Hbot.
Qed.

(** X22: a retrieved document that is not a JSON object (a stored text
    that decodes to a number, a string or a list) makes
    [format_retrieved_history_for_prompt] raise [AttributeError], wherever
    the document stands in the list. *)
Theorem format_retrieved_history_for_prompt_non_object docs :
  Exists (fun doc => is_dict doc = false) docs ->
  exists e,
    format_retrieved_history_for_prompt docs = Raise e /\
    exn_type e = AttributeError.
Proof.
  intros Hsome. unfold format_retrieved_history_for_prompt.
  destruct docs as [ | doc docs ]; [ by apply Exists_nil in Hsome | ].
  change (negb (truthy (VList (doc :: docs)))) with false; cbn iota.
  by apply format_docs_not_dict.
Qed.

Lemma main_loop_blank line a script (w : world C) :
  strip line = "" ->
  main_loop ((line, a) :: script) w =
    main_loop script
      (mk_world (collection w) (history_file w) (stdout w ++ ["You: "]) (trace w)).
Proof. intros Hblank. cbn [main_loop]. by rewrite Hblank. Qed.

Lemma main_loop_blanks blanks script (w : world C) :
  Forall blank blanks ->
  main_loop (blanks ++ script) w =
    main_loop script
      (mk_world (collection w) (history_file w)
         (stdout w ++ replicate (length blanks) "You: ") (trace w)).
Proof.
  intros Hblanks. revert w.
  induction Hblanks as [ | [line a] blanks Hblank _ IH ]; intros w.
  - cbn. rewrite app_nil_r. by destruct w.
  - cbn [app]. rewrite main_loop_blank by done. rewrite IH.
    cbn [collection history_file stdout trace length replicate].
    by rewrite <- app_assoc.
Qed.

(** X23: when the first line typed that is not blank is [quit] or [exit],
    in any case and with any white space around it, [main] says goodbye
    and returns without a single call to the outside: nothing is
    retrieved, generated or saved, the collection and the history file
    are as they were, and the lines that follow are not read. *)
Theorem main_leaves_at_once blanks line a script (w : world C) :
  Forall blank blanks ->
  asks_to_leave (strip line) = true ->
  main (blanks ++ (line, a) :: script) w =
    (Ended,
     mk_world (collection w) (history_file w)
       (stdout w ++ banner ++ replicate (S (length blanks)) "You: "
          ++ ["Bot: Goodbye! Your conversation has been saved."; "Chat session ended."])
       (trace w)).
Proof.
  intros Hblanks Hleave. unfold main.
  rewrite main_loop_blanks by done.
  cbn [main_loop]. rewrite Hleave.
  destruct (negb (truthy (VStr (strip line)))) eqn:Hempty.
  { apply negb_true_iff in Hempty. cbn in Hempty.
    apply negb_false_iff, String.eqb_eq in Hempty.
    rewrite Hempty in Hleave. discriminate. }
  cbn. f_equal. f_equal.
  rewrite <- !app_assoc. cbn. do 3 f_equal.
  change ("You: " :: replicate (length blanks) "You: " ++ ?l)
    with (replicate (S (length blanks)) "You: " ++ l).
  rewrite replicate_S_end, <- app_assoc. reflexivity.
Qed.

Lemma main_loop_ends script (w : world C) :
  match main_loop script w with
  | (Ended, w') =>
      Exists leaves script /\
      last (stdout w') = Some "Bot: Goodbye! Your conversation has been saved."
  | (EndOfInput, w') =>
      Forall (fun entry => ~ leaves entry) script /\ last (stdout w') = Some "You: "
  | (Escaped _, _) => True
  end.
Proof.
  revert w. induction script as [ | [line a] script IH ]; intros w.
  - cbn. split; [ constructor | apply last_snoc ].
  - cbn [main_loop].
    destruct (negb (truthy (VStr (strip line)))) eqn:Hempty.
    + apply negb_true_iff in Hempty. cbn in Hempty.
      apply negb_false_iff, String.eqb_eq in Hempty.
      match goal with |- context [main_loop script ?w1] => specialize (IH w1) end.
      destruct (main_loop script _) as [[ | | e] w']; [ | | done ].
      * destruct IH as [Hex Hlast]. split; [ by apply Exists_cons_tl | done ].
      * destruct IH as [Hall Hlast]. split; [ | done ].
        constructor; [ | done ]. unfold leaves; cbn [fst]. by rewrite Hempty.
    + destruct (asks_to_leave (strip line)) eqn:Hleave.
      * split; [ by apply Exists_cons_hd | apply last_snoc ].
      * destruct (chat_round a (strip line) _) as [[[] | e] w2]; [ | done ].
        specialize (IH w2).
        destruct (main_loop script w2) as [[ | | e] w']; [ | | done ].
        -- destruct IH as [Hex Hlast]. split; [ by apply Exists_cons_tl | done ].
        -- destruct IH as [Hall Hlast]. split; [ | done ].
           constructor; [ | done ]. unfold leaves; cbn [fst]. by rewrite Hleave.
Qed.

(** X24: a session ends in one of three ways, told apart by what was
    typed.  [main] returns, after printing [Chat session ended.] as its
    last line, only if some line typed asked to leave; it stops at the
    end of the input, the prompt [You: ] being the last thing written,
    only if no line typed asked to leave, and then [Chat session ended.]
    is not the last line. *)
Theorem main_ends_on_request_or_end_of_input script (w : world C) :
  (fst (main script w) = Ended ->
     Exists leaves script /\
     last (stdout (snd (main script w))) = Some "Chat session ended.") /\
  (fst (main script w) = EndOfInput ->
     Forall (fun entry => ~ leaves entry) script /\
     last (stdout (snd (main script w))) = Some "You: ").
Proof.
  unfold main.
  match goal with |- context [main_loop script ?w0] =>
    pose proof (main_loop_ends script w0) as Hends;
    destruct (main_loop script w0) as [[ | | e] w']
  end; cbn [fst snd].
  - split; [ | done ]. intros _. split; [ apply Hends | apply last_snoc ].
  - split; [ done | ]. intros _. apply Hends.
  - split; done.
Qed.

Lemma retrieve_relevant_history_none ev query_text n_results (w : world C) :
  collection w = None ->
  retrieve_relevant_history ev query_text n_results w =
    (Ret [],
     mk_world None (history_file w)
       (stdout w
          ++ ["Error: ChromaDB collection not initialized. Cannot retrieve history."])
       (trace w)).
Proof.
  intros Hnone.
  unfold retrieve_relevant_history, global_collection, bind, print, ret; cbn.
  rewrite Hnone; cbn. by rewrite Hnone.
Qed.

Lemma save_conversation_turn_none ev user_message bot_message turn_id (w : world C) :
  collection w = None ->
  save_conversation_turn ev user_message bot_message turn_id w =
    (Ret tt,
     mk_world None (history_file w)
       (stdout w ++ ["Error: ChromaDB collection not initialized. Cannot save turn."])
       (trace w)).
Proof.
  intros Hnone.
  unfold save_conversation_turn, global_collection, bind, print; cbn.
  rewrite Hnone; cbn. by rewrite Hnone.
Qed.

Lemma chat_round_uninitialized a user_input (w : world C) :
  collection w = None ->
  exists r msgs,
    chat_round a user_input w =
      (r, mk_world None (history_file w) (stdout w ++ msgs)
            (trace w ++ [bare_post user_input])).
Proof.
  intros Hnone.
  destruct (get_chat_response_effect (during_generate a)
              (final_prompt_for_llm "" user_input) GENERATION_MODEL_NAME)
    as (r & msgs & Heff).
  unfold chat_round, bind.
  rewrite retrieve_relevant_history_none by done.
  change (format_retrieved_history_for_prompt []) with (@Ret string "").
  unfold lift. rewrite Heff. cbn [collection history_file stdout trace].
  destruct r as [bot_response | e].
  - unfold print. cbn [collection history_file stdout trace].
    rewrite save_conversation_turn_none by done.
    cbn [collection history_file stdout trace].
    eexists _, _. rewrite <- !app_assoc. reflexivity.
  - eexists _, _. rewrite <- !app_assoc. reflexivity.
Qed.

Lemma main_loop_uninitialized script (w : world C) :
  collection w = None ->
  exists r w' inputs,
    main_loop script w = (r, w') /\
    collection w' = None /\
    history_file w' = history_file w /\
    trace w' = trace w ++ (bare_post <$> inputs) /\
    inputs `sublist_of` ((fun entry => strip (fst entry)) <$> script).
Proof.
  revert w. induction script as [ | [line a] script IH ]; intros w Hnone.
  - exists EndOfInput. eexists. exists []. cbn.
    rewrite app_nil_r. repeat split; done.
  - cbn [main_loop].
    destruct (negb (truthy (VStr (strip line)))).
    { edestruct IH as (r & w' & inputs & -> & Hcoll & Hfile & Htrace & Hsub);
        [ | exists r, w', inputs; repeat split; try done ]; [ done | ].
      cbn [fmap list_fmap fst]. by apply sublist_cons. }
    destruct (asks_to_leave (strip line)).
    { exists Ended. eexists. exists []. cbn.
      rewrite app_nil_r. repeat split; try done. apply sublist_nil_l. }
    match goal with |- context [chat_round a (strip line) ?w1] =>
      destruct (chat_round_uninitialized a (strip line) w1 Hnone) as (r & msgs & ->)
    end.
    cbn [collection history_file stdout trace snd print].
    destruct r as [[] | e].
    + match goal with |- context [main_loop script ?w2] =>
        destruct (IH w2 eq_refl) as (r & w' & inputs & -> & Hcoll & Hfile & Htrace & Hsub)
      end.
      exists r, w', (strip line :: inputs).
      cbn [collection history_file stdout trace] in *.
      repeat split; try done.
      * rewrite Htrace, <- app_assoc. reflexivity.
      * cbn [fmap list_fmap fst]. by apply sublist_skip.
    + exists (Escaped e). eexists. exists [strip line].
      cbn [collection history_file stdout trace].
      repeat split; try done.
      cbn [fmap list_fmap fst]. apply sublist_skip, sublist_nil_l.
Qed.

(** X25: when the collection could not be initialised at import, a whole
    session runs without memory, whatever is typed and whatever the
    service answers: the history file is never opened or written, no
    embedding is ever requested, and the only calls made are requests for
    a completion, one per input among those typed, in their order, each
    with a prompt that carries no past conversation. *)
Theorem main_uninitialized_has_no_memory script (w : world C) :
  collection w = None ->
  exists r w' inputs,
    main script w = (r, w') /\
    collection w' = None /\
    history_file w' = history_file w /\
    trace w' = trace w ++ (bare_post <$> inputs) /\
    inputs `sublist_of` ((fun entry => strip (fst entry)) <$> script).
Proof.
  intros Hnone. unfold main.
  match goal with |- context [main_loop script ?w0] =>
    destruct (main_loop_uninitialized script w0 Hnone)
      as (r & w' & inputs & -> & Hcoll & Hfile & Htrace & Hsub)
  end.
  cbn in Hfile, Htrace.
  destruct r as [ | | e]; eexists _, _, inputs; (split; [ reflexivity | done ]).
Qed.

Lemma chat_round_initialized a user_input (w : world C) c docs context bot_response :
  collection w = Some c ->
  fst (retrieve_relevant_history (during_retrieve a) user_input 3 w) = Ret docs ->
  format_retrieved_history_for_prompt docs = Ret context ->
  fst (get_chat_response (during_generate a) (final_prompt_for_llm context user_input)
         GENERATION_MODEL_NAME w) = Ret bot_response ->
  exists w' w1 said more,
    chat_round a user_input w =
      (save_result
         (fst (get_embedding (during_save a)
                 (embed_text user_input (shown_reply bot_response))
                 EMBEDDING_MODEL_NAME w)),
       w') /\
    retrieve_relevant_history (during_retrieve a) user_input 3 w = (Ret docs, w1) /\
    stdout w' =
      stdout w1 ++ said ++ ["Bot: " +:+ shown_reply bot_response]
        ++ log_reports (during_save a) ++ more /\
    history_file w' =
      log_after (during_save a) (history_file w)
        (log_line user_input (shown_reply bot_response)
           (generate_turn_id (clock a) (uuid_hex a))) /\
    trace w' =
      trace w1
        ++ [generate_post (final_prompt_for_llm context user_input) GENERATION_MODEL_NAME]
        ++ log_events (during_save a)
             (log_line user_input (shown_reply bot_response)
                (generate_turn_id (clock a) (uuid_hex a)))
        ++ [embeddings_post (embed_text user_input (shown_reply bot_response))
              EMBEDDING_MODEL_NAME]
        ++ index_events user_input (shown_reply bot_response)
             (generate_turn_id (clock a) (uuid_hex a))
             (fst (get_embedding (during_save a)
                     (embed_text user_input (shown_reply bot_response))
                     EMBEDDING_MODEL_NAME w)) /\
    is_Some (collection w').
Proof.
  intros Hsome Hdocs Hcontext Hreply.
  destruct (retrieve_relevant_history_effect (during_retrieve a) user_input 3 w)
    as (r1 & w1 & Hrun & Hcoll1 & Hfile1 & _ & _ & _).
  rewrite Hrun in Hdocs; cbn in Hdocs; subst r1.
  destruct (get_chat_response_effect (during_generate a)
              (final_prompt_for_llm context user_input) GENERATION_MODEL_NAME)
    as (r2 & msgs2 & Heff2).
  rewrite Heff2 in Hreply; cbn in Hreply; subst r2.
  unfold chat_round, bind. rewrite Hrun. unfold lift. rewrite Hcontext, Heff2.
  unfold print. cbn [collection history_file stdout trace].
  fold (shown_reply bot_response).
  match goal with |- context [save_conversation_turn _ _ _ _ ?w3] =>
    destruct (save_conversation_turn_initialized (during_save a) user_input
                (shown_reply bot_response) (generate_turn_id (clock a) (uuid_hex a))
                w3 c)
      as (w' & Hsave & Htrace & Hfile & [more Hout] & Hinit & _);
      [ cbn; congruence | ]
  end.
  cbn [collection history_file stdout trace] in Hsave, Htrace, Hfile, Hout.
  destruct (get_embedding_effect (during_save a)
              (embed_text user_input (shown_reply bot_response)) EMBEDDING_MODEL_NAME)
    as (r3 & msgs3 & Heff3 & _).
  rewrite Heff3 in Hsave, Htrace. rewrite Heff3. cbn [fst] in *.
  exists w', w1, msgs2, more. split; [ done | ]. split; [ done | ].
  split; [ by rewrite Hout, <- !app_assoc | ].
  split; [ by rewrite Hfile, Hfile1 | ].
  split; [ by rewrite Htrace, <- !app_assoc | done ].
Qed.

(** X26: a round that gets a reply saves exactly the text it shows.  With
    the collection initialised, when the retrieved documents format to a
    context and [get_chat_response] returns a text, the round prints
    [Bot: ] followed by that text, or by the apology when the text is
    empty, and passes this same text to [save_conversation_turn] as the
    bot's message: it is in the line appended to the history file, in the
    text that is embedded and in the document added to the collection.
    The request for the completion comes after the calls of the retrieval
    and before the append, and the history file is touched by the append
    only. *)
Theorem chat_round_saves_what_it_shows a user_input (w : world C) c docs context
    bot_response :
  collection w = Some c ->
  fst (retrieve_relevant_history (during_retrieve a) user_input 3 w) = Ret docs ->
  format_retrieved_history_for_prompt docs = Ret context ->
  fst (get_chat_response (during_generate a) (final_prompt_for_llm context user_input)
         GENERATION_MODEL_NAME w) = Ret bot_response ->
  exists w' w1,
    snd (chat_round a user_input w) = w' /\
    retrieve_relevant_history (during_retrieve a) user_input 3 w = (Ret docs, w1) /\
    "Bot: " +:+ shown_reply bot_response ∈ stdout w' /\
    history_file w' =
      log_after (during_save a) (history_file w)
        (log_line user_input (shown_reply bot_response)
           (generate_turn_id (clock a) (uuid_hex a))) /\
    trace w' =
      trace w1
        ++ [generate_post (final_prompt_for_llm context user_input) GENERATION_MODEL_NAME]
        ++ log_events (during_save a)
             (log_line user_input (shown_reply bot_response)
                (generate_turn_id (clock a) (uuid_hex a)))
        ++ [embeddings_post (embed_text user_input (shown_reply bot_response))
              EMBEDDING_MODEL_NAME]
        ++ index_events user_input (shown_reply bot_response)
             (generate_turn_id (clock a) (uuid_hex a))
             (fst (get_embedding (during_save a)
                     (embed_text user_input (shown_reply bot_response))
                     EMBEDDING_MODEL_NAME w)).
Proof.
  intros Hsome Hdocs Hcontext Hreply.
  destruct (chat_round_initialized a user_input w c docs context bot_response)
    as (w' & w1 & said & more & Hrun & Hlook & Hout & Hfile & Htrace & _); try done.
  exists w', w1. split; [ by rewrite Hrun | ]. split; [ done | ].
  split; [ | done ].
  rewrite Hout, !elem_of_app. right. right. left. by apply list_elem_of_singleton.
Qed.

Lemma get_embedding_unreachable ev text model_name (w : world C) msg :
  unreachable ev msg ->
  get_embedding ev text model_name w =
    (Ret VNone,
     mk_world (collection w) (history_file w)
       (stdout w ++ ["Error getting embedding from Ollama: " +:+ msg])
       (trace w ++ [embeddings_post text model_name])).
Proof.
  intros Hdown.
  unfold get_embedding, try_except_local, requests_post.
  unfold bind, emit, lift, ret; cbn. by rewrite Hdown.
Qed.

Lemma get_chat_response_unreachable ev prompt_text model_name (w : world C) msg :
  unreachable ev msg ->
  get_chat_response ev prompt_text model_name w =
    (Ret transport_fallback,
     mk_world (collection w) (history_file w)
       (stdout w ++ ["Error getting chat response from Ollama: " +:+ msg])
       (trace w ++ [generate_post prompt_text model_name])).
Proof.
  intros Hdown.
  unfold get_chat_response, try_except_local, requests_post.
  unfold bind, emit, lift, ret; cbn. by rewrite Hdown.
Qed.

(** X27: a round played while the inference service cannot be reached,
    on an initialised collection that holds turns and with a history
    file that can be written.  The retrieval gives up after the failed
    embedding, the prompt carries no past conversation, the user is shown
    the fallback text of [get_chat_response], and this fallback text is
    appended to the history file as what the bot said; the turn is not
    added to the collection, and the round returns normally. *)
Theorem chat_round_service_unreachable a user_input (w : world C) c m msg1 msg2 msg3 :
  collection w = Some c ->
  coll_count c = Ret m ->
  (0 < m)%Z ->
  unreachable (during_retrieve a) msg1 ->
  unreachable (during_generate a) msg2 ->
  unreachable (during_save a) msg3 ->
  open_append_error (during_save a) = None ->
  write_error (during_save a) = None ->
  chat_round a user_input w =
    (Ret tt,
     mk_world (Some c)
       (Some (default "" (history_file w)
              +:+ log_line user_input transport_fallback
                    (generate_turn_id (clock a) (uuid_hex a))))
       (stdout w
          ++ ["Error getting embedding from Ollama: " +:+ msg1;
              "Could not get embedding for query. Cannot retrieve history.";
              "Error getting chat response from Ollama: " +:+ msg2;
              "Bot: " +:+ transport_fallback;
              "Error getting embedding from Ollama: " +:+ msg3;
              "Could not get embedding for turn_id "
                +:+ generate_turn_id (clock a) (uuid_hex a)
                +:+ ". Not adding to vector store."])
       (trace w
          ++ [EvCount;
              embeddings_post user_input EMBEDDING_MODEL_NAME;
              bare_post user_input;
              EvOpen HISTORY_FILE_PATH "a";
              EvWrite (log_line user_input transport_fallback
                         (generate_turn_id (clock a) (uuid_hex a)));
              embeddings_post (embed_text user_input transport_fallback)
                EMBEDDING_MODEL_NAME])).
Proof.
  intros Hsome Hcount Hm Hlook Hgen Hsave Hopen Hwrite.
  assert (Hretrieve :
    retrieve_relevant_history (during_retrieve a) user_input 3 w =
      (Ret [],
       mk_world (Some c) (history_file w)
         (stdout w
            ++ ["Error getting embedding from Ollama: " +:+ msg1;
                "Could not get embedding for query. Cannot retrieve history."])
         (trace w ++ [EvCount; embeddings_post user_input EMBEDDING_MODEL_NAME]))).
  { unfold retrieve_relevant_history.
    unfold bind at 1, global_collection. rewrite Hsome.
    change (negb (bool_decide (is_Some (Some c)))) with false. cbn iota.
    unfold bind at 1, try_except at 1, bind at 1, collection_count, bind at 1, emit, lift.
    rewrite Hsome. cbn. rewrite Hcount. cbn.
    replace (m =? 0)%Z with false by (symmetry; apply Z.eqb_neq; lia).
    replace (Z.min 3 m <=? 0)%Z with false by (symmetry; apply Z.leb_gt; lia).
    unfold bind at 1. rewrite (get_embedding_unreachable _ _ _ _ msg1) by done.
    cbn. by rewrite <- !app_assoc. }
  unfold chat_round. unfold bind at 1. rewrite Hretrieve.
  unfold bind at 1, lift.
  change (format_retrieved_history_for_prompt []) with (@Ret string "").
  cbn iota. unfold bind at 1.
  rewrite (get_chat_response_unreachable _ _ _ _ msg2) by done.
  change (negb (truthy (VStr transport_fallback))) with false. cbn iota.
  unfold bind at 1, print. cbn [collection history_file stdout trace].
  unfold save_conversation_turn.
  unfold bind at 1, global_collection. cbn [collection].
  change (negb (bool_decide (is_Some (Some c)))) with false. cbn iota.
  unfold bind at 1. rewrite append_turn_effect.
  unfold bind at 1.
  rewrite (get_embedding_unreachable _ _ _ _ msg3) by done.
  cbn [truthy]. cbn iota. unfold print.
  unfold log_after, log_reports, log_events, log_line, bare_post, embed_text.
  rewrite Hopen, Hwrite.
  cbn [collection history_file stdout trace].
  rewrite app_nil_r, <- !app_assoc. reflexivity.
Qed.

Section TurnIds.

#[local] Arguments String.append !_ _ / : simpl nomatch.

Lemma pretty_N_go_no_sep (x : N) (s : string) :
  contains_sep s = false -> contains_sep (pretty_N_go x s) = false.
Proof.
  revert s. induction (N.lt_wf_0 x) as [x _ IH]; intros s Hs.
  assert (x = 0 \/ 0 < x)%N as [-> | Hpos] by lia.
  - by rewrite pretty_N_go_0.
  - rewrite pretty_N_go_step by done. apply IH.
    { by apply N.div_lt. }
    cbn [contains_sep]. rewrite Hs, orb_false_r.
    unfold pretty_N_char. by repeat case_match.
Qed.

Lemma str_of_int_no_sep (z : Z) : contains_sep (str_of_int z) = false.
Proof.
  unfold str_of_int, pretty, pretty_Z, pretty, pretty_positive, pretty, pretty_N.
  destruct z as [ | p | p ]; [ done | | ].
  - case_decide; [ done | by apply pretty_N_go_no_sep ].
  - change (contains_sep ("-" +:+ ?s)) with (contains_sep s).
    case_decide; [ done | by apply pretty_N_go_no_sep ].
Qed.

Lemma split_at_sep (a b s t : string) :
  contains_sep a = false -> contains_sep b = false ->
  a +:+ "_" +:+ s = b +:+ "_" +:+ t -> a = b /\ s = t.
Proof.
  revert b. induction a as [ | c a IH ]; intros [ | d b ] Ha Hb Heq; cbn in *.
  - by simplify_eq.
  - by simplify_eq.
  - by simplify_eq.
  - apply orb_false_elim in Ha as [_ Ha]. apply orb_false_elim in Hb as [_ Hb].
    injection Heq as -> Heq. destruct (IH b Ha Hb Heq) as [-> ->]. done.
Qed.

(** X28: a turn id can be read back: two calls of [generate_turn_id] give
    the same id exactly when they are made in the same second and their
    random identifiers agree on the first eight characters.  The second
    read from the clock and the eight characters kept from the random
    identifier are all that tells two turns apart. *)
Theorem generate_turn_id_same_iff (now1 now2 : Z) (hex1 hex2 : string) :
  generate_turn_id now1 hex1 = generate_turn_id now2 hex2 <->
  now1 = now2 /\ substring 0 8 hex1 = substring 0 8 hex2.
Proof.
  unfold generate_turn_id. split.
  - intros Heq. apply (inj (String.append "turn_")) in Heq.
    apply split_at_sep in Heq as [Hnow Hhex]; try apply str_of_int_no_sep.
    split; [ | done ]. by apply (inj pretty) in Hnow.
  - by intros [-> ->].
Qed.

End TurnIds.







End Program.

(** ** The program on the sample inputs *)


Lemma load_raw_history_no_file_witness :
  history_file world_fresh = None /\
  load_raw_history JsonRef.loads sample_path env_up world_fresh =
    (Ret [], mk_world (Some []) None [] [EvExists sample_path]).
Proof.
  split; [ reflexivity | ].
  exact (load_raw_history_no_file JsonRef.loads sample_path env_up world_fresh eq_refl).
Defined.

Lemma retrieve_relevant_history_empty_witness :
  collection world_uninitialized = None /\
  fst (retrieve_relevant_history JsonRef.loads RequestsJSONDecodeError sample_repr
         env_up "What is my name?" 3 world_uninitialized) = Ret [] /\
  coll_count ([] : list index_record) = Ret 0%Z /\
  exists w',
    retrieve_relevant_history JsonRef.loads RequestsJSONDecodeError sample_repr
      env_up "What is my name?" 3 world_fresh = (Ret [], w') /\
    filter is_post (trace w') = [].
Proof.
  split; [ reflexivity | ]. split.
  - destruct (retrieve_relevant_history_empty JsonRef.loads RequestsJSONDecodeError
                sample_repr env_up "What is my name?" 3 world_uninitialized) as [H _].
    exact (f_equal fst (H eq_refl)).
  - split; [ reflexivity | ].
    destruct (retrieve_relevant_history_empty JsonRef.loads RequestsJSONDecodeError
                sample_repr env_up "What is my name?" 3 world_fresh) as [_ H].
    destruct (H [] eq_refl eq_refl) as (w' & Hrun & _ & Hposts & _).
    exists w'. split; [ exact Hrun | exact Hposts ].
Defined.

Lemma load_raw_history_file_order_witness :
  fst (load_raw_history JsonRef.loads sample_path env_up world_corrupted)
    = Ret [doc_of_turn turn_alex] /\
  Forall (appended JsonRef.loads JsonRef.dumps)
    [(env_down, turn_alex); (env_up, turn_python)] /\
  fst (load_raw_history JsonRef.loads sample_path env_up
         (replay JsonRef.loads JsonRef.dumps RequestsJSONDecodeError sample_path
            [(env_down, turn_alex); (env_up, turn_python)] world_fresh))
    = Ret [doc_of_turn turn_alex; doc_of_turn turn_python].
Proof.
  destruct (load_raw_history_file_order (C := list index_record) JsonRef.loads
              JsonRef.dumps RequestsJSONDecodeError sample_path) as [Hfile Hreplay].
  assert (Hall : Forall (appended JsonRef.loads JsonRef.dumps)
                   [(env_down, turn_alex); (env_up, turn_python)]).
  { constructor; [ | constructor; [ | constructor ] ];
      (split; [ reflexivity | split; [ reflexivity | split; vm_compute; reflexivity ] ]). }
  assert (Hlines : Forall (settled JsonRef.loads)
                     (readlines (default "" (history_file world_corrupted)))).
  { let lines := eval vm_compute in
                   (readlines (default "" (history_file world_corrupted))) in
    change (Forall (settled JsonRef.loads) lines).
    constructor; [ unfold settled; vm_compute; reflexivity | ].
    constructor; [ unfold settled; vm_compute; exact I | constructor ]. }
  split; [ | split; [ exact Hall | ] ].
  - exact (f_equal fst (Hfile env_up world_corrupted _ eq_refl eq_refl eq_refl Hlines)).
  - exact (Hreplay [(env_down, turn_alex); (env_up, turn_python)] env_up world_fresh
             (ex_intro _ [] eq_refl) (or_introl eq_refl) ltac:(constructor) Hall
             eq_refl eq_refl).
Defined.

Lemma save_turn_log_then_index_witness :
  collection world_fresh = Some [] /\
  fst (get_embedding JsonRef.loads RequestsJSONDecodeError env_down
         (embed_text "My name is Alex." "Nice to meet you, Alex!")
         EMBEDDING_MODEL_NAME world_fresh) = Ret VNone /\
  (exists w',
     save_conversation_turn JsonRef.loads JsonRef.dumps RequestsJSONDecodeError
       sample_path env_down "My name is Alex." "Nice to meet you, Alex!" "turn_1"
       world_fresh = (Ret tt, w') /\
     collection w' = Some [] /\
     history_file w' = Some (JsonRef.dumps (doc_of_turn turn_alex) +:+ nl) /\
     fst (load_raw_history JsonRef.loads sample_path env_down w')
       = Ret [doc_of_turn turn_alex]) /\
  save_conversation_turn JsonRef.loads JsonRef.dumps RequestsJSONDecodeError
    sample_path env_down "My name is Alex." "Nice to meet you, Alex!" "turn_1"
    world_uninitialized =
    (Ret tt,
     mk_world None None
       ["Error: ChromaDB collection not initialized. Cannot save turn."] []).
Proof.
  split; [ reflexivity | ]. split; [ reflexivity | ]. split.
  - destruct (save_turn_log_then_index JsonRef.loads JsonRef.dumps
                RequestsJSONDecodeError sample_path env_down "My name is Alex."
                "Nice to meet you, Alex!" "turn_1" world_fresh) as [Hinit _].
    destruct (Hinit [] eq_refl) as (w' & Hrun & _ & Hfile & _ & Hskip).
    destruct (Hskip eq_refl) as (Hcoll & _ & _ & Hload).
    exists w'. split; [ exact Hrun | ]. split; [ exact Hcoll | ]. split; [ exact Hfile | ].
    apply (Hload eq_refl eq_refl (or_introl eq_refl));
      [ split; vm_compute; reflexivity | reflexivity | reflexivity | constructor ].
  - destruct (save_turn_log_then_index JsonRef.loads JsonRef.dumps
                RequestsJSONDecodeError sample_path env_down "My name is Alex."
                "Nice to meet you, Alex!" "turn_1" world_uninitialized) as [_ Hnone].
    exact (Hnone eq_refl).
Defined.

Lemma retrieve_relevant_history_clamps_witness :
  (0 < 2 < 3)%Z /\
  exists turns w',
    retrieve_relevant_history JsonRef.loads RequestsJSONDecodeError sample_repr
      env_up "What is my name?" 3 world_two = (Ret turns, w') /\
    trace w' =
      [EvCount; embeddings_post "What is my name?" EMBEDDING_MODEL_NAME;
       EvQuery [VList [VInt 1; VInt 2; VInt 3]] 2 query_include] /\
    turns = [doc_of_turn turn_alex; doc_of_turn turn_python].
Proof.
  split; [ lia | ].
  edestruct retrieve_relevant_history_clamps
    with (json_loads := JsonRef.loads) (json_error_class := RequestsJSONDecodeError)
         (py_repr := sample_repr) (ev := env_up) (query_text := "What is my name?")
         (n_results := 3%Z) (w := world_two)
         (c := [record_of_turn turn_alex; record_of_turn turn_python]) (m := 2%Z)
         (embedding := VList [VInt 1; VInt 2; VInt 3])
    as (turns & w' & Hrun & Htrace & Hall);
    [ reflexivity | reflexivity | lia | reflexivity | reflexivity | ].
  exists turns, w'. split; [ exact Hrun | ]. split; [ exact Htrace | ].
  edestruct Hall
    with (docs := record_document <$> [record_of_turn turn_alex; record_of_turn turn_python])
         (others := @nil value)
    as [Hturns _];
    [ reflexivity | reflexivity | reflexivity | | exact Hturns ].
  constructor; [ | constructor; [ | constructor ] ];
    vm_compute; eexists; reflexivity.
Defined.

(** C1 as it is worded, for every call.  A call made while the collection
    is not initialised attempts no append to the history file, so that the
    turn is in neither store and [load_raw_history] does not return it.
    With the collection initialised: when the file cannot be opened and
    the embedding call fails, the turn is in neither store either; when
    the file ended in the middle of a line, the line appended for the turn
    is glued to it and [load_raw_history] does not return the turn; when
    the file cannot be opened for reading, [load_raw_history] returns the
    empty list; and when the file is not UTF-8, or has a line on which
    [json.loads] raises [ValueError], [load_raw_history] raises. *)
Lemma save_turn_not_always_recoverable :
  (let w' := snd (save_conversation_turn JsonRef.loads JsonRef.dumps
                    RequestsJSONDecodeError sample_path env_down "My name is Alex."
                    "Nice to meet you, Alex!" "turn_1" world_uninitialized) in
   trace w' = [] /\
   history_file w' = None /\
   stdout w' = ["Error: ChromaDB collection not initialized. Cannot save turn."] /\
   fst (load_raw_history JsonRef.loads sample_path env_down w') = Ret []) /\
  ~ (forall (ev : env) (user_message bot_message turn_id : string)
            (w : world (list index_record)),
       exists rest,
         trace (snd (save_conversation_turn JsonRef.loads JsonRef.dumps
                       RequestsJSONDecodeError sample_path ev user_message bot_message
                       turn_id w))
           = trace w ++ EvOpen sample_path "a" :: rest) /\
  (let w' := snd (save_conversation_turn JsonRef.loads JsonRef.dumps
                    RequestsJSONDecodeError sample_path env_all_down "My name is Alex."
                    "Nice to meet you, Alex!" "turn_1" world_fresh) in
   history_file w' = None /\
   collection w' = Some [] /\
   fst (load_raw_history JsonRef.loads sample_path env_up w') = Ret []) /\
  (let w' := snd (save_conversation_turn JsonRef.loads JsonRef.dumps
                    RequestsJSONDecodeError sample_path env_down "My name is Alex."
                    "Nice to meet you, Alex!" "turn_1" world_partial) in
   history_file w' = Some ("{partial" +:+ JsonRef.dumps (doc_of_turn turn_alex) +:+ nl) /\
   collection w' = Some [] /\
   fst (load_raw_history JsonRef.loads sample_path env_up w') = Ret []) /\
  (let w' := snd (save_conversation_turn JsonRef.loads JsonRef.dumps
                    RequestsJSONDecodeError sample_path env_down "My name is Alex."
                    "Nice to meet you, Alex!" "turn_1" world_fresh) in
   history_file w' = Some (JsonRef.dumps (doc_of_turn turn_alex) +:+ nl) /\
   fst (load_raw_history JsonRef.loads sample_path env_no_read w') = Ret [] /\
   exists e,
     fst (load_raw_history JsonRef.loads sample_path env_not_utf8 w') = Raise e /\
     exn_type e = UnicodeDecodeError) /\
  (let w' := snd (save_conversation_turn JsonRef.loads JsonRef.dumps
                    RequestsJSONDecodeError sample_path env_down "Tell me about Python."
                    "Python is a programming language." "turn_2" world_long_line) in
   history_file w' =
     Some (default "" (history_file world_long_line)
           +:+ JsonRef.dumps (doc_of_turn turn_python) +:+ nl) /\
   fst (load_raw_history JsonRef.loads sample_path env_up w') =
     Raise JsonRef.digits_refused).
Proof.
  cbv zeta. split.
  { split; [ reflexivity | ]. split; [ reflexivity | ]. split; reflexivity. }
  split.
  { intros Hall.
    destruct (Hall env_down "My name is Alex." "Nice to meet you, Alex!" "turn_1"
                world_uninitialized) as [rest Hrest].
    vm_compute in Hrest. discriminate Hrest. }
  split.
  { split; [ vm_compute; reflexivity | ].
    split; vm_compute; reflexivity. }
  split.
  { split; [ vm_compute; reflexivity | ].
    split; vm_compute; reflexivity. }
  split.
  { split; [ vm_compute; reflexivity | ]. split; [ vm_compute; reflexivity | ].
    eexists. split; [ vm_compute; reflexivity | reflexivity ]. }
  split; vm_compute; reflexivity.
Qed.

(** C5 on a body that is not JSON, with the exception that
    [Response.json()] raises since requests 2.27: the clause for
    [RequestException], which comes first, catches it, and the string
    returned is the one of a transport failure. *)
Lemma get_chat_response_malformed_gets_transport_fallback :
  JsonRef.loads (response_text html_reply) = inr (mk_exn JSONDecodeError "Expecting value") /\
  isinstance (mk_exn RequestsJSONDecodeError "Expecting value") RequestException = true /\
  isinstance (mk_exn RequestsJSONDecodeError "Expecting value") JSONDecodeError = true /\
  get_chat_response JsonRef.loads RequestsJSONDecodeError env_html "Hi"
    GENERATION_MODEL_NAME world_fresh =
    (Ret transport_fallback,
     mk_world (Some []) None
       ["Error getting chat response from Ollama: Expecting value"]
       [generate_post "Hi" GENERATION_MODEL_NAME]) /\
  transport_fallback <> malformed_fallback.
Proof. repeat (split; [ reflexivity | ]). discriminate. Qed.

(** C6 on a reply with a good status whose body is JSON but not an
    object, here the list [[1, 2, 3]]: the body lacks the ["embedding"]
    field as an object without the key does, but subscripting it raises
    [TypeError], which is not an instance of any of the three classes that
    [get_embedding] handles; the exception leaves the function, nothing is
    printed, and no failure value is returned. *)
Lemma get_embedding_list_reply_raises :
  ~ http_error list_reply /\
  JsonRef.loads (response_text list_reply) = inl (VList [VInt 1; VInt 2; VInt 3]) /\
  get_embedding JsonRef.loads RequestsJSONDecodeError env_list "Hello"
    EMBEDDING_MODEL_NAME world_fresh =
    (Raise (mk_exn TypeError "list indices must be integers or slices, not str"),
     mk_world (Some []) None [] [embeddings_post "Hello" EMBEDDING_MODEL_NAME]) /\
  Forall (fun class =>
            isinstance (mk_exn TypeError "list indices must be integers or slices, not str")
              class = false)
    [RequestException; KeyError; JSONDecodeError] /\
  get_embedding JsonRef.loads RequestsJSONDecodeError env_no_field "Hello"
    EMBEDDING_MODEL_NAME world_fresh =
    (Ret VNone,
     mk_world (Some []) None
       ["Error: 'embedding' key not found in Ollama response. Full response: "
        +:+ response_text no_field_reply]
       [embeddings_post "Hello" EMBEDDING_MODEL_NAME]).
Proof.
  split; [ intros [H _]; cbn in H; lia | ].
  split; [ reflexivity | ]. split; [ reflexivity | ].
  split; [ | reflexivity ].
  constructor; [ reflexivity | constructor; [ reflexivity | constructor; [ reflexivity | constructor ] ] ].
Qed.

(** C7 as it is worded, for every history file and any replay of saves.
    A save made while the collection is not initialised writes nothing, so
    that [load_raw_history] does not return the turn.  After a save whose
    write stopped in the middle of the line, the line of the next save,
    whose append succeeds, is glued to what was written, and
    [load_raw_history] returns neither turn.  On a file with a good line
    followed by a line that is an integer of 4301 digits, [json.loads]
    raises [ValueError] on that line and [load_raw_history] raises it,
    returning no turn; on a file that is not UTF-8 it raises
    [UnicodeDecodeError]; and on a file of two good lines that cannot be
    opened for reading it returns the empty list. *)
Lemma load_raw_history_not_every_file :
  fst (load_raw_history JsonRef.loads sample_path env_up
         (replay JsonRef.loads JsonRef.dumps RequestsJSONDecodeError sample_path
            [(env_up, turn_alex)] world_uninitialized)) = Ret [] /\
  (open_append_error env_up = None /\ write_error env_up = None /\
   fst (load_raw_history JsonRef.loads sample_path env_up
          (replay JsonRef.loads JsonRef.dumps RequestsJSONDecodeError sample_path
             [(env_disk_full, turn_alex); (env_up, turn_python)] world_fresh)) = Ret []) /\
  (readlines (default "" (history_file world_long_line)) =
     [JsonRef.dumps (doc_of_turn turn_alex) +:+ nl; long_integer +:+ nl] /\
   JsonRef.loads (JsonRef.dumps (doc_of_turn turn_alex) +:+ nl) = inl (doc_of_turn turn_alex) /\
   JsonRef.loads (long_integer +:+ nl) = inr JsonRef.digits_refused /\
   isinstance JsonRef.digits_refused JSONDecodeError = false /\
   load_raw_history JsonRef.loads sample_path env_up world_long_line =
     (Raise JsonRef.digits_refused,
      mk_world (collection world_long_line) (history_file world_long_line) []
        [EvExists sample_path; EvOpen sample_path "r"])) /\
  (exists e,
     fst (load_raw_history JsonRef.loads sample_path env_not_utf8 world_two) = Raise e /\
     exn_type e = UnicodeDecodeError) /\
  (omap (parse_line JsonRef.loads) (readlines (default "" (history_file world_two))) =
     [doc_of_turn turn_alex; doc_of_turn turn_python] /\
   fst (load_raw_history JsonRef.loads sample_path env_no_read world_two) = Ret []).
Proof.
  split; [ vm_compute; reflexivity | ].
  split; [ split; [ reflexivity | split; [ reflexivity | vm_compute; reflexivity ] ] | ].
  split.
  { split; [ vm_compute; reflexivity | ].
    split; [ vm_compute; reflexivity | ].
    split; [ vm_compute; reflexivity | ].
    split; [ reflexivity | vm_compute; reflexivity ]. }
  split; [ eexists; split; [ vm_compute; reflexivity | reflexivity ] | ].
  split; vm_compute; reflexivity.
Qed.

(** C8 on an answer of the index whose first document is the text of a
    turn and whose second one is not a string ([None], what a record
    stored without a document gives), or is a text on which [json.loads]
    raises [ValueError]: the exception is not the [json.JSONDecodeError]
    that the handler of the loop catches, it reaches the handler of the
    whole query, and the function returns the empty list: the turn that
    was decoded is lost, and the report printed is that of a failed
    query. *)
Lemma retrieve_relevant_history_loses_decoded_turn :
  JsonRef.loads (JsonRef.dumps (doc_of_turn turn_alex)) = inl (doc_of_turn turn_alex) /\
  retrieve_relevant_history JsonRef.loads RequestsJSONDecodeError sample_repr env_up
    "What is my name?" 3 (world_scripted query_gives_none) =
    (Ret [],
     mk_world (Some query_gives_none) None
       ["Error querying ChromaDB: the JSON object must be str, bytes or bytearray"]
       [EvCount; embeddings_post "What is my name?" EMBEDDING_MODEL_NAME;
        EvQuery [VList [VInt 1; VInt 2; VInt 3]] 2 query_include]) /\
  JsonRef.loads long_integer = inr JsonRef.digits_refused /\
  retrieve_relevant_history JsonRef.loads RequestsJSONDecodeError sample_repr env_up
    "What is my name?" 3 (world_scripted query_gives_long) =
    (Ret [],
     mk_world (Some query_gives_long) None
       ["Error querying ChromaDB: " +:+ exn_str JsonRef.digits_refused]
       [EvCount; embeddings_post "What is my name?" EMBEDDING_MODEL_NAME;
        EvQuery [VList [VInt 1; VInt 2; VInt 3]] 2 query_include]) /\
  retrieve_relevant_history JsonRef.loads RequestsJSONDecodeError sample_repr env_up
    "What is my name?" 3 world_corrupted =
    (Ret [doc_of_turn turn_alex],
     mk_world (collection world_corrupted) (history_file world_corrupted)
       ["Error decoding stored document from ChromaDB: Expecting value. Document: {not json"]
       [EvCount; embeddings_post "What is my name?" EMBEDDING_MODEL_NAME;
        EvQuery [VList [VInt 1; VInt 2; VInt 3]] 2 query_include]).
Proof.
  split; [ vm_compute; reflexivity | ].
  split; [ vm_compute; reflexivity | ].
  split; [ vm_compute; reflexivity | ].
  split; [ vm_compute; reflexivity | ].
  vm_compute; reflexivity.
Qed.

(** ** The further properties on the sample inputs *)

Lemma good_status_200 (text : string) : ~ http_error (mk_response 200 text).
Proof. intros [H _]. cbn in H. lia. Defined.

Lemma get_embedding_non_object_reply_raises_witness :
  JsonRef.loads (response_text list_reply) = inl (VList [VInt 1; VInt 2; VInt 3]) /\
  exists e,
    get_embedding JsonRef.loads RequestsJSONDecodeError env_list "Hello"
      EMBEDDING_MODEL_NAME world_fresh =
      (Raise e,
       mk_world (Some []) None [] [embeddings_post "Hello" EMBEDDING_MODEL_NAME]) /\
    exn_type e = TypeError.
Proof.
  split; [ reflexivity | ].
  apply (get_embedding_non_object_reply_raises JsonRef.loads RequestsJSONDecodeError
           env_list "Hello" EMBEDDING_MODEL_NAME world_fresh list_reply
           (VList [VInt 1; VInt 2; VInt 3]));
    [ reflexivity | apply good_status_200 | reflexivity | reflexivity ].
Defined.

Lemma get_chat_response_result_trimmed_witness :
  fst (get_chat_response JsonRef.loads RequestsJSONDecodeError env_padded "Hi"
         GENERATION_MODEL_NAME world_fresh) = Ret "Hello, Alex!".
Proof.
  edestruct (get_chat_response_result_trimmed JsonRef.loads RequestsJSONDecodeError
               env_padded "Hi" GENERATION_MODEL_NAME world_fresh padded_reply
               [("response", VStr ("  Hello, Alex!  " +:+ nl))]
               ("  Hello, Alex!  " +:+ nl))
    as (reply & Hrun & Hreply & _);
    [ reflexivity | apply good_status_200 | reflexivity | reflexivity | ].
  rewrite Hrun, Hreply. reflexivity.
Defined.

Lemma get_chat_response_non_string_raises_witness :
  exists e,
    get_chat_response JsonRef.loads RequestsJSONDecodeError env_number "Hi"
      GENERATION_MODEL_NAME world_fresh =
      (Raise e,
       mk_world (Some []) None [] [generate_post "Hi" GENERATION_MODEL_NAME]) /\
    exn_type e = AttributeError.
Proof.
  apply (get_chat_response_non_string_raises JsonRef.loads RequestsJSONDecodeError
           env_number "Hi" GENERATION_MODEL_NAME world_fresh number_reply
           (VDict [("response", VInt 42)]));
    [ reflexivity | apply good_status_200 | reflexivity | ].
  right. exists [("response", VInt 42)], (VInt 42). by repeat split.
Defined.

Lemma get_chat_response_unreachable_or_error_status_witness :
  http_error error_reply /\
  fst (get_chat_response JsonRef.loads RequestsJSONDecodeError env_down "Hi"
         GENERATION_MODEL_NAME world_fresh) = Ret transport_fallback /\
  fst (get_chat_response JsonRef.loads RequestsJSONDecodeError env_error "Hi"
         GENERATION_MODEL_NAME world_fresh) = Ret transport_fallback.
Proof.
  assert (Herr : http_error error_reply) by (unfold http_error; cbn; lia).
  split; [ exact Herr | split ].
  - pose proof (get_chat_response_unreachable_or_error_status JsonRef.loads
                  RequestsJSONDecodeError env_down "Hi" GENERATION_MODEL_NAME world_fresh)
      as H.
    cbv zeta in H. destruct H as [H _].
    rewrite (H "Connection refused" eq_refl). reflexivity.
  - pose proof (get_chat_response_unreachable_or_error_status JsonRef.loads
                  RequestsJSONDecodeError env_error "Hi" GENERATION_MODEL_NAME world_fresh)
      as H.
    cbv zeta in H. destruct H as [_ H].
    destruct (H error_reply eq_refl Herr) as [report ->]. reflexivity.
Defined.

Lemma save_conversation_turn_uninitialized_witness :
  save_conversation_turn JsonRef.loads JsonRef.dumps RequestsJSONDecodeError sample_path
    env_up "Hi" "Hello!" "turn_9" world_uninitialized =
    (Ret tt,
     mk_world None None
       ["Error: ChromaDB collection not initialized. Cannot save turn."] []).
Proof.
  exact (save_conversation_turn_uninitialized JsonRef.loads JsonRef.dumps
           RequestsJSONDecodeError sample_path env_up "Hi" "Hello!" "turn_9"
           world_uninitialized eq_refl).
Defined.

Lemma save_conversation_turn_add_failure_witness :
  exists w',
    save_conversation_turn JsonRef.loads JsonRef.dumps RequestsJSONDecodeError sample_path
      env_up (user_text turn_alex) (bot_text turn_alex) "turn_1" world_two = (Ret tt, w') /\
    last (stdout w') =
      Some ("Error adding turn_id " +:+ "turn_1" +:+ " to ChromaDB: "
            +:+ "ID already exists") /\
    collection w' = Some [record_of_turn turn_alex; record_of_turn turn_python].
Proof.
  edestruct (save_conversation_turn_add_failure JsonRef.loads JsonRef.dumps
               RequestsJSONDecodeError sample_path env_up (user_text turn_alex)
               (bot_text turn_alex) "turn_1" world_two
               [record_of_turn turn_alex; record_of_turn turn_python]
               (VList [VInt 1; VInt 2; VInt 3])
               (mk_exn DuplicateIDError "ID already exists")
               [record_of_turn turn_alex; record_of_turn turn_python])
    as (w' & Hrun & Hlast & _ & Hcoll);
    [ reflexivity | reflexivity | reflexivity | reflexivity | ].
  exists w'. split; [ exact Hrun | split; [ exact Hlast | exact Hcoll ] ].
Defined.

Lemma save_conversation_turn_falsy_embedding_witness :
  exists w',
    save_conversation_turn JsonRef.loads JsonRef.dumps RequestsJSONDecodeError sample_path
      env_empty_embedding "Hi" "Hello!" "turn_9" world_fresh = (Ret tt, w') /\
    collection w' = Some [] /\
    last (stdout w') =
      Some ("Could not get embedding for turn_id " +:+ "turn_9"
            +:+ ". Not adding to vector store.").
Proof.
  edestruct (save_conversation_turn_falsy_embedding JsonRef.loads JsonRef.dumps
               RequestsJSONDecodeError sample_path env_empty_embedding "Hi" "Hello!"
               "turn_9" world_fresh [] empty_embedding_reply
               [("embedding", VList [])] (VList []))
    as (w' & Hrun & Hcoll & _ & _ & Hlast);
    [ reflexivity | reflexivity | apply good_status_200 | reflexivity | reflexivity
    | reflexivity | ].
  exists w'. split; [ exact Hrun | split; [ exact Hcoll | exact Hlast ] ].
Defined.


Lemma load_raw_history_open_error_witness :
  exists s,
    history_file world_two = Some s /\
    load_raw_history JsonRef.loads sample_path env_no_read world_two =
      (Ret [],
       mk_world (collection world_two) (Some s)
         ["Error loading from history file " +:+ sample_path +:+ ": "
          +:+ "Permission denied"]
         [EvExists sample_path; EvOpen sample_path "r"]).
Proof.
  eexists. split; [ reflexivity | ].
  apply (load_raw_history_open_error JsonRef.loads sample_path env_no_read world_two);
    reflexivity.
Defined.

Lemma load_raw_history_accounts_for_lines_witness :
  exists turns reports w',
    load_raw_history JsonRef.loads sample_path env_up world_corrupted = (Ret turns, w') /\
    stdout w' = reports /\
    length turns + length reports = 2.
Proof.
  edestruct (load_raw_history_accounts_for_lines JsonRef.loads sample_path env_up
               world_corrupted)
    as (turns & reports & w' & Hrun & Hout & Hsum & _);
    [ reflexivity | reflexivity | reflexivity | | ].
  { let lines := eval vm_compute in
                   (readlines (default "" (history_file world_corrupted))) in
    change (Forall (settled JsonRef.loads) lines).
    constructor; [ unfold settled; vm_compute; reflexivity | ].
    constructor; [ unfold settled; vm_compute; exact I | constructor ]. }
  exists turns, reports, w'. split; [ exact Hrun | split; [ exact Hout | exact Hsum ] ].
Defined.

Lemma load_raw_history_decoder_fault_aborts_witness :
  JsonRef.loads (JsonRef.dumps (doc_of_turn turn_alex) +:+ nl) = inl (doc_of_turn turn_alex) /\
  JsonRef.loads (long_integer +:+ nl) = inr JsonRef.digits_refused /\
  load_raw_history JsonRef.loads sample_path env_up world_long_line =
    (Raise JsonRef.digits_refused,
     mk_world (collection world_long_line) (history_file world_long_line) []
       [EvExists sample_path; EvOpen sample_path "r"]).
Proof.
  assert (Hgood : JsonRef.loads (JsonRef.dumps (doc_of_turn turn_alex) +:+ nl)
                  = inl (doc_of_turn turn_alex)) by (vm_compute; reflexivity).
  assert (Hlong : JsonRef.loads (long_integer +:+ nl) = inr JsonRef.digits_refused)
    by (vm_compute; reflexivity).
  split; [ exact Hgood | ]. split; [ exact Hlong | ].
  refine (eq_trans
            (load_raw_history_decoder_fault_aborts JsonRef.loads sample_path env_up
               world_long_line
               ((JsonRef.dumps (doc_of_turn turn_alex) +:+ nl) +:+ long_integer +:+ nl)
               [JsonRef.dumps (doc_of_turn turn_alex) +:+ nl] (long_integer +:+ nl) []
               JsonRef.digits_refused eq_refl eq_refl eq_refl _ _ Hlong eq_refl eq_refl)
            _).
  - vm_compute; reflexivity.
  - constructor; [ | constructor ]. unfold settled. by rewrite Hgood.
  - vm_compute; reflexivity.
Defined.


Lemma retrieve_relevant_history_count_error_witness :
  retrieve_relevant_history JsonRef.loads RequestsJSONDecodeError sample_repr env_up
    "What is my name?" 3 (world_scripted count_fails) =
    (Ret [],
     mk_world (Some count_fails) None
       ["Error getting count from ChromaDB collection: " +:+ "database is locked"]
       [EvCount]).
Proof.
  apply (retrieve_relevant_history_count_error JsonRef.loads RequestsJSONDecodeError
           sample_repr env_up "What is my name?" 3%Z (world_scripted count_fails)
           count_fails (mk_exn ChromaError "database is locked"));
    reflexivity.
Defined.

Lemma retrieve_relevant_history_embedding_failure_witness :
  exists w',
    retrieve_relevant_history JsonRef.loads RequestsJSONDecodeError sample_repr env_down
      "What is my name?" 3 world_two = (Ret [], w') /\
    trace w' = [EvCount; embeddings_post "What is my name?" EMBEDDING_MODEL_NAME] /\
    last (stdout w') = Some "Could not get embedding for query. Cannot retrieve history.".
Proof.
  edestruct (retrieve_relevant_history_embedding_failure JsonRef.loads
               RequestsJSONDecodeError sample_repr env_down "What is my name?" 3%Z
               world_two [record_of_turn turn_alex; record_of_turn turn_python] 2%Z VNone)
    as (w' & Hrun & Htrace & Hlast & _);
    [ reflexivity | reflexivity | lia | lia | reflexivity | reflexivity | ].
  exists w'. split; [ exact Hrun | split; [ exact Htrace | exact Hlast ] ].
Defined.

Lemma retrieve_relevant_history_query_error_witness :
  retrieve_relevant_history JsonRef.loads RequestsJSONDecodeError sample_repr env_up
    "What is my name?" 3 (world_scripted query_fails) =
    (Ret [],
     mk_world (Some query_fails) None
       ["Error querying ChromaDB: " +:+ "index not found"]
       [EvCount; embeddings_post "What is my name?" EMBEDDING_MODEL_NAME;
        EvQuery [VList [VInt 1; VInt 2; VInt 3]] 2 query_include]).
Proof.
  apply (retrieve_relevant_history_query_error JsonRef.loads RequestsJSONDecodeError
           sample_repr env_up "What is my name?" 3%Z (world_scripted query_fails)
           query_fails 2%Z (VList [VInt 1; VInt 2; VInt 3])
           (mk_exn ChromaError "index not found"));
    [ reflexivity | reflexivity | lia | lia | reflexivity | reflexivity | reflexivity ].
Defined.

Lemma retrieve_relevant_history_non_string_document_aborts_witness :
  exists w' report,
    retrieve_relevant_history JsonRef.loads RequestsJSONDecodeError sample_repr env_up
      "What is my name?" 3 (world_scripted query_gives_none) = (Ret [], w') /\
    last (stdout w') = Some ("Error querying ChromaDB: " +:+ report).
Proof.
  edestruct (retrieve_relevant_history_non_string_document_aborts JsonRef.loads
               RequestsJSONDecodeError sample_repr env_up "What is my name?" 3%Z
               (world_scripted query_gives_none) query_gives_none 2%Z
               (VList [VInt 1; VInt 2; VInt 3])
               [("documents",
                 VList [VList [VStr (JsonRef.dumps (doc_of_turn turn_alex)); VNone]])]
               [JsonRef.dumps (doc_of_turn turn_alex)] VNone [] [])
    as (w' & report & Hrun & Hlast & _);
    [ reflexivity | reflexivity | lia | lia | reflexivity | reflexivity | reflexivity
    | reflexivity | reflexivity | ].
  exists w', report. split; [ exact Hrun | exact Hlast ].
Defined.

Lemma retrieve_relevant_history_answer_without_documents_witness :
  retrieve_relevant_history JsonRef.loads RequestsJSONDecodeError sample_repr env_up
    "What is my name?" 3 (world_scripted query_gives_ids) =
    (Ret [],
     mk_world (Some query_gives_ids) None []
       [EvCount; embeddings_post "What is my name?" EMBEDDING_MODEL_NAME;
        EvQuery [VList [VInt 1; VInt 2; VInt 3]] 2 query_include]).
Proof.
  apply (retrieve_relevant_history_answer_without_documents JsonRef.loads
           RequestsJSONDecodeError sample_repr env_up "What is my name?" 3%Z
           (world_scripted query_gives_ids) query_gives_ids 2%Z
           (VList [VInt 1; VInt 2; VInt 3]) [("ids", VList [VList []])]);
    [ reflexivity | reflexivity | lia | lia | reflexivity | reflexivity | reflexivity
    | reflexivity ].
Defined.

Lemma format_retrieved_history_for_prompt_objects_witness :
  format_retrieved_history_for_prompt sample_repr
    [VDict [("user", VStr "My name is Alex.")]; VDict []] =
    Ret ("Relevant past conversation snippets (most relevant first):" +:+ nl
         +:+ "---" +:+ nl
         +:+ "User: My name is Alex." +:+ nl +:+ "Bot: N/A" +:+ nl +:+ "---" +:+ nl
         +:+ "User: N/A" +:+ nl +:+ "Bot: N/A" +:+ nl +:+ "---" +:+ nl).
Proof.
  edestruct (format_retrieved_history_for_prompt_objects sample_repr
               [VDict [("user", VStr "My name is Alex.")]; VDict []])
    as (Hrun & _ & _);
    [ discriminate | constructor; [ reflexivity | constructor; [ reflexivity | constructor ] ]
    | ].
  rewrite Hrun. reflexivity.
Defined.

Lemma format_retrieved_history_for_prompt_non_object_witness :
  exists e,
    format_retrieved_history_for_prompt sample_repr [doc_of_turn turn_alex; VInt 3] = Raise e /\
    exn_type e = AttributeError.
Proof.
  apply (format_retrieved_history_for_prompt_non_object sample_repr
           [doc_of_turn turn_alex; VInt 3]).
  apply Exists_cons_tl, Exists_cons_hd. reflexivity.
Defined.

Lemma main_leaves_at_once_witness :
  main JsonRef.loads JsonRef.dumps RequestsJSONDecodeError sample_repr sample_path
    [("   ", round_up); ("  QuIt ", round_up); ("What is my name?", round_up)] world_two =
    (Ended,
     mk_world (collection world_two) (history_file world_two)
       ["Starting LocalChatBot...";
        "This bot remembers conversations across sessions.";
        "Type 'quit' or 'exit' to end the conversation.";
        "You: "; "You: ";
        "Bot: Goodbye! Your conversation has been saved.";
        "Chat session ended."]
       []).
Proof.
  apply (main_leaves_at_once JsonRef.loads JsonRef.dumps RequestsJSONDecodeError
           sample_repr sample_path [("   ", round_up)] "  QuIt " round_up
           [("What is my name?", round_up)] world_two).
  - constructor; [ reflexivity | constructor ].
  - reflexivity.
Defined.

Lemma main_ends_on_request_or_end_of_input_witness :
  Exists leaves [("Hello", round_down); ("exit", round_down)] /\
  last (stdout (snd (main JsonRef.loads JsonRef.dumps RequestsJSONDecodeError sample_repr
                       sample_path [("Hello", round_down); ("exit", round_down)]
                       world_two)))
    = Some "Chat session ended." /\
  Forall (fun entry => ~ leaves entry) [("Hello", round_down)] /\
  last (stdout (snd (main JsonRef.loads JsonRef.dumps RequestsJSONDecodeError sample_repr
                       sample_path [("Hello", round_down)] world_two)))
    = Some "You: ".
Proof.
  destruct (main_ends_on_request_or_end_of_input JsonRef.loads JsonRef.dumps
              RequestsJSONDecodeError sample_repr sample_path
              [("Hello", round_down); ("exit", round_down)] world_two) as [Hended _].
  destruct (main_ends_on_request_or_end_of_input JsonRef.loads JsonRef.dumps
              RequestsJSONDecodeError sample_repr sample_path
              [("Hello", round_down)] world_two) as [_ Hinput].
  destruct (Hended eq_refl) as [H1 H2]. destruct (Hinput eq_refl) as [H3 H4].
  split; [ exact H1 | split; [ exact H2 | split; [ exact H3 | exact H4 ] ] ].
Defined.

Lemma main_uninitialized_has_no_memory_witness :
  exists r w' inputs,
    main JsonRef.loads JsonRef.dumps RequestsJSONDecodeError sample_repr sample_path
      [("Hello", round_up); (" ", round_up); ("quit", round_up)] world_uninitialized
      = (r, w') /\
    collection w' = None /\
    history_file w' = None /\
    trace w' = bare_post <$> inputs /\
    inputs `sublist_of` ["Hello"; ""; "quit"].
Proof.
  edestruct (main_uninitialized_has_no_memory JsonRef.loads JsonRef.dumps
               RequestsJSONDecodeError sample_repr sample_path
               [("Hello", round_up); (" ", round_up); ("quit", round_up)]
               world_uninitialized)
    as (r & w' & inputs & Hrun & Hcoll & Hfile & Htrace & Hsub);
    [ reflexivity | ].
  exists r, w', inputs.
  split; [ exact Hrun | split; [ exact Hcoll | split; [ exact Hfile | ] ] ].
  split; [ exact Htrace | exact Hsub ].
Defined.

Lemma chat_round_saves_what_it_shows_witness :
  exists w' w1,
    snd (chat_round JsonRef.loads JsonRef.dumps RequestsJSONDecodeError sample_repr
           sample_path round_up "What is my name?" world_two) = w' /\
    retrieve_relevant_history JsonRef.loads RequestsJSONDecodeError sample_repr env_up
      "What is my name?" 3 world_two
      = (Ret [doc_of_turn turn_alex; doc_of_turn turn_python], w1) /\
    "Bot: " +:+ "Hello, Alex!" ∈ stdout w' /\
    history_file w' =
      Some (default "" (history_file world_two)
            +:+ log_line JsonRef.dumps "What is my name?" "Hello, Alex!"
                  (generate_turn_id 1700000000 sample_uuid)).
Proof.
  edestruct (chat_round_saves_what_it_shows JsonRef.loads JsonRef.dumps
               RequestsJSONDecodeError sample_repr sample_path round_up
               "What is my name?" world_two
               [record_of_turn turn_alex; record_of_turn turn_python]
               [doc_of_turn turn_alex; doc_of_turn turn_python]
               (context_header +:+ turn_blocks [turn_alex; turn_python])
               "Hello, Alex!")
    as (w' & w1 & Hrun & Hlook & Hshown & Hfile & _);
    [ reflexivity | vm_compute; reflexivity | vm_compute; reflexivity
    | vm_compute; reflexivity | ].
  exists w', w1.
  split; [ exact Hrun | split; [ exact Hlook | split; [ exact Hshown | exact Hfile ] ] ].
Defined.

Lemma chat_round_service_unreachable_witness :
  exists w',
    chat_round JsonRef.loads JsonRef.dumps RequestsJSONDecodeError sample_repr sample_path
      round_down "What is my name?" world_two = (Ret tt, w') /\
    collection w' = collection world_two /\
    history_file w' =
      Some (default "" (history_file world_two)
            +:+ log_line JsonRef.dumps "What is my name?" transport_fallback
                  (generate_turn_id 1700000000 sample_uuid)) /\
    trace w' =
      [EvCount;
       embeddings_post "What is my name?" EMBEDDING_MODEL_NAME;
       bare_post "What is my name?";
       EvOpen sample_path "a";
       EvWrite (log_line JsonRef.dumps "What is my name?" transport_fallback
                  (generate_turn_id 1700000000 sample_uuid));
       embeddings_post (embed_text "What is my name?" transport_fallback)
         EMBEDDING_MODEL_NAME].
Proof.
  eexists. split.
  - apply (chat_round_service_unreachable JsonRef.loads JsonRef.dumps
             RequestsJSONDecodeError sample_repr sample_path round_down
             "What is my name?" world_two
             [record_of_turn turn_alex; record_of_turn turn_python] 2%Z
             "Connection refused" "Connection refused" "Connection refused");
      [ reflexivity | reflexivity | lia | intros url body; reflexivity
      | intros url body; reflexivity | intros url body; reflexivity
      | reflexivity | reflexivity ].
  - split; [ reflexivity | split; reflexivity ].
Defined.

